(** * DisplayPlane: buffer-mapping cache and dirty-state tracking

    A shallow embedding of [DisplayPlane.cpp] (the hardware composer's
    display plane base class) together with the properties of its
    mapping cache, its active-buffer queue and its dirty mask.

    The plane talks to three collaborators that live outside the class:
    the buffer manager ([lockDataBuffer], [unlockDataBuffer], [map],
    [unmap]), the mapper objects themselves ([setCrop], [incRef]) and the
    plane-specific [setDataBuffer(BufferMapper&)] of the subclass.  Their
    answers are inputs of the model; every call made to them is appended
    to a call log carried by the plane state, so that "no mapper call" and
    "unmapped exactly once" are statements about that log. *)

From Stdlib Require Import ZArith List Bool Lia Permutation.
Import ListNotations.
Local Open Scope Z_scope.

(** ** Constants of DisplayPlane.h *)

(** The enumerators used by [DisplayPlane.cpp].  The header that declares
    them is not part of the sources, so they are parameters of the whole
    development; what a property needs of them (a dirty bit is not zero,
    the minimum buffer count is at least one and fits an [int]) is a
    hypothesis of that property. *)
Class PlaneConstants : Type := {
  MIN_DATA_BUFFER_COUNT : Z;
  PLANE_POSITION_CHANGED : Z;
  PLANE_BUFFER_CHANGED : Z;
  PLANE_SOURCE_CROP_CHANGED : Z;
  PLANE_TRANSFORM_CHANGED : Z;
  PLANE_TRANSFORM_0 : Z;
  PLANE_TRANSFORM_90 : Z;
  PLANE_TRANSFORM_180 : Z;
  PLANE_TRANSFORM_270 : Z
}.

(** Modelled from the spec: the values of the enumerators of
    DisplayPlane.h, which is missing from the sources.  The spec names the
    rotations by their angle (90/180/270, identity 0), gives 2 as an
    example of the minimum buffer count, and describes the dirty mask as
    four independent bits. *)
Definition spec_constants : PlaneConstants := {|
  MIN_DATA_BUFFER_COUNT := 2;
  PLANE_POSITION_CHANGED := 1;
  PLANE_BUFFER_CHANGED := 2;
  PLANE_SOURCE_CROP_CHANGED := 4;
  PLANE_TRANSFORM_CHANGED := 8;
  PLANE_TRANSFORM_0 := 0;
  PLANE_TRANSFORM_90 := 90;
  PLANE_TRANSFORM_180 := 180;
  PLANE_TRANSFORM_270 := 270
|}.

(** ** Machine integers and bit masks *)

(** Conversion to a 32-bit [int] ([mCacheCapacity = bufferCount],
    [(int)mDataBuffers.size()]). *)
Definition wrap_int32 (z : Z) : Z := (z + 2 ^ 31) mod 2 ^ 32 - 2 ^ 31.

(** The dirty mask is an unsigned field wide enough for the four
    enumerators, so the mask operations never truncate. *)

(** [m |= b] *)
Definition mask_set (m b : Z) : Z := Z.lor m b.

(** [m &= ~b] *)
Definition mask_clear (m b : Z) : Z := Z.land m (Z.lnot b).

(** [m & b] is non-zero *)
Definition mask_test (m b : Z) : bool := negb (Z.land m b =? 0).

(** ** Data model *)

Record Rect : Type := mkRect { rx : Z; ry : Z; rw : Z; rh : Z }.

(** [a.x == x && a.y == y && a.w == w && a.h == h] *)
Definition rect_eqb (a : Rect) (x y w h : Z) : bool :=
  (rx a =? x) && (ry a =? y) && (rw a =? w) && (rh a =? h).

(** A locked [DataBuffer]: its key ([getKey()]) and what
    [GraphicBuffer::isProtectedBuffer] answers for it. *)
Record DataBuffer : Type := mkDataBuffer {
  DataBuffer_getKey : Z;
  isProtectedBuffer : bool
}.

(** A [BufferMapper*]: the object's identity and its key ([getKey()]).
    The crop and the reference count of the object are owned by the
    collaborator; the calls that change them are logged. *)
Record BufferMapper : Type := mkBufferMapper {
  mapperId : Z;
  BufferMapper_getKey : Z
}.

(** Calls made to the collaborators, in the order they are made. *)
Inductive Call : Type :=
| CallLockDataBuffer (handle : Z)
| CallUnlockDataBuffer (buffer : DataBuffer)
| CallBufferSetCrop (buffer : DataBuffer) (crop : Rect)
| CallMap (buffer : DataBuffer)
| CallUnmap (mapper : BufferMapper)
| CallMapperSetCrop (mapper : BufferMapper) (crop : Rect)
| CallIncRef (mapper : BufferMapper)
| CallPlaneSetDataBuffer (mapper : BufferMapper).

(** What the collaborators answer during one [setDataBuffer(handle)]:
    [bm_lockDataBuffer] and [bm_map] return [None] for a NULL pointer,
    [kv_add_ok] is false when [mDataBuffers.add] returns a negative index,
    [plane_setDataBuffer] is the subclass's [setDataBuffer(BufferMapper&)]. *)
Record Collaborators : Type := mkCollaborators {
  bm_lockDataBuffer : Z -> option DataBuffer;
  bm_map : DataBuffer -> option BufferMapper;
  kv_add_ok : bool;
  plane_setDataBuffer : BufferMapper -> bool
}.

(** *** KeyedVector<key, BufferMapper*>

    A vector of pairs kept sorted by key, one entry per key. *)
Definition KeyedVector : Type := list (Z * BufferMapper).

(** [indexOfKey] followed by [valueAt]: [None] stands for a negative
    index. *)
Fixpoint kv_find (key : Z) (kv : KeyedVector) : option BufferMapper :=
  match kv with
  | [] => None
  | (k, v) :: rest => if k =? key then Some v else kv_find key rest
  end.

(** [add]: sorted insertion, replacing the value of a key already there. *)
Fixpoint kv_add (key : Z) (v : BufferMapper) (kv : KeyedVector) : KeyedVector :=
  match kv with
  | [] => [(key, v)]
  | (k, v') :: rest =>
      if key <? k then (key, v) :: kv
      else if key =? k then (key, v) :: rest
      else (k, v') :: kv_add key v rest
  end.

Definition kv_keys (kv : KeyedVector) : list Z := List.map fst kv.
Definition kv_values (kv : KeyedVector) : list BufferMapper := List.map snd kv.

(** *** The plane *)

Record PlaneState : Type := mkPlaneState {
  mIndex : Z;
  mType : Z;
  mZOrder : Z;
  mDevice : Z;
  mInitialized : bool;
  mDataBuffers : KeyedVector;
  mActiveBuffers : list BufferMapper;
  mCacheCapacity : Z;
  mIsProtectedBuffer : bool;
  mTransform : Z;
  mCurrentDataBuffer : Z;
  mUpdateMasks : Z;
  mPosition : Rect;
  mSrcCrop : Rect;
  (** ghost: the calls made to the collaborators so far *)
  mCalls : list Call
}.

Definition set_mZOrder (v : Z) (st : PlaneState) : PlaneState :=
  mkPlaneState (mIndex st) (mType st) v (mDevice st) (mInitialized st)
    (mDataBuffers st) (mActiveBuffers st) (mCacheCapacity st)
    (mIsProtectedBuffer st) (mTransform st) (mCurrentDataBuffer st)
    (mUpdateMasks st) (mPosition st) (mSrcCrop st) (mCalls st).

Definition set_mDevice (v : Z) (st : PlaneState) : PlaneState :=
  mkPlaneState (mIndex st) (mType st) (mZOrder st) v (mInitialized st)
    (mDataBuffers st) (mActiveBuffers st) (mCacheCapacity st)
    (mIsProtectedBuffer st) (mTransform st) (mCurrentDataBuffer st)
    (mUpdateMasks st) (mPosition st) (mSrcCrop st) (mCalls st).

Definition set_mInitialized (v : bool) (st : PlaneState) : PlaneState :=
  mkPlaneState (mIndex st) (mType st) (mZOrder st) (mDevice st) v
    (mDataBuffers st) (mActiveBuffers st) (mCacheCapacity st)
    (mIsProtectedBuffer st) (mTransform st) (mCurrentDataBuffer st)
    (mUpdateMasks st) (mPosition st) (mSrcCrop st) (mCalls st).

Definition set_mDataBuffers (v : KeyedVector) (st : PlaneState) : PlaneState :=
  mkPlaneState (mIndex st) (mType st) (mZOrder st) (mDevice st) (mInitialized st)
    v (mActiveBuffers st) (mCacheCapacity st)
    (mIsProtectedBuffer st) (mTransform st) (mCurrentDataBuffer st)
    (mUpdateMasks st) (mPosition st) (mSrcCrop st) (mCalls st).

Definition set_mActiveBuffers (v : list BufferMapper) (st : PlaneState) : PlaneState :=
  mkPlaneState (mIndex st) (mType st) (mZOrder st) (mDevice st) (mInitialized st)
    (mDataBuffers st) v (mCacheCapacity st)
    (mIsProtectedBuffer st) (mTransform st) (mCurrentDataBuffer st)
    (mUpdateMasks st) (mPosition st) (mSrcCrop st) (mCalls st).

Definition set_mCacheCapacity (v : Z) (st : PlaneState) : PlaneState :=
  mkPlaneState (mIndex st) (mType st) (mZOrder st) (mDevice st) (mInitialized st)
    (mDataBuffers st) (mActiveBuffers st) v
    (mIsProtectedBuffer st) (mTransform st) (mCurrentDataBuffer st)
    (mUpdateMasks st) (mPosition st) (mSrcCrop st) (mCalls st).

Definition set_mIsProtectedBuffer (v : bool) (st : PlaneState) : PlaneState :=
  mkPlaneState (mIndex st) (mType st) (mZOrder st) (mDevice st) (mInitialized st)
    (mDataBuffers st) (mActiveBuffers st) (mCacheCapacity st)
    v (mTransform st) (mCurrentDataBuffer st)
    (mUpdateMasks st) (mPosition st) (mSrcCrop st) (mCalls st).

Definition set_mTransform (v : Z) (st : PlaneState) : PlaneState :=
  mkPlaneState (mIndex st) (mType st) (mZOrder st) (mDevice st) (mInitialized st)
    (mDataBuffers st) (mActiveBuffers st) (mCacheCapacity st)
    (mIsProtectedBuffer st) v (mCurrentDataBuffer st)
    (mUpdateMasks st) (mPosition st) (mSrcCrop st) (mCalls st).

Definition set_mCurrentDataBuffer (v : Z) (st : PlaneState) : PlaneState :=
  mkPlaneState (mIndex st) (mType st) (mZOrder st) (mDevice st) (mInitialized st)
    (mDataBuffers st) (mActiveBuffers st) (mCacheCapacity st)
    (mIsProtectedBuffer st) (mTransform st) v
    (mUpdateMasks st) (mPosition st) (mSrcCrop st) (mCalls st).

Definition set_mUpdateMasks (v : Z) (st : PlaneState) : PlaneState :=
  mkPlaneState (mIndex st) (mType st) (mZOrder st) (mDevice st) (mInitialized st)
    (mDataBuffers st) (mActiveBuffers st) (mCacheCapacity st)
    (mIsProtectedBuffer st) (mTransform st) (mCurrentDataBuffer st)
    v (mPosition st) (mSrcCrop st) (mCalls st).

Definition set_mPosition (v : Rect) (st : PlaneState) : PlaneState :=
  mkPlaneState (mIndex st) (mType st) (mZOrder st) (mDevice st) (mInitialized st)
    (mDataBuffers st) (mActiveBuffers st) (mCacheCapacity st)
    (mIsProtectedBuffer st) (mTransform st) (mCurrentDataBuffer st)
    (mUpdateMasks st) v (mSrcCrop st) (mCalls st).

Definition set_mSrcCrop (v : Rect) (st : PlaneState) : PlaneState :=
  mkPlaneState (mIndex st) (mType st) (mZOrder st) (mDevice st) (mInitialized st)
    (mDataBuffers st) (mActiveBuffers st) (mCacheCapacity st)
    (mIsProtectedBuffer st) (mTransform st) (mCurrentDataBuffer st)
    (mUpdateMasks st) (mPosition st) v (mCalls st).

(** Append calls to the log. *)
Definition log_calls (cs : list Call) (st : PlaneState) : PlaneState :=
  mkPlaneState (mIndex st) (mType st) (mZOrder st) (mDevice st) (mInitialized st)
    (mDataBuffers st) (mActiveBuffers st) (mCacheCapacity st)
    (mIsProtectedBuffer st) (mTransform st) (mCurrentDataBuffer st)
    (mUpdateMasks st) (mPosition st) (mSrcCrop st) (mCalls st ++ cs).

Definition log_call (c : Call) (st : PlaneState) : PlaneState := log_calls [c] st.

(** ** The initialization guard *)

(** Modelled from the spec: the macros [RETURN_FALSE_IF_NOT_INIT] and
    [RETURN_VOID_IF_NOT_INIT] of HwcTrace.h, which is missing from the
    sources.  The spec has a guarded operation called on a plane that is
    not initialized surface NotInitialized as an error result: the method
    returns at once (false, for the methods that return a bool) and
    changes nothing.  (A comment in [deinitialize] speaks of an assertion
    instead; in no reading does a guarded method go on, or return true, on
    a plane that is not initialized.)  [not_initialized] is the test of
    the macro. *)
Definition not_initialized (st : PlaneState) : bool := negb (mInitialized st).

(** ** The methods of DisplayPlane *)

Section Methods.
Context {consts : PlaneConstants}.

(** [DisplayPlane::DisplayPlane(index, type, disp)] *)
Definition DisplayPlane (index type disp : Z) : PlaneState :=
  {| mIndex := index;
     mType := type;
     mZOrder := -1;
     mDevice := disp;
     mInitialized := false;
     mDataBuffers := [];
     mActiveBuffers := [];
     mCacheCapacity := 0;
     mIsProtectedBuffer := false;
     mTransform := PLANE_TRANSFORM_0;
     mCurrentDataBuffer := 0;
     mUpdateMasks := 0;
     mPosition := mkRect 0 0 0 0;
     mSrcCrop := mkRect 0 0 0 0;
     mCalls := [] |}.

(** [initialize(bufferCount)]: [bufferCount] is a [uint32_t]; the
    capacity is taken to be an [int], the type [mapBuffer] casts the size
    to before comparing the two.  The two [setCapacity] calls only reserve
    storage. *)
Definition initialize (st : PlaneState) (bufferCount : Z) : bool * PlaneState :=
  let bufferCount :=
    if bufferCount <? MIN_DATA_BUFFER_COUNT then MIN_DATA_BUFFER_COUNT
    else bufferCount in
  (true, set_mInitialized true (set_mCacheCapacity (wrap_int32 bufferCount) st)).

(** [invalidateBufferCache()]; [RETURN_VOID_IF_NOT_INIT] leaves at once
    when the plane is not initialized. *)
Definition invalidateBufferCache (st : PlaneState) : PlaneState :=
  if not_initialized st then st
  else
    let st := log_calls (List.map CallUnmap (kv_values (mDataBuffers st))) st in
    let st := set_mDataBuffers [] st in
    set_mCurrentDataBuffer 0 st.

(** [invalidateActiveBuffers()] *)
Definition invalidateActiveBuffers (st : PlaneState) : PlaneState :=
  if not_initialized st then st
  else
    let st := log_calls (List.map CallUnmap (mActiveBuffers st)) st in
    set_mActiveBuffers [] st.

(** [deinitialize()] *)
Definition deinitialize (st : PlaneState) : PlaneState :=
  let st :=
    if negb (Z.of_nat (length (mDataBuffers st)) =? 0)
    then invalidateBufferCache st else st in
  let st :=
    if negb (Z.of_nat (length (mActiveBuffers st)) =? 0)
    then invalidateActiveBuffers st else st in
  let st := set_mCurrentDataBuffer 0 st in
  set_mInitialized false st.

(** [setPosition(x, y, w, h)] *)
Definition setPosition (st : PlaneState) (x y w h : Z) : PlaneState :=
  if rect_eqb (mPosition st) x y w h then
    set_mUpdateMasks (mask_clear (mUpdateMasks st) PLANE_POSITION_CHANGED) st
  else
    let st := set_mPosition (mkRect x y w h) st in
    set_mUpdateMasks (mask_set (mUpdateMasks st) PLANE_POSITION_CHANGED) st.

(** [setSourceCrop(x, y, w, h)] *)
Definition setSourceCrop (st : PlaneState) (x y w h : Z) : PlaneState :=
  if rect_eqb (mSrcCrop st) x y w h then
    set_mUpdateMasks (mask_clear (mUpdateMasks st) PLANE_SOURCE_CROP_CHANGED) st
  else
    let st := set_mSrcCrop (mkRect x y w h) st in
    set_mUpdateMasks (mask_set (mUpdateMasks st) PLANE_SOURCE_CROP_CHANGED) st.

(** [setTransform(trans)] *)
Definition setTransform (st : PlaneState) (trans : Z) : PlaneState :=
  if mTransform st =? trans then
    set_mUpdateMasks (mask_clear (mUpdateMasks st) PLANE_TRANSFORM_CHANGED) st
  else
    let st :=
      if (trans =? PLANE_TRANSFORM_90) || (trans =? PLANE_TRANSFORM_180)
         || (trans =? PLANE_TRANSFORM_270)
      then set_mTransform trans st
      else set_mTransform PLANE_TRANSFORM_0 st in
    set_mUpdateMasks (mask_set (mUpdateMasks st) PLANE_TRANSFORM_CHANGED) st.

(** [mapBuffer(buffer)]: the mapper, or [None] for NULL. *)
Definition mapBuffer (env : Collaborators) (st : PlaneState) (buffer : DataBuffer)
  : option BufferMapper * PlaneState :=
  let st :=
    if wrap_int32 (Z.of_nat (length (mDataBuffers st))) >=? mCacheCapacity st
    then invalidateBufferCache st else st in
  let st := log_call (CallMap buffer) st in
  match bm_map env buffer with
  | None => (None, st)
  | Some mapper =>
      if kv_add_ok env then
        (Some mapper,
         set_mDataBuffers
           (kv_add (DataBuffer_getKey buffer) mapper (mDataBuffers st)) st)
      else (None, log_call (CallUnmap mapper) st)
  end.

(** [isActiveBuffer(mapper)].  Only non-null mappers are ever pushed, so
    the entries are mappers and the null test of the loop never fires. *)
Definition isActiveBuffer (st : PlaneState) (mapper : BufferMapper) : bool :=
  existsb (fun activeMapper =>
             BufferMapper_getKey activeMapper =? BufferMapper_getKey mapper)
          (mActiveBuffers st).

(** [updateActiveBuffers(mapper)].  [itemAt(0)] of an empty vector can
    only be asked for when [MIN_DATA_BUFFER_COUNT <= 0]; that branch
    leaves the state alone here. *)
Definition updateActiveBuffers (st : PlaneState) (mapper : BufferMapper) : PlaneState :=
  let st :=
    if Z.of_nat (length (mActiveBuffers st)) >=? MIN_DATA_BUFFER_COUNT then
      match mActiveBuffers st with
      | oldest :: rest => set_mActiveBuffers rest (log_call (CallUnmap oldest) st)
      | [] => st
      end
    else st in
  if negb (isActiveBuffer st mapper) then
    set_mActiveBuffers (mActiveBuffers st ++ [mapper])
      (log_call (CallIncRef mapper) st)
  else st.

(** The tail of [setDataBuffer(handle)], from the call of the plane-specific setter
    on. *)
Definition bindMapper (env : Collaborators) (st : PlaneState) (handle : Z)
    (mapper : BufferMapper) : bool * PlaneState :=
  let st := log_call (CallPlaneSetDataBuffer mapper) st in
  if plane_setDataBuffer env mapper then
    let st := set_mCurrentDataBuffer handle st in
    (true, updateActiveBuffers st mapper)
  else (false, st).

(** [setDataBuffer(handle)]; [RETURN_FALSE_IF_NOT_INIT] returns false when
    the plane is not initialized. *)
Definition setDataBuffer (env : Collaborators) (st : PlaneState) (handle : Z)
  : bool * PlaneState :=
  if not_initialized st then (false, st)
  else if handle =? 0 then (false, st)
  else
    let st :=
      if negb (mCurrentDataBuffer st =? handle)
      then set_mUpdateMasks (mask_set (mUpdateMasks st) PLANE_BUFFER_CHANGED) st
      else set_mUpdateMasks (mask_clear (mUpdateMasks st) PLANE_BUFFER_CHANGED) st in
    if mUpdateMasks st =? 0 then (true, st)
    else
      let st := log_call (CallLockDataBuffer handle) st in
      match bm_lockDataBuffer env handle with
      | None => (false, st)
      | Some buffer =>
          let st := log_call (CallBufferSetCrop buffer (mSrcCrop st)) st in
          let st := set_mIsProtectedBuffer (isProtectedBuffer buffer) st in
          match kv_find (DataBuffer_getKey buffer) (mDataBuffers st) with
          | None =>
              match mapBuffer env st buffer with
              | (None, st) => (false, log_call (CallUnlockDataBuffer buffer) st)
              | (Some mapper, st) =>
                  let st := log_call (CallUnlockDataBuffer buffer) st in
                  bindMapper env st handle mapper
              end
          | Some mapper =>
              let st := log_call (CallMapperSetCrop mapper (mSrcCrop st)) st in
              let st := log_call (CallUnlockDataBuffer buffer) st in
              bindMapper env st handle mapper
          end
      end.

(** [assignToDevice(disp)] *)
Definition assignToDevice (st : PlaneState) (disp : Z) : bool * PlaneState :=
  if not_initialized st then (false, st)
  else (true, set_mDevice disp st).

(** [flip(ctx)] *)
Definition flip (st : PlaneState) : bool :=
  if not_initialized st then false
  else if mUpdateMasks st =? 0 then false else true.

(** [reset()] *)
Definition reset (st : PlaneState) : bool * PlaneState :=
  let st :=
    if Z.of_nat (length (mDataBuffers st)) >? 0
    then invalidateBufferCache st else st in
  let st :=
    if Z.of_nat (length (mActiveBuffers st)) >? 0
    then invalidateActiveBuffers st else st in
  (true, st).

(** [setZOrder(zorder)] and [getZOrder()] *)
Definition setZOrder (st : PlaneState) (zorder : Z) : PlaneState :=
  set_mZOrder zorder st.

Definition getZOrder (st : PlaneState) : Z := mZOrder st.

(** ** Sequences of calls on one plane *)

Inductive Op : Type :=
| OpInitialize (bufferCount : Z)
| OpDeinitialize
| OpSetPosition (x y w h : Z)
| OpSetSourceCrop (x y w h : Z)
| OpSetTransform (trans : Z)
| OpSetDataBuffer (env : Collaborators) (handle : Z)
| OpInvalidateBufferCache
| OpAssignToDevice (disp : Z)
| OpFlip
| OpReset
| OpSetZOrder (zorder : Z).

Definition step (st : PlaneState) (op : Op) : PlaneState :=
  match op with
  | OpInitialize n => snd (initialize st n)
  | OpDeinitialize => deinitialize st
  | OpSetPosition x y w h => setPosition st x y w h
  | OpSetSourceCrop x y w h => setSourceCrop st x y w h
  | OpSetTransform t => setTransform st t
  | OpSetDataBuffer env handle => snd (setDataBuffer env st handle)
  | OpInvalidateBufferCache => invalidateBufferCache st
  | OpAssignToDevice disp => snd (assignToDevice st disp)
  | OpFlip => st
  | OpReset => snd (reset st)
  | OpSetZOrder z => setZOrder st z
  end.

Definition run (st : PlaneState) (ops : list Op) : PlaneState :=
  fold_left step ops st.

(** States a plane can be in: a constructed plane after any calls. *)
Inductive reachable : PlaneState -> Prop :=
| reachable_new index type disp : reachable (DisplayPlane index type disp)
| reachable_step st op : reachable st -> reachable (step st op).

(** A call sequence that follows the life cycle: [initialize] is only
    called on a plane that is not initialized, with a buffer count that an
    [int] can hold. *)
Definition op_in_lifecycle (st : PlaneState) (op : Op) : Prop :=
  match op with
  | OpInitialize n => mInitialized st = false /\ n < 2 ^ 31
  | _ => True
  end.

Inductive lifecycle : PlaneState -> Prop :=
| lifecycle_new index type disp : lifecycle (DisplayPlane index type disp)
| lifecycle_step st op :
    lifecycle st -> op_in_lifecycle st op -> lifecycle (step st op).

(** The mappers admitted to the active queue so far, oldest first. *)
Fixpoint admissions (calls : list Call) : list BufferMapper :=
  match calls with
  | [] => []
  | CallIncRef m :: rest => m :: admissions rest
  | _ :: rest => admissions rest
  end.

(** The mappers unmapped by a run of calls, in order. *)
Fixpoint unmapped (calls : list Call) : list BufferMapper :=
  match calls with
  | [] => []
  | CallUnmap m :: rest => m :: unmapped rest
  | _ :: rest => unmapped rest
  end.

End Methods.

(** ** Predicates used by the properties *)

Section Predicates.
Context {consts : PlaneConstants}.

(** The stored transform is one of the four enumerators. *)
Definition valid_transform (st : PlaneState) : Prop :=
  mTransform st = PLANE_TRANSFORM_0 \/ mTransform st = PLANE_TRANSFORM_90 \/
  mTransform st = PLANE_TRANSFORM_180 \/ mTransform st = PLANE_TRANSFORM_270.

Definition is_rotation (trans : Z) : Prop :=
  trans = PLANE_TRANSFORM_90 \/ trans = PLANE_TRANSFORM_180 \/
  trans = PLANE_TRANSFORM_270.

(** The four dirty bits together. *)
Definition ALL_CHANGED : Z :=
  Z.lor (Z.lor PLANE_POSITION_CHANGED PLANE_BUFFER_CHANGED)
        (Z.lor PLANE_SOURCE_CROP_CHANGED PLANE_TRANSFORM_CHANGED).

(** The dirty mask holds nothing but dirty bits. *)
Definition mask_within (st : PlaneState) : Prop :=
  Z.land (mUpdateMasks st) (Z.lnot ALL_CHANGED) = 0.

(** The logical OR of the four dirty bits. *)
Definition hasPendingChanges (st : PlaneState) : bool :=
  mask_test (mUpdateMasks st) PLANE_POSITION_CHANGED
  || mask_test (mUpdateMasks st) PLANE_BUFFER_CHANGED
  || mask_test (mUpdateMasks st) PLANE_SOURCE_CROP_CHANGED
  || mask_test (mUpdateMasks st) PLANE_TRANSFORM_CHANGED.

(** The mask after the buffer-bit update of [setDataBuffer(handle)]. *)
Definition buffer_bit_updated (st : PlaneState) (handle : Z) : Z :=
  if negb (mCurrentDataBuffer st =? handle)
  then mask_set (mUpdateMasks st) PLANE_BUFFER_CHANGED
  else mask_clear (mUpdateMasks st) PLANE_BUFFER_CHANGED.

(** What the buffer pipeline never writes: the configuration of the
    plane apart from its dirty mask. *)
Definition same_configuration (a b : PlaneState) : Prop :=
  mIndex a = mIndex b /\ mType a = mType b /\ mZOrder a = mZOrder b
  /\ mDevice a = mDevice b /\ mInitialized a = mInitialized b
  /\ mCacheCapacity a = mCacheCapacity b /\ mTransform a = mTransform b
  /\ mPosition a = mPosition b /\ mSrcCrop a = mSrcCrop b.

(** The cache is full: the test of [mapBuffer]. *)
Definition cache_full (st : PlaneState) : bool :=
  wrap_int32 (Z.of_nat (length (mDataBuffers st))) >=? mCacheCapacity st.

Definition active_bounded (st : PlaneState) : Prop :=
  Z.of_nat (length (mActiveBuffers st)) <= MIN_DATA_BUFFER_COUNT.

Definition cache_bounded (st : PlaneState) : Prop :=
  Z.of_nat (length (mDataBuffers st)) <= mCacheCapacity st.

(** The identities held by the active queue, oldest first. *)
Definition active_keys (st : PlaneState) : list Z :=
  List.map BufferMapper_getKey (mActiveBuffers st).

(** The active queue is the most recent part of the admission history. *)
Definition active_is_recent (st : PlaneState) : Prop :=
  exists older, admissions (mCalls st) = older ++ mActiveBuffers st.

(** What keeps the cache within its capacity: the capacity is an [int]
    that did not wrap, it is at least one once the plane is initialized,
    and a plane that is not initialized holds no mapping. *)
Definition cache_inv (st : PlaneState) : Prop :=
  0 <= mCacheCapacity st < 2 ^ 31
  /\ (mInitialized st = true -> 1 <= mCacheCapacity st)
  /\ cache_bounded st
  /\ (mInitialized st = false -> mDataBuffers st = []).

(** Successive [mapBuffer] calls, all of them answered with a mapping. *)
Fixpoint mapBuffers (env : Collaborators) (st : PlaneState)
    (buffers : list DataBuffer) : PlaneState :=
  match buffers with
  | [] => st
  | b :: rest => mapBuffers env (snd (mapBuffer env st b)) rest
  end.

(** Every call of a sequence follows the life cycle. *)
Fixpoint ops_in_lifecycle (st : PlaneState) (ops : list Op) : Prop :=
  match ops with
  | [] => True
  | op :: rest => op_in_lifecycle st op /\ ops_in_lifecycle (step st op) rest
  end.

End Predicates.

(** The cache entries that mapping [buffers] creates, in call order, when
    every [map] is answered with a mapping. *)
Definition entries (env : Collaborators) (buffers : list DataBuffer)
  : list (Z * BufferMapper) :=
  flat_map (fun b => match bm_map env b with
                     | Some m => [(DataBuffer_getKey b, m)]
                     | None => []
                     end) buffers.

(** ** Collaborators used in the examples *)

(** A buffer manager that resolves handle [h] to the buffer with key [h]
    and maps the buffer with key [k] to the mapper with identity [k]. *)
Definition buffer_of (handle : Z) : DataBuffer := mkDataBuffer handle false.
Definition mapper_of (buffer : DataBuffer) : BufferMapper :=
  mkBufferMapper (DataBuffer_getKey buffer) (DataBuffer_getKey buffer).

Definition env_ok : Collaborators :=
  mkCollaborators (fun h => Some (buffer_of h)) (fun b => Some (mapper_of b))
    true (fun _ => true).

Definition env_lock_fails : Collaborators :=
  mkCollaborators (fun _ => None) (fun b => Some (mapper_of b))
    true (fun _ => true).

Definition env_map_fails : Collaborators :=
  mkCollaborators (fun h => Some (buffer_of h)) (fun _ => None)
    true (fun _ => true).

#[local] Existing Instance spec_constants | 100.

(** A plane initialized with two buffers, at the constants of the spec. *)
Definition fresh_plane : PlaneState := DisplayPlane 0 0 0.
Definition ready_plane : PlaneState := snd (initialize fresh_plane 2).

(** The same plane with buffer 5 bound, and with buffers 5 and 6 set one
    after the other (which fills both the cache and the active queue). *)
Definition bound_plane : PlaneState :=
  run ready_plane [OpSetDataBuffer env_ok 5].
Definition full_plane : PlaneState :=
  run ready_plane [OpSetDataBuffer env_ok 5; OpSetDataBuffer env_ok 6].

(** ** The geometry check and the bookkeeping of references *)

(** What [Drm::getModeInfo] fills in, as far as [checkPosition] reads it:
    the two [uint16_t] resolutions of [drmModeModeInfo]. *)
Record ModeInfo : Type := mkModeInfo { hdisplay : Z; vdisplay : Z }.

(** [checkPosition(x, y, w, h)]: the four references are the fields of
    the rectangle; [getModeInfo] answers [None] when the query fails.  The
    two sums are [int] additions. *)
Definition checkPosition (getModeInfo : Z -> option ModeInfo) (st : PlaneState)
    (r : Rect) : Rect :=
  match getModeInfo (mDevice st) with
  | None => r
  | Some mode =>
      let x := if rx r <? 0 then 0 else rx r in
      let y := if ry r <? 0 then 0 else ry r in
      let w := if wrap_int32 (x + rw r) >? hdisplay mode
               then wrap_int32 (hdisplay mode - x) else rw r in
      let h := if wrap_int32 (y + rh r) >? vdisplay mode
               then wrap_int32 (vdisplay mode - y) else rh r in
      mkRect x y w h
  end.

(** The rectangle lies on the display. *)
Definition on_display (mode : ModeInfo) (r : Rect) : Prop :=
  0 <= rx r /\ 0 <= ry r
  /\ rx r + rw r <= hdisplay mode /\ ry r + rh r <= vdisplay mode.

(** The fields of the rectangle and of the mode are small enough for the
    [int] sums of [checkPosition] not to overflow. *)
Definition small_geometry (mode : ModeInfo) (r : Rect) : Prop :=
  0 <= hdisplay mode < 2 ^ 16 /\ 0 <= vdisplay mode < 2 ^ 16
  /\ - 2 ^ 30 <= rx r < 2 ^ 30 /\ - 2 ^ 30 <= ry r < 2 ^ 30
  /\ - 2 ^ 30 <= rw r < 2 ^ 30 /\ - 2 ^ 30 <= rh r < 2 ^ 30.

(** The keys of the cache are strictly increasing. *)
Fixpoint kv_sorted (kv : KeyedVector) : Prop :=
  match kv with
  | [] => True
  | (k, _) :: rest =>
      match rest with
      | [] => True
      | (k', _) :: _ => k < k'
      end /\ kv_sorted rest
  end.

(** The number of [map] calls in a call log. *)
Fixpoint map_calls (calls : list Call) : nat :=
  match calls with
  | [] => 0
  | CallMap _ :: rest => S (map_calls rest)
  | _ :: rest => map_calls rest
  end.

(** References taken (one per [map], one per [incRef]) and references
    given back (one per [unmap]) according to a call log. *)
Definition references_taken (calls : list Call) : nat :=
  (map_calls calls + length (admissions calls))%nat.

Definition references_released (calls : list Call) : nat :=
  length (unmapped calls).

(** The plane holds no mapping and has no buffer bound. *)
Definition holds_nothing (st : PlaneState) : Prop :=
  mDataBuffers st = [] /\ mActiveBuffers st = [] /\ mCurrentDataBuffer st = 0.

(** Every reference the plane still holds, in the cache or in the active
    queue, and every reference it gave back, was taken before. *)
Definition references_balanced (st : PlaneState) : Prop :=
  (references_released (mCalls st)
   + length (mDataBuffers st) + length (mActiveBuffers st)
   <= references_taken (mCalls st))%nat.

(** What every call on a plane keeps. *)
Definition plane_inv (st : PlaneState) : Prop :=
  (mInitialized st = false -> holds_nothing st)
  /\ (mCurrentDataBuffer st <> 0 -> mDataBuffers st <> [])
  /\ kv_sorted (mDataBuffers st)
  /\ NoDup (active_keys st)
  /\ references_balanced st.

(** The geometry, the transform and the dirty mask of two states agree. *)
Definition same_settings (a b : PlaneState) : Prop :=
  mPosition a = mPosition b /\ mSrcCrop a = mSrcCrop b
  /\ mTransform a = mTransform b /\ mUpdateMasks a = mUpdateMasks b.

(** The buffers of two states agree: cache, active queue, bound buffer,
    protection flag, life-cycle state and call log. *)
Definition same_buffers (a b : PlaneState) : Prop :=
  mDataBuffers a = mDataBuffers b /\ mActiveBuffers a = mActiveBuffers b
  /\ mCurrentDataBuffer a = mCurrentDataBuffer b
  /\ mIsProtectedBuffer a = mIsProtectedBuffer b
  /\ mInitialized a = mInitialized b /\ mCacheCapacity a = mCacheCapacity b
  /\ mCalls a = mCalls b.

(** A plane-specific setter that refuses every mapping. *)
Definition env_plane_fails : Collaborators :=
  mkCollaborators (fun h => Some (buffer_of h)) (fun b => Some (mapper_of b))
    true (fun _ => false).

(** A buffer manager whose [add] to the cache fails. *)
Definition env_add_fails : Collaborators :=
  mkCollaborators (fun h => Some (buffer_of h)) (fun b => Some (mapper_of b))
    false (fun _ => true).

(** A 1920x1080 mode on every device, and no mode at all. *)
Definition drm_1080p (device : Z) : option ModeInfo := Some (mkModeInfo 1920 1080).
Definition drm_unavailable (device : Z) : option ModeInfo := None.

(** * Properties *)

(** ** Bit masks *)

Lemma land_lor_same (m b : Z) : Z.land (Z.lor m b) b = b.
Proof.
  apply Z.bits_inj'; intros n _.
  rewrite Z.land_spec, Z.lor_spec.
  destruct (Z.testbit m n), (Z.testbit b n); reflexivity.
Qed.

Lemma land_clear_same (m b : Z) : Z.land (Z.land m (Z.lnot b)) b = 0.
Proof.
  apply Z.bits_inj'; intros n Hn.
  rewrite !Z.land_spec, Z.lnot_spec, Z.bits_0 by assumption.
  destruct (Z.testbit m n), (Z.testbit b n); reflexivity.
Qed.

Lemma mask_test_set (m b : Z) : b <> 0 -> mask_test (mask_set m b) b = true.
Proof.
  intros Hb. unfold mask_test, mask_set. rewrite land_lor_same.
  apply negb_true_iff, Z.eqb_neq, Hb.
Qed.

Lemma mask_test_clear (m b : Z) : mask_test (mask_clear m b) b = false.
Proof.
  unfold mask_test, mask_clear. rewrite land_clear_same. reflexivity.
Qed.

Lemma mask_set_nonzero (m b : Z) : b <> 0 -> mask_set m b <> 0.
Proof.
  unfold mask_set. intros Hb H0. apply Z.lor_eq_0_iff in H0. tauto.
Qed.

Lemma geb_true (a b : Z) : b <= a -> (a >=? b) = true.
Proof. intros H. rewrite Z.geb_leb. apply Z.leb_le, H. Qed.

Lemma geb_false (a b : Z) : a < b -> (a >=? b) = false.
Proof. intros H. rewrite Z.geb_leb. apply Z.leb_gt, H. Qed.

Lemma rect_eqb_refl (x y w h : Z) : rect_eqb (mkRect x y w h) x y w h = true.
Proof. unfold rect_eqb; simpl. rewrite !Z.eqb_refl. reflexivity. Qed.

(** ** Position: no-change detection *)

Section Position.
Context {consts : PlaneConstants}.
Hypothesis position_bit : PLANE_POSITION_CHANGED <> 0.

Lemma setPosition_stores (st : PlaneState) (x y w h : Z) :
  rect_eqb (mPosition (setPosition st x y w h)) x y w h = true.
Proof.
  unfold setPosition.
  destruct (rect_eqb (mPosition st) x y w h) eqn:E; simpl.
  - exact E.
  - apply rect_eqb_refl.
Qed.

Lemma setPosition_dirty (st : PlaneState) (x y w h : Z) :
  mask_test (mUpdateMasks (setPosition st x y w h)) PLANE_POSITION_CHANGED
  = negb (rect_eqb (mPosition st) x y w h).
Proof.
  unfold setPosition.
  destruct (rect_eqb (mPosition st) x y w h); simpl.
  - apply mask_test_clear.
  - apply mask_test_set, position_bit.
Qed.

(** C4 (as amended): of two successive calls of the position setter with
    the same rectangle R, the first sets the position dirty bit exactly
    when R differs from the stored position (and clears it when R is the
    stored position already); the second always clears it. *)
Theorem setPosition_twice (st : PlaneState) (x y w h : Z) :
  let first := setPosition st x y w h in
  let second := setPosition first x y w h in
  mask_test (mUpdateMasks first) PLANE_POSITION_CHANGED
    = negb (rect_eqb (mPosition st) x y w h)
  /\ mask_test (mUpdateMasks second) PLANE_POSITION_CHANGED = false.
Proof.
  intros first second. split.
  - apply setPosition_dirty.
  - unfold second. rewrite setPosition_dirty.
    unfold first. rewrite setPosition_stores. reflexivity.
Qed.

End Position.

(** At the constants of the spec, on a plane at position (0,0,0,0) and the
    rectangle (10,20,640,480): set by the first call, cleared by the
    second. *)
Lemma setPosition_twice_witness :
  mask_test (mUpdateMasks (setPosition ready_plane 10 20 640 480)) 1 = true
  /\ mask_test (mUpdateMasks
       (setPosition (setPosition ready_plane 10 20 640 480) 10 20 640 480)) 1
     = false.
Proof.
  apply (setPosition_twice (consts := spec_constants)). simpl. lia.
Defined.

(** C4 as stated fails when R is the position the plane already has: the
    first call then clears the dirty bit instead of setting it. *)
Lemma setPosition_first_call_counterexample :
  rect_eqb (mPosition fresh_plane) 0 0 0 0 = true
  /\ mask_test (mUpdateMasks (setPosition fresh_plane 0 0 0 0))
       PLANE_POSITION_CHANGED = false.
Proof. split; reflexivity. Qed.

(** ** Transform: normalisation and its dirty bit *)

Section Transform.
Context {consts : PlaneConstants}.
Hypothesis transform_bit : PLANE_TRANSFORM_CHANGED <> 0.

Lemma setTransform_valid (st : PlaneState) (trans : Z) :
  valid_transform st -> valid_transform (setTransform st trans).
Proof.
  unfold valid_transform, setTransform. intros Hv.
  destruct (mTransform st =? trans); simpl; [exact Hv|].
  destruct (trans =? PLANE_TRANSFORM_90) eqn:E90; simpl;
    [apply Z.eqb_eq in E90; auto|].
  destruct (trans =? PLANE_TRANSFORM_180) eqn:E180; simpl;
    [apply Z.eqb_eq in E180; auto|].
  destruct (trans =? PLANE_TRANSFORM_270) eqn:E270; simpl;
    [apply Z.eqb_eq in E270; auto|].
  auto.
Qed.

Lemma setTransform_rotation (st : PlaneState) (trans : Z) :
  is_rotation trans -> mTransform (setTransform st trans) = trans.
Proof.
  unfold is_rotation, setTransform. intros Hr.
  destruct (mTransform st =? trans) eqn:E; simpl.
  - apply Z.eqb_eq, E.
  - assert (Hsw : (trans =? PLANE_TRANSFORM_90) || (trans =? PLANE_TRANSFORM_180)
                  || (trans =? PLANE_TRANSFORM_270) = true).
    { destruct Hr as [-> | [-> | ->]]; rewrite Z.eqb_refl;
        rewrite ?orb_true_r; reflexivity. }
    rewrite Hsw. reflexivity.
Qed.

Lemma setTransform_other (st : PlaneState) (trans : Z) :
  valid_transform st -> ~ is_rotation trans ->
  mTransform (setTransform st trans) = PLANE_TRANSFORM_0.
Proof.
  unfold is_rotation, valid_transform, setTransform. intros Hv Hn.
  destruct (mTransform st =? trans) eqn:E; simpl.
  - apply Z.eqb_eq in E. rewrite E in Hv |- *. tauto.
  - destruct (trans =? PLANE_TRANSFORM_90) eqn:E90;
      [apply Z.eqb_eq in E90; tauto|].
    destruct (trans =? PLANE_TRANSFORM_180) eqn:E180;
      [apply Z.eqb_eq in E180; tauto|].
    destruct (trans =? PLANE_TRANSFORM_270) eqn:E270;
      [apply Z.eqb_eq in E270; tauto|].
    reflexivity.
Qed.

Lemma setTransform_dirty (st : PlaneState) (trans : Z) :
  mask_test (mUpdateMasks (setTransform st trans)) PLANE_TRANSFORM_CHANGED
  = negb (mTransform st =? trans).
Proof.
  unfold setTransform.
  destruct (mTransform st =? trans); simpl.
  - apply mask_test_clear.
  - destruct ((trans =? PLANE_TRANSFORM_90) || (trans =? PLANE_TRANSFORM_180)
              || (trans =? PLANE_TRANSFORM_270)); simpl;
      apply mask_test_set, transform_bit.
Qed.

(** C3 (as amended): on a plane whose stored transform is one of the four
    enumerators, the transform setter stores t when t is 90, 180 or 270 and
    identity for any other t; it sets the transform dirty bit exactly when
    t differs from the transform stored before the call, and clears it
    when t is that stored value. *)
Theorem setTransform_normalizes (st : PlaneState) (trans : Z) :
  valid_transform st ->
  (is_rotation trans -> mTransform (setTransform st trans) = trans)
  /\ (~ is_rotation trans ->
      mTransform (setTransform st trans) = PLANE_TRANSFORM_0)
  /\ mask_test (mUpdateMasks (setTransform st trans)) PLANE_TRANSFORM_CHANGED
     = negb (mTransform st =? trans).
Proof.
  intros Hv. split; [|split].
  - apply setTransform_rotation.
  - apply setTransform_other, Hv.
  - apply setTransform_dirty.
Qed.

End Transform.

(** At the constants of the spec, from the identity transform: 90 is
    stored as such, 45 normalises to identity, and the dirty bit follows
    the comparison of the input with the stored value. *)
Lemma setTransform_normalizes_witness :
  (is_rotation 90 -> mTransform (setTransform ready_plane 90) = 90)
  /\ (~ is_rotation 90 -> mTransform (setTransform ready_plane 90) = 0)
  /\ mask_test (mUpdateMasks (setTransform ready_plane 90)) 8 = true.
Proof.
  apply (setTransform_normalizes (consts := spec_constants)).
  - simpl. lia.
  - left. reflexivity.
Defined.

(** C3 as stated fails for an input that is no rotation while identity is
    stored: 45 leaves the stored transform at identity (no change), yet
    the transform dirty bit is set. *)
Lemma setTransform_dirty_counterexample :
  mTransform (setTransform fresh_plane 45) = mTransform fresh_plane
  /\ mask_test (mUpdateMasks (setTransform fresh_plane 45))
       PLANE_TRANSFORM_CHANGED = true.
Proof. split; reflexivity. Qed.

(** ** The commit decision *)

Section Flip.
Context {consts : PlaneConstants}.

(** C9: on a plane that is not initialized, flip returns false whatever
    the dirty mask holds, also when the position, crop or transform
    setters (which do not test for initialization) made it non-zero. *)
Theorem flip_not_initialized (st : PlaneState) :
  mInitialized st = false -> flip st = false.
Proof. intros Hi. unfold flip, not_initialized. rewrite Hi. reflexivity. Qed.

Lemma flip_initialized (st : PlaneState) :
  mInitialized st = true -> flip st = negb (mUpdateMasks st =? 0).
Proof.
  intros Hi. unfold flip, not_initialized. rewrite Hi. simpl.
  destruct (mUpdateMasks st =? 0); reflexivity.
Qed.

End Flip.

(** A plane that was never initialized and whose position was set: the
    dirty mask is non-zero and flip still answers false. *)
Lemma flip_not_initialized_witness :
  mUpdateMasks (setPosition fresh_plane 10 20 640 480) <> 0
  /\ flip (setPosition fresh_plane 10 20 640 480) = false.
Proof.
  split.
  - vm_compute. discriminate.
  - apply flip_not_initialized. reflexivity.
Defined.

(** ** The active queue *)

Section ActiveSet.
Context {consts : PlaneConstants}.

Lemma isActiveBuffer_spec (st : PlaneState) (mapper : BufferMapper) :
  isActiveBuffer st mapper = true <->
  In (BufferMapper_getKey mapper) (active_keys st).
Proof.
  unfold isActiveBuffer, active_keys. rewrite existsb_exists, in_map_iff.
  split; intros [a [H1 H2]]; exists a.
  - apply Z.eqb_eq in H2. auto.
  - split; [assumption | apply Z.eqb_eq; assumption].
Qed.

Lemma isActiveBuffer_false (st : PlaneState) (mapper : BufferMapper) :
  isActiveBuffer st mapper = false <->
  ~ In (BufferMapper_getKey mapper) (active_keys st).
Proof.
  rewrite <- isActiveBuffer_spec.
  destruct (isActiveBuffer st mapper); split; intros; congruence.
Qed.

(** The admission half of [updateActiveBuffers], after the eviction. *)
Lemma admit_nodup (st : PlaneState) (mapper : BufferMapper) :
  NoDup (active_keys st) ->
  NoDup (active_keys
    (if negb (isActiveBuffer st mapper)
     then set_mActiveBuffers (mActiveBuffers st ++ [mapper])
            (log_call (CallIncRef mapper) st)
     else st)).
Proof.
  intros Hnd. destruct (isActiveBuffer st mapper) eqn:E; simpl; [exact Hnd|].
  apply isActiveBuffer_false in E.
  unfold active_keys in *; simpl. rewrite map_app; simpl.
  apply NoDup_rev in Hnd. rewrite <- (rev_involutive (_ ++ _)).
  apply NoDup_rev. rewrite rev_app_distr; simpl.
  constructor; [rewrite <- in_rev; exact E | exact Hnd].
Qed.

Lemma updateActiveBuffers_nodup (st : PlaneState) (mapper : BufferMapper) :
  NoDup (active_keys st) ->
  NoDup (active_keys (updateActiveBuffers st mapper)).
Proof.
  intros Hnd. unfold updateActiveBuffers.
  destruct (Z.of_nat (length (mActiveBuffers st)) >=? MIN_DATA_BUFFER_COUNT).
  - destruct (mActiveBuffers st) as [|oldest rest] eqn:E.
    + apply admit_nodup, Hnd.
    + apply admit_nodup. unfold active_keys in *; simpl.
      rewrite E in Hnd; simpl in Hnd. inversion Hnd; assumption.
  - apply admit_nodup, Hnd.
Qed.

Lemma updateActiveBuffers_present (st : PlaneState) (mapper : BufferMapper) :
  Z.of_nat (length (mActiveBuffers st)) < MIN_DATA_BUFFER_COUNT ->
  isActiveBuffer st mapper = true ->
  updateActiveBuffers st mapper = st.
Proof.
  intros Hlt Hin. unfold updateActiveBuffers.
  rewrite (geb_false _ _ Hlt).
  rewrite Hin. reflexivity.
Qed.

(** C5 (as amended): admitting a mapping whose identity is already in an
    Active Set that holds fewer than minActiveCount entries leaves the set
    (and the plane) exactly as it was, with no call to the mapper; and
    for every Active Set, full or not, admission never produces a
    duplicate entry for an identity. *)
Theorem readmission_keeps_active_set (st : PlaneState) (mapper : BufferMapper) :
  (Z.of_nat (length (mActiveBuffers st)) < MIN_DATA_BUFFER_COUNT ->
   isActiveBuffer st mapper = true ->
   updateActiveBuffers st mapper = st)
  /\ (NoDup (active_keys st) ->
      NoDup (active_keys (updateActiveBuffers st mapper))).
Proof.
  split.
  - apply updateActiveBuffers_present.
  - apply updateActiveBuffers_nodup.
Qed.

(** On overflow the entry at the front of the queue is the one unmapped
    and removed; the rest keeps its order and the new mapping goes to the
    back. *)
Lemma updateActiveBuffers_evicts_front
    (st : PlaneState) (mapper oldest : BufferMapper) (rest : list BufferMapper) :
  mActiveBuffers st = oldest :: rest ->
  MIN_DATA_BUFFER_COUNT <= Z.of_nat (length (mActiveBuffers st)) ->
  exists admitted,
    (admitted = [] \/ admitted = [mapper])
    /\ mActiveBuffers (updateActiveBuffers st mapper) = rest ++ admitted
    /\ mCalls (updateActiveBuffers st mapper)
       = mCalls st ++ CallUnmap oldest :: List.map CallIncRef admitted.
Proof.
  intros E Hfull. unfold updateActiveBuffers.
  rewrite (geb_true _ _ Hfull).
  rewrite E.
  destruct (isActiveBuffer _ mapper); simpl.
  - exists []. rewrite app_nil_r. auto.
  - exists [mapper]. rewrite <- app_assoc. auto.
Qed.

Lemma updateActiveBuffers_bounded (st : PlaneState) (mapper : BufferMapper) :
  1 <= MIN_DATA_BUFFER_COUNT ->
  active_bounded st -> active_bounded (updateActiveBuffers st mapper).
Proof.
  unfold active_bounded, updateActiveBuffers. intros Hmin Hb.
  destruct (Z.of_nat (length (mActiveBuffers st)) >=? MIN_DATA_BUFFER_COUNT) eqn:E.
  - destruct (mActiveBuffers st) as [|oldest rest] eqn:Ea.
    + destruct (isActiveBuffer st mapper); simpl; rewrite Ea; simpl; lia.
    + simpl in Hb.
      destruct (isActiveBuffer _ mapper); simpl;
        rewrite ?length_app; simpl; lia.
  - rewrite Z.geb_leb in E. apply Z.leb_gt in E.
    destruct (isActiveBuffer st mapper); simpl;
      rewrite ?length_app; simpl; lia.
Qed.

End ActiveSet.

(** At the constants of the spec (two active entries at most): mapping 5
    is re-admitted to the queue that holds only 5, and nothing changes. *)
Lemma readmission_keeps_active_set_witness :
  updateActiveBuffers bound_plane (mapper_of (buffer_of 5)) = bound_plane
  /\ NoDup (active_keys
              (updateActiveBuffers bound_plane (mapper_of (buffer_of 5)))).
Proof.
  destruct (readmission_keeps_active_set (consts := spec_constants)
              bound_plane (mapper_of (buffer_of 5))) as [Hsame Hnd].
  split.
  - apply Hsame; [vm_compute; reflexivity | reflexivity].
  - apply Hnd. vm_compute. constructor; [intros [] | constructor].
Defined.

(** C5 as stated fails on a full Active Set: with the two entries 5 and 6
    queued, re-admitting 6 first evicts the oldest entry 5, so the set
    shrinks from two entries to one. *)
Lemma readmission_full_set_counterexample :
  isActiveBuffer full_plane (mapper_of (buffer_of 6)) = true
  /\ length (mActiveBuffers full_plane) = 2%nat
  /\ length (mActiveBuffers
               (updateActiveBuffers full_plane (mapper_of (buffer_of 6))))
     = 1%nat.
Proof. repeat split. Qed.

(** ** KeyedVector and machine integers *)

Lemma wrap_int32_small (z : Z) : - 2 ^ 31 <= z < 2 ^ 31 -> wrap_int32 z = z.
Proof.
  intros H. unfold wrap_int32.
  rewrite Z.mod_small by lia. lia.
Qed.

Lemma kv_find_None (key : Z) (kv : KeyedVector) :
  kv_find key kv = None <-> ~ In key (kv_keys kv).
Proof.
  induction kv as [|[k v] rest IH]; simpl.
  - tauto.
  - destruct (k =? key) eqn:E.
    + apply Z.eqb_eq in E. split; [discriminate | tauto].
    + apply Z.eqb_neq in E. rewrite IH. tauto.
Qed.

Lemma kv_add_length_le (key : Z) (v : BufferMapper) (kv : KeyedVector) :
  (length (kv_add key v kv) <= S (length kv))%nat.
Proof.
  induction kv as [|[k v'] rest IH]; simpl.
  - lia.
  - destruct (key <? k); [simpl; lia|].
    destruct (key =? k); simpl; lia.
Qed.

Lemma kv_add_new (key : Z) (v : BufferMapper) (kv : KeyedVector) :
  ~ In key (kv_keys kv) -> Permutation (kv_add key v kv) ((key, v) :: kv).
Proof.
  induction kv as [|[k v'] rest IH]; simpl; intros Hn.
  - apply Permutation_refl.
  - destruct (key <? k); [apply Permutation_refl|].
    destruct (key =? k) eqn:E.
    + apply Z.eqb_eq in E. exfalso. apply Hn. left. symmetry. exact E.
    + eapply perm_trans; [apply perm_skip, IH; tauto | apply perm_swap].
Qed.

Lemma admissions_app (a b : list Call) :
  admissions (a ++ b) = admissions a ++ admissions b.
Proof.
  induction a as [|c a IH]; simpl; [reflexivity|].
  destruct c; simpl; rewrite IH; reflexivity.
Qed.

Lemma admissions_unmaps (ms : list BufferMapper) :
  admissions (List.map CallUnmap ms) = [].
Proof. induction ms; simpl; auto. Qed.

Lemma unmapped_app (a b : list Call) :
  unmapped (a ++ b) = unmapped a ++ unmapped b.
Proof.
  induction a as [|c a IH]; simpl; [reflexivity|].
  destruct c; simpl; rewrite IH; reflexivity.
Qed.

Lemma unmapped_unmaps (ms : list BufferMapper) :
  unmapped (List.map CallUnmap ms) = ms.
Proof. induction ms; simpl; congruence. Qed.

Lemma unmapped_maps (bs : list DataBuffer) :
  unmapped (List.map CallMap bs) = [].
Proof. induction bs; simpl; auto. Qed.

(** ** What the buffer pipeline leaves alone *)

Section Pipeline.
Context {consts : PlaneConstants}.

Lemma same_configuration_refl (st : PlaneState) : same_configuration st st.
Proof. unfold same_configuration. tauto. Qed.

Lemma same_configuration_trans (a b c : PlaneState) :
  same_configuration a b -> same_configuration b c -> same_configuration a c.
Proof. unfold same_configuration. intuition congruence. Qed.

Lemma invalidateBufferCache_frame (st : PlaneState) :
  let st' := invalidateBufferCache st in
  same_configuration st st'
  /\ mUpdateMasks st' = mUpdateMasks st
  /\ mActiveBuffers st' = mActiveBuffers st
  /\ mIsProtectedBuffer st' = mIsProtectedBuffer st
  /\ admissions (mCalls st') = admissions (mCalls st).
Proof.
  unfold invalidateBufferCache, same_configuration, not_initialized.
  destruct (mInitialized st) eqn:Hi; simpl; rewrite ?Hi; repeat split.
  rewrite admissions_app, admissions_unmaps, app_nil_r. reflexivity.
Qed.

Lemma invalidateBufferCache_initialized (st : PlaneState) :
  mInitialized st = true ->
  mDataBuffers (invalidateBufferCache st) = []
  /\ mCurrentDataBuffer (invalidateBufferCache st) = 0
  /\ mCalls (invalidateBufferCache st)
     = mCalls st ++ List.map CallUnmap (kv_values (mDataBuffers st)).
Proof.
  intros Hi. unfold invalidateBufferCache, not_initialized. rewrite Hi. simpl. auto.
Qed.

Lemma mapBuffer_frame (env : Collaborators) (st : PlaneState) (buffer : DataBuffer) :
  let st' := snd (mapBuffer env st buffer) in
  same_configuration st st'
  /\ mUpdateMasks st' = mUpdateMasks st
  /\ mActiveBuffers st' = mActiveBuffers st
  /\ mIsProtectedBuffer st' = mIsProtectedBuffer st
  /\ admissions (mCalls st') = admissions (mCalls st).
Proof.
  unfold mapBuffer.
  pose proof (invalidateBufferCache_frame st) as Hinv. simpl in Hinv.
  destruct (wrap_int32 (Z.of_nat (length (mDataBuffers st))) >=? mCacheCapacity st).
  - destruct Hinv as (Hc & Hm & Ha & Hp & Hadm).
    unfold same_configuration in *.
    destruct (bm_map env buffer); [destruct (kv_add_ok env)|]; simpl;
      rewrite ?admissions_app; simpl; rewrite ?app_nil_r; tauto.
  - unfold same_configuration.
    destruct (bm_map env buffer); [destruct (kv_add_ok env)|]; simpl;
      rewrite ?admissions_app; simpl; rewrite ?app_nil_r; tauto.
Qed.

Lemma updateActiveBuffers_frame (st : PlaneState) (mapper : BufferMapper) :
  let st' := updateActiveBuffers st mapper in
  same_configuration st st'
  /\ mUpdateMasks st' = mUpdateMasks st
  /\ mDataBuffers st' = mDataBuffers st
  /\ mCurrentDataBuffer st' = mCurrentDataBuffer st
  /\ mIsProtectedBuffer st' = mIsProtectedBuffer st.
Proof.
  unfold updateActiveBuffers, same_configuration.
  destruct (Z.of_nat (length (mActiveBuffers st)) >=? MIN_DATA_BUFFER_COUNT);
    [destruct (mActiveBuffers st)|];
    destruct (isActiveBuffer _ mapper); simpl; tauto.
Qed.

Lemma bindMapper_frame (env : Collaborators) (st : PlaneState) (handle : Z)
    (mapper : BufferMapper) :
  let st' := snd (bindMapper env st handle mapper) in
  same_configuration st st'
  /\ mUpdateMasks st' = mUpdateMasks st
  /\ mDataBuffers st' = mDataBuffers st
  /\ mIsProtectedBuffer st' = mIsProtectedBuffer st.
Proof.
  unfold bindMapper.
  destruct (plane_setDataBuffer env mapper); simpl.
  - match goal with |- context [updateActiveBuffers ?s mapper] =>
      pose proof (updateActiveBuffers_frame s mapper) as H end.
    simpl in H. unfold same_configuration in *. simpl in H. tauto.
  - unfold same_configuration. simpl. tauto.
Qed.

(** [setDataBuffer] writes neither the geometry, the transform, the
    capacity nor the initialized flag, and its only write to the dirty
    mask is the update of the buffer bit. *)
Lemma setDataBuffer_frame (env : Collaborators) (st : PlaneState) (handle : Z) :
  let st' := snd (setDataBuffer env st handle) in
  same_configuration st st'
  /\ mUpdateMasks st'
     = if mInitialized st && negb (handle =? 0)
       then buffer_bit_updated st handle else mUpdateMasks st.
Proof.
  unfold setDataBuffer, buffer_bit_updated, not_initialized.
  destruct (mInitialized st) eqn:Hi; simpl;
    [|split; [apply same_configuration_refl | reflexivity]].
  destruct (handle =? 0); simpl;
    [split; [apply same_configuration_refl | reflexivity]|].
  set (m := if negb (mCurrentDataBuffer st =? handle)
            then mask_set (mUpdateMasks st) PLANE_BUFFER_CHANGED
            else mask_clear (mUpdateMasks st) PLANE_BUFFER_CHANGED).
  assert (Hst : (if negb (mCurrentDataBuffer st =? handle)
                 then set_mUpdateMasks
                        (mask_set (mUpdateMasks st) PLANE_BUFFER_CHANGED) st
                 else set_mUpdateMasks
                        (mask_clear (mUpdateMasks st) PLANE_BUFFER_CHANGED) st)
                = set_mUpdateMasks m st).
  { unfold m. destruct (negb (mCurrentDataBuffer st =? handle)); reflexivity. }
  rewrite Hst. clear Hst. simpl.
  destruct (m =? 0); simpl;
    [split; [unfold same_configuration; simpl; tauto | reflexivity]|].
  destruct (bm_lockDataBuffer env handle) as [buffer|]; simpl;
    [|split; [unfold same_configuration; simpl; tauto | reflexivity]].
  destruct (kv_find (DataBuffer_getKey buffer) (mDataBuffers st)) as [mapper|].
  - match goal with |- context [bindMapper env ?s handle mapper] =>
      pose proof (bindMapper_frame env s handle mapper) as H end.
    simpl in H. unfold same_configuration in *. simpl in H. tauto.
  - match goal with |- context [mapBuffer env ?s buffer] =>
      pose proof (mapBuffer_frame env s buffer) as H;
      destruct (mapBuffer env s buffer) as [[mapper|] st1] end.
    + match goal with |- context [bindMapper env ?s handle mapper] =>
        pose proof (bindMapper_frame env s handle mapper) as H' end.
      simpl in H, H'. unfold same_configuration in *. simpl in H, H'.
      intuition congruence.
    + simpl in H. unfold same_configuration in *. simpl in *. tauto.
Qed.

End Pipeline.

(** ** Invariants of the reachable states *)

Arguments wrap_int32 : simpl never.

(** Case analysis for [deinitialize] and [reset]: which of the two
    structures is drained, and whether the plane is initialized. *)
Ltac drain_cases :=
  repeat match goal with
         | |- context [if ?c then _ else _] => destruct c
         end;
  repeat match goal with
         | |- context [invalidateActiveBuffers ?s] =>
             unfold invalidateActiveBuffers, not_initialized; destruct (mInitialized s); simpl
         | |- context [invalidateBufferCache ?s] =>
             unfold invalidateBufferCache, not_initialized; destruct (mInitialized s); simpl
         end.

Section Invariants.
Context {consts : PlaneConstants}.

(** *** The dirty mask holds dirty bits only *)

Lemma within_set (m b a : Z) :
  Z.land m (Z.lnot a) = 0 -> Z.land b (Z.lnot a) = 0 ->
  Z.land (mask_set m b) (Z.lnot a) = 0.
Proof.
  intros Hm Hb. unfold mask_set.
  rewrite Z.land_lor_distr_l, Hm, Hb. reflexivity.
Qed.

Lemma within_clear (m b a : Z) :
  Z.land m (Z.lnot a) = 0 -> Z.land (mask_clear m b) (Z.lnot a) = 0.
Proof.
  intros Hm. unfold mask_clear.
  rewrite <- Z.land_assoc, (Z.land_comm (Z.lnot b)), Z.land_assoc, Hm.
  apply Z.land_0_l.
Qed.

Lemma bit_in_lor_l (b c : Z) : Z.land b (Z.lnot (Z.lor b c)) = 0.
Proof.
  apply Z.bits_inj'; intros n Hn.
  rewrite Z.land_spec, Z.lnot_spec, Z.lor_spec, Z.bits_0 by assumption.
  destruct (Z.testbit b n), (Z.testbit c n); reflexivity.
Qed.

Lemma within_lor_l (b a c : Z) :
  Z.land b (Z.lnot a) = 0 -> Z.land b (Z.lnot (Z.lor a c)) = 0.
Proof.
  intros H. apply Z.bits_inj'; intros n Hn.
  apply (f_equal (fun z => Z.testbit z n)) in H.
  rewrite Z.land_spec, Z.lnot_spec, Z.bits_0 in H by assumption.
  rewrite Z.land_spec, Z.lnot_spec, Z.lor_spec, Z.bits_0 by assumption.
  destruct (Z.testbit b n), (Z.testbit a n), (Z.testbit c n);
    simpl in *; congruence.
Qed.

Lemma within_lor_r (b a c : Z) :
  Z.land b (Z.lnot c) = 0 -> Z.land b (Z.lnot (Z.lor a c)) = 0.
Proof. rewrite (Z.lor_comm a c). apply within_lor_l. Qed.

Lemma bit_self (b : Z) : Z.land b (Z.lnot b) = 0.
Proof.
  apply Z.bits_inj'; intros n Hn.
  rewrite Z.land_spec, Z.lnot_spec, Z.bits_0 by assumption.
  destruct (Z.testbit b n); reflexivity.
Qed.

Lemma position_bit_within :
  Z.land PLANE_POSITION_CHANGED (Z.lnot ALL_CHANGED) = 0.
Proof. unfold ALL_CHANGED. apply within_lor_l, within_lor_l, bit_self. Qed.

Lemma buffer_bit_within :
  Z.land PLANE_BUFFER_CHANGED (Z.lnot ALL_CHANGED) = 0.
Proof. unfold ALL_CHANGED. apply within_lor_l, within_lor_r, bit_self. Qed.

Lemma crop_bit_within :
  Z.land PLANE_SOURCE_CROP_CHANGED (Z.lnot ALL_CHANGED) = 0.
Proof. unfold ALL_CHANGED. apply within_lor_r, within_lor_l, bit_self. Qed.

Lemma transform_bit_within :
  Z.land PLANE_TRANSFORM_CHANGED (Z.lnot ALL_CHANGED) = 0.
Proof. unfold ALL_CHANGED. apply within_lor_r, within_lor_r, bit_self. Qed.

Lemma mask_within_step (st : PlaneState) (op : Op) :
  mask_within st -> mask_within (step st op).
Proof.
  unfold mask_within. intros Hw.
  destruct op as [n| |x y w h|x y w h|t|env handle| |disp| | |z]; simpl.
  - exact Hw.
  - unfold deinitialize. simpl.
    drain_cases; exact Hw.
  - unfold setPosition. destruct (rect_eqb _ x y w h); simpl.
    + apply within_clear, Hw.
    + apply within_set; [exact Hw | apply position_bit_within].
  - unfold setSourceCrop. destruct (rect_eqb _ x y w h); simpl.
    + apply within_clear, Hw.
    + apply within_set; [exact Hw | apply crop_bit_within].
  - unfold setTransform. destruct (mTransform st =? t); simpl.
    + apply within_clear, Hw.
    + destruct ((t =? PLANE_TRANSFORM_90) || (t =? PLANE_TRANSFORM_180)
                || (t =? PLANE_TRANSFORM_270)); simpl;
        (apply within_set; [exact Hw | apply transform_bit_within]).
  - destruct (setDataBuffer_frame env st handle) as [_ Hm]. rewrite Hm.
    destruct (mInitialized st && negb (handle =? 0)); [|exact Hw].
    unfold buffer_bit_updated.
    destruct (negb (mCurrentDataBuffer st =? handle)).
    + apply within_set; [exact Hw | apply buffer_bit_within].
    + apply within_clear, Hw.
  - destruct (invalidateBufferCache_frame st) as (_ & Hm & _). rewrite Hm. exact Hw.
  - unfold assignToDevice, not_initialized. destruct (mInitialized st); exact Hw.
  - exact Hw.
  - unfold reset. simpl.
    drain_cases; exact Hw.
  - exact Hw.
Qed.

Lemma reachable_mask_within (st : PlaneState) : reachable st -> mask_within st.
Proof.
  induction 1 as [index type disp | st op _ IH].
  - reflexivity.
  - apply mask_within_step, IH.
Qed.

(** With the mask inside the four bits, it is zero exactly when none of
    the four is set. *)
Lemma pending_changes_nonzero (st : PlaneState) :
  mask_within st -> hasPendingChanges st = negb (mUpdateMasks st =? 0).
Proof.
  unfold mask_within, hasPendingChanges, mask_test, ALL_CHANGED.
  set (m := mUpdateMasks st). intros Hw.
  destruct (m =? 0) eqn:E0.
  - apply Z.eqb_eq in E0. rewrite E0, !Z.land_0_l. reflexivity.
  - simpl. apply Z.eqb_neq in E0.
    destruct (Z.land m PLANE_POSITION_CHANGED =? 0) eqn:E1; [|reflexivity].
    destruct (Z.land m PLANE_BUFFER_CHANGED =? 0) eqn:E2; [|reflexivity].
    destruct (Z.land m PLANE_SOURCE_CROP_CHANGED =? 0) eqn:E3; [|reflexivity].
    destruct (Z.land m PLANE_TRANSFORM_CHANGED =? 0) eqn:E4; [|reflexivity].
    exfalso. apply E0. apply Z.eqb_eq in E1, E2, E3, E4.
    apply Z.bits_inj'; intros n Hn. rewrite Z.bits_0.
    apply (f_equal (fun z => Z.testbit z n)) in Hw, E1, E2, E3, E4.
    rewrite Z.land_spec, Z.bits_0 in E1, E2, E3, E4.
    rewrite Z.land_spec, Z.lnot_spec, !Z.lor_spec, Z.bits_0 in Hw by assumption.
    destruct (Z.testbit m n); [|reflexivity]. simpl in *.
    rewrite E1, E2, E3, E4 in Hw. discriminate.
Qed.

(** *** The stored transform is always one of the four enumerators *)

Lemma valid_transform_step (st : PlaneState) (op : Op) :
  valid_transform st -> valid_transform (step st op).
Proof.
  intros Hv.
  destruct op as [n| |x y w h|x y w h|t|env handle| |disp| | |z]; simpl;
    try exact Hv.
  - unfold valid_transform, deinitialize; simpl.
    drain_cases; exact Hv.
  - unfold valid_transform, setPosition.
    destruct (rect_eqb _ x y w h); exact Hv.
  - unfold valid_transform, setSourceCrop.
    destruct (rect_eqb _ x y w h); exact Hv.
  - apply setTransform_valid, Hv.
  - destruct (setDataBuffer_frame env st handle) as [Hc _].
    unfold valid_transform, same_configuration in *.
    destruct Hc as (_ & _ & _ & _ & _ & _ & Ht & _). rewrite <- Ht. exact Hv.
  - destruct (invalidateBufferCache_frame st) as (Hc & _).
    unfold valid_transform, same_configuration in *.
    destruct Hc as (_ & _ & _ & _ & _ & _ & Ht & _). rewrite <- Ht. exact Hv.
  - unfold valid_transform, assignToDevice, not_initialized. destruct (mInitialized st); exact Hv.
  - unfold valid_transform, reset; simpl.
    drain_cases; exact Hv.
Qed.

Lemma reachable_valid_transform (st : PlaneState) :
  reachable st -> valid_transform st.
Proof.
  induction 1 as [index type disp | st op _ IH].
  - left. reflexivity.
  - apply valid_transform_step, IH.
Qed.

End Invariants.

(** ** flip and the dirty mask *)

Section CommitReady.
Context {consts : PlaneConstants}.
Hypothesis position_bit : PLANE_POSITION_CHANGED <> 0.
Hypothesis buffer_bit : PLANE_BUFFER_CHANGED <> 0.
Hypothesis crop_bit : PLANE_SOURCE_CROP_CHANGED <> 0.
Hypothesis transform_bit : PLANE_TRANSFORM_CHANGED <> 0.

Lemma flip_reachable (st : PlaneState) :
  reachable st -> flip st = mInitialized st && hasPendingChanges st.
Proof.
  intros Hr. rewrite (pending_changes_nonzero st (reachable_mask_within st Hr)).
  unfold flip, not_initialized. destruct (mInitialized st); simpl; [|reflexivity].
  destruct (mUpdateMasks st =? 0); reflexivity.
Qed.

Lemma flip_clean (st : PlaneState) : mUpdateMasks st = 0 -> flip st = false.
Proof.
  intros Hm. unfold flip, not_initialized. rewrite Hm. destruct (mInitialized st); reflexivity.
Qed.

Lemma flip_dirty (st : PlaneState) :
  mInitialized st = true -> mUpdateMasks st <> 0 -> flip st = true.
Proof.
  intros Hi Hm. unfold flip, not_initialized. rewrite Hi. simpl.
  apply Z.eqb_neq in Hm. rewrite Hm. reflexivity.
Qed.

Lemma setPosition_changed_flip (st : PlaneState) (x y w h : Z) :
  mInitialized st = true -> rect_eqb (mPosition st) x y w h = false ->
  flip (setPosition st x y w h) = true.
Proof.
  intros Hi Hne. unfold setPosition. rewrite Hne.
  apply flip_dirty; simpl; [exact Hi | apply mask_set_nonzero, position_bit].
Qed.

Lemma setSourceCrop_changed_flip (st : PlaneState) (x y w h : Z) :
  mInitialized st = true -> rect_eqb (mSrcCrop st) x y w h = false ->
  flip (setSourceCrop st x y w h) = true.
Proof.
  intros Hi Hne. unfold setSourceCrop. rewrite Hne.
  apply flip_dirty; simpl; [exact Hi | apply mask_set_nonzero, crop_bit].
Qed.

Lemma setTransform_changed_flip (st : PlaneState) (trans : Z) :
  mInitialized st = true -> mTransform st <> trans ->
  flip (setTransform st trans) = true.
Proof.
  intros Hi Hne. unfold setTransform.
  apply Z.eqb_neq in Hne. rewrite Hne.
  destruct ((trans =? PLANE_TRANSFORM_90) || (trans =? PLANE_TRANSFORM_180)
            || (trans =? PLANE_TRANSFORM_270));
    (apply flip_dirty; simpl; [exact Hi | apply mask_set_nonzero, transform_bit]).
Qed.

Lemma setDataBuffer_true (env : Collaborators) (st : PlaneState) (handle : Z) :
  fst (setDataBuffer env st handle) = true ->
  mInitialized st = true /\ handle <> 0.
Proof.
  unfold setDataBuffer, not_initialized.
  destruct (mInitialized st); simpl; [|discriminate].
  destruct (handle =? 0) eqn:E; simpl; [discriminate|].
  apply Z.eqb_neq in E. auto.
Qed.

Lemma setDataBuffer_changed_flip (env : Collaborators) (st : PlaneState) (handle : Z) :
  fst (setDataBuffer env st handle) = true ->
  mCurrentDataBuffer st <> handle ->
  flip (snd (setDataBuffer env st handle)) = true.
Proof.
  intros Hok Hne. destruct (setDataBuffer_true _ _ _ Hok) as [Hi Hh].
  destruct (setDataBuffer_frame env st handle) as [Hc Hm].
  apply flip_dirty.
  - unfold same_configuration in Hc.
    destruct Hc as (_ & _ & _ & _ & Hinit & _). rewrite <- Hinit. exact Hi.
  - rewrite Hm, Hi. apply Z.eqb_neq in Hh. rewrite Hh. simpl.
    unfold buffer_bit_updated. apply Z.eqb_neq in Hne. rewrite Hne. simpl.
    apply mask_set_nonzero, buffer_bit.
Qed.

(** C8 (as amended): on every reachable plane flip returns the logical OR
    of the four dirty bits, gated by the initialized flag.  It is false
    after initialize() of a newly constructed plane, and more generally
    after initialize() of any plane whose dirty mask is zero (initialize
    does not touch the mask); it is false whenever the dirty mask is zero;
    and on an initialized plane it is true after any single change to
    position, crop or transform, and after a successful buffer-set with a
    handle other than the bound one. *)
Theorem flip_follows_dirty_mask :
  (forall st, reachable st -> flip st = mInitialized st && hasPendingChanges st)
  /\ (forall index type disp n,
        flip (snd (initialize (DisplayPlane index type disp) n)) = false)
  /\ (forall st n, mUpdateMasks st = 0 -> flip (snd (initialize st n)) = false)
  /\ (forall st, mUpdateMasks st = 0 -> flip st = false)
  /\ (forall st x y w h,
        mInitialized st = true -> rect_eqb (mPosition st) x y w h = false ->
        flip (setPosition st x y w h) = true)
  /\ (forall st x y w h,
        mInitialized st = true -> rect_eqb (mSrcCrop st) x y w h = false ->
        flip (setSourceCrop st x y w h) = true)
  /\ (forall st trans,
        mInitialized st = true -> mTransform st <> trans ->
        flip (setTransform st trans) = true)
  /\ (forall env st handle,
        fst (setDataBuffer env st handle) = true ->
        mCurrentDataBuffer st <> handle ->
        flip (snd (setDataBuffer env st handle)) = true).
Proof.
  split; [|split; [|split; [|split; [|split; [|split; [|split]]]]]].
  - apply flip_reachable.
  - intros index type disp n. apply flip_clean. reflexivity.
  - intros st n Hm. apply flip_clean. exact Hm.
  - apply flip_clean.
  - apply setPosition_changed_flip.
  - apply setSourceCrop_changed_flip.
  - apply setTransform_changed_flip.
  - apply setDataBuffer_changed_flip.
Qed.

End CommitReady.

(** At the constants of the spec: flip is false on the plane just
    initialized, and true after one change of position, of crop, of
    transform and of buffer. *)
Lemma flip_follows_dirty_mask_witness :
  flip ready_plane = false
  /\ flip (setPosition ready_plane 10 20 640 480) = true
  /\ flip (setSourceCrop ready_plane 0 0 640 480) = true
  /\ flip (setTransform ready_plane 90) = true
  /\ flip (snd (setDataBuffer env_ok ready_plane 5)) = true.
Proof.
  destruct (flip_follows_dirty_mask (consts := spec_constants))
    as (_ & Hinit & _ & _ & Hpos & Hcrop & Htrans & Hbuf);
    try (simpl; lia).
  split; [apply (Hinit 0 0 0 2)|].
  split; [apply Hpos; reflexivity|].
  split; [apply Hcrop; reflexivity|].
  split; [apply Htrans; [reflexivity | simpl; lia]|].
  apply Hbuf; [reflexivity | simpl; lia].
Defined.

(** C8 as stated fails for initialize() on a plane whose position was set
    before: the position setter does not test for initialization, the
    dirty bit it sets survives initialize(), and flip answers true right
    after it. *)
Lemma flip_after_initialize_counterexample :
  flip (snd (initialize (setPosition fresh_plane 10 20 640 480) 4)) = true.
Proof. reflexivity. Qed.

(** ** Bounds of the active queue and of the cache *)

Section Bounds.
Context {consts : PlaneConstants}.
Hypothesis min_count : 1 <= MIN_DATA_BUFFER_COUNT < 2 ^ 31.

(** *** The active queue *)

Lemma updateActiveBuffers_recent (st : PlaneState) (mapper : BufferMapper) :
  active_is_recent st -> active_is_recent (updateActiveBuffers st mapper).
Proof.
  unfold active_is_recent, updateActiveBuffers. intros [older Hold].
  destruct (Z.of_nat (length (mActiveBuffers st)) >=? MIN_DATA_BUFFER_COUNT);
    [destruct (mActiveBuffers st) as [|oldest rest] eqn:Ea|].
  - destruct (isActiveBuffer st mapper); simpl.
    + exists older. rewrite Ea. exact Hold.
    + exists older. rewrite Ea, admissions_app, Hold; simpl.
      rewrite <- app_assoc. reflexivity.
  - destruct (isActiveBuffer _ mapper); simpl.
    + exists (older ++ [oldest]).
      rewrite admissions_app, Hold; simpl.
      rewrite app_nil_r, <- app_assoc. reflexivity.
    + exists (older ++ [oldest]).
      rewrite !admissions_app, Hold; simpl.
      rewrite app_nil_r, <- !app_assoc. reflexivity.
  - destruct (isActiveBuffer st mapper); simpl.
    + exists older. exact Hold.
    + exists older. rewrite admissions_app, Hold; simpl.
      rewrite app_assoc. reflexivity.
Qed.

Lemma queue_inv_same (st st' : PlaneState) :
  mActiveBuffers st' = mActiveBuffers st ->
  admissions (mCalls st') = admissions (mCalls st) ->
  active_bounded st /\ active_is_recent st ->
  active_bounded st' /\ active_is_recent st'.
Proof.
  unfold active_bounded, active_is_recent. intros Ha Hadm [Hb Hr].
  rewrite Ha, Hadm. auto.
Qed.

Lemma queue_inv_admit (st : PlaneState) (mapper : BufferMapper) :
  active_bounded st /\ active_is_recent st ->
  active_bounded (updateActiveBuffers st mapper)
  /\ active_is_recent (updateActiveBuffers st mapper).
Proof.
  intros [Hb Hr]. split.
  - apply updateActiveBuffers_bounded; [lia | exact Hb].
  - apply updateActiveBuffers_recent, Hr.
Qed.

Lemma invalidateActiveBuffers_queue (st : PlaneState) :
  active_bounded st /\ active_is_recent st ->
  active_bounded (invalidateActiveBuffers st)
  /\ active_is_recent (invalidateActiveBuffers st).
Proof.
  unfold invalidateActiveBuffers, not_initialized. intros Hq.
  destruct (mInitialized st); simpl; [|exact Hq].
  unfold active_bounded, active_is_recent; simpl. split; [lia|].
  eexists. rewrite app_nil_r. reflexivity.
Qed.

Lemma invalidateBufferCache_queue (st : PlaneState) :
  active_bounded st /\ active_is_recent st ->
  active_bounded (invalidateBufferCache st)
  /\ active_is_recent (invalidateBufferCache st).
Proof.
  destruct (invalidateBufferCache_frame st) as (_ & _ & Ha & _ & Hadm).
  apply queue_inv_same; assumption.
Qed.

Lemma bindMapper_queue (env : Collaborators) (st : PlaneState) (handle : Z)
    (mapper : BufferMapper) :
  active_bounded st /\ active_is_recent st ->
  active_bounded (snd (bindMapper env st handle mapper))
  /\ active_is_recent (snd (bindMapper env st handle mapper)).
Proof.
  intros Hq. unfold bindMapper.
  destruct (plane_setDataBuffer env mapper); simpl.
  - apply queue_inv_admit. revert Hq. apply queue_inv_same; simpl.
    + reflexivity.
    + rewrite admissions_app; simpl. apply app_nil_r.
  - revert Hq. apply queue_inv_same; simpl.
    + reflexivity.
    + rewrite admissions_app; simpl. apply app_nil_r.
Qed.

Lemma setDataBuffer_queue (env : Collaborators) (st : PlaneState) (handle : Z) :
  active_bounded st /\ active_is_recent st ->
  active_bounded (snd (setDataBuffer env st handle))
  /\ active_is_recent (snd (setDataBuffer env st handle)).
Proof.
  intros Hq. unfold setDataBuffer, not_initialized.
  destruct (mInitialized st); simpl; [|exact Hq].
  destruct (handle =? 0); simpl; [exact Hq|].
  match goal with |- context [mUpdateMasks ?s =? 0] =>
    assert (Hq1 : active_bounded s /\ active_is_recent s)
      by (revert Hq; apply queue_inv_same;
          destruct (negb (mCurrentDataBuffer st =? handle)); reflexivity);
    generalize dependent s end.
  intros s Hq1. clear Hq.
  destruct (mUpdateMasks s =? 0); simpl; [exact Hq1|].
  destruct (bm_lockDataBuffer env handle) as [buffer|]; simpl.
  2:{ revert Hq1. apply queue_inv_same; simpl; [reflexivity|].
      rewrite admissions_app; simpl. apply app_nil_r. }
  destruct (kv_find (DataBuffer_getKey buffer) (mDataBuffers s)) as [mapper|].
  - apply bindMapper_queue. revert Hq1. apply queue_inv_same; simpl;
      [reflexivity|]. rewrite !admissions_app; simpl. rewrite !app_nil_r.
    reflexivity.
  - match goal with |- context [mapBuffer env ?s1 buffer] =>
      pose proof (mapBuffer_frame env s1 buffer) as Hf;
      destruct (mapBuffer env s1 buffer) as [[mapper|] s2] end;
      simpl in Hf; destruct Hf as (_ & _ & Ha & _ & Hadm);
      rewrite !admissions_app in Hadm; simpl in Hadm;
      rewrite !app_nil_r in Hadm.
    + apply bindMapper_queue. revert Hq1. apply queue_inv_same; simpl;
        [exact Ha|]. rewrite admissions_app; simpl. rewrite app_nil_r.
      exact Hadm.
    + simpl. revert Hq1. apply queue_inv_same; simpl;
        [exact Ha|]. rewrite admissions_app; simpl. rewrite app_nil_r.
      exact Hadm.
Qed.

Lemma queue_inv_step (st : PlaneState) (op : Op) :
  active_bounded st /\ active_is_recent st ->
  active_bounded (step st op) /\ active_is_recent (step st op).
Proof.
  intros Hq.
  destruct op as [n| |x y w h|x y w h|t|env handle| |disp| | |z]; simpl;
    try exact Hq.
  - unfold deinitialize.
    apply (queue_inv_same
             (if negb (Z.of_nat (length (mActiveBuffers
                  (if negb (Z.of_nat (length (mDataBuffers st)) =? 0)
                   then invalidateBufferCache st else st))) =? 0)
              then invalidateActiveBuffers
                     (if negb (Z.of_nat (length (mDataBuffers st)) =? 0)
                      then invalidateBufferCache st else st)
              else (if negb (Z.of_nat (length (mDataBuffers st)) =? 0)
                    then invalidateBufferCache st else st)));
      [reflexivity | reflexivity |].
    assert (H1 : active_bounded
                   (if negb (Z.of_nat (length (mDataBuffers st)) =? 0)
                    then invalidateBufferCache st else st)
                 /\ active_is_recent
                   (if negb (Z.of_nat (length (mDataBuffers st)) =? 0)
                    then invalidateBufferCache st else st)).
    { destruct (negb _); [apply invalidateBufferCache_queue|]; exact Hq. }
    destruct (negb (Z.of_nat (length (mActiveBuffers _)) =? 0));
      [apply invalidateActiveBuffers_queue|]; exact H1.
  - unfold setPosition. destruct (rect_eqb _ x y w h); exact Hq.
  - unfold setSourceCrop. destruct (rect_eqb _ x y w h); exact Hq.
  - unfold setTransform. destruct (mTransform st =? t); [exact Hq|].
    destruct ((t =? PLANE_TRANSFORM_90) || (t =? PLANE_TRANSFORM_180)
              || (t =? PLANE_TRANSFORM_270)); exact Hq.
  - apply setDataBuffer_queue, Hq.
  - apply invalidateBufferCache_queue, Hq.
  - unfold assignToDevice, not_initialized. destruct (mInitialized st); exact Hq.
  - unfold reset. simpl.
    assert (H1 : active_bounded
                   (if Z.of_nat (length (mDataBuffers st)) >? 0
                    then invalidateBufferCache st else st)
                 /\ active_is_recent
                   (if Z.of_nat (length (mDataBuffers st)) >? 0
                    then invalidateBufferCache st else st)).
    { destruct (_ >? 0); [apply invalidateBufferCache_queue|]; exact Hq. }
    destruct (Z.of_nat (length (mActiveBuffers _)) >? 0);
      [apply invalidateActiveBuffers_queue|]; exact H1.
Qed.

Lemma reachable_queue (st : PlaneState) :
  reachable st -> active_bounded st /\ active_is_recent st.
Proof.
  induction 1 as [index type disp | st op _ IH].
  - unfold active_bounded, active_is_recent; simpl. split; [lia|].
    exists []. reflexivity.
  - apply queue_inv_step, IH.
Qed.

End Bounds.

Section CacheBounds.
Context {consts : PlaneConstants}.
Hypothesis min_count : 1 <= MIN_DATA_BUFFER_COUNT < 2 ^ 31.

(** *** The mapping cache *)

Lemma cache_inv_same (st st' : PlaneState) :
  mDataBuffers st' = mDataBuffers st ->
  mCacheCapacity st' = mCacheCapacity st ->
  mInitialized st' = mInitialized st ->
  cache_inv st -> cache_inv st'.
Proof.
  unfold cache_inv, cache_bounded. intros Hd Hc Hi H.
  rewrite Hd, Hc, Hi. exact H.
Qed.

Lemma invalidateBufferCache_cache_inv (st : PlaneState) :
  cache_inv st -> cache_inv (invalidateBufferCache st).
Proof.
  unfold invalidateBufferCache, not_initialized. intros H.
  destruct (mInitialized st) eqn:Hi; simpl; [|exact H].
  unfold cache_inv, cache_bounded in *; simpl. rewrite Hi.
  intuition (try lia; try discriminate).
Qed.

Lemma invalidateActiveBuffers_cache_inv (st : PlaneState) :
  cache_inv st -> cache_inv (invalidateActiveBuffers st).
Proof.
  unfold invalidateActiveBuffers, not_initialized.
  destruct (mInitialized st); simpl; [|tauto].
  apply cache_inv_same; reflexivity.
Qed.

Lemma initialize_cache_inv (st : PlaneState) (bufferCount : Z) :
  mInitialized st = false -> bufferCount < 2 ^ 31 ->
  cache_inv st -> cache_inv (snd (initialize st bufferCount)).
Proof.
  unfold cache_inv, cache_bounded, initialize. intros Hi Hn (_ & _ & _ & He).
  simpl. rewrite (He Hi). simpl.
  destruct (bufferCount <? MIN_DATA_BUFFER_COUNT) eqn:E.
  - rewrite wrap_int32_small by lia.
    repeat split; try lia; try discriminate.
  - apply Z.ltb_ge in E. rewrite wrap_int32_small by lia.
    repeat split; try lia; try discriminate.
Qed.

Lemma deinitialize_cache_inv (st : PlaneState) :
  cache_inv st -> cache_inv (deinitialize st).
Proof.
  intros H. unfold deinitialize.
  set (st1 := if negb (Z.of_nat (length (mDataBuffers st)) =? 0)
              then invalidateBufferCache st else st).
  assert (H1 : cache_inv st1 /\ mDataBuffers st1 = []).
  { unfold st1. destruct (Z.of_nat (length (mDataBuffers st)) =? 0) eqn:E; simpl.
    - split; [exact H|]. apply Z.eqb_eq in E.
      destruct (mDataBuffers st); [reflexivity | simpl in E; lia].
    - split; [apply invalidateBufferCache_cache_inv, H|].
      unfold invalidateBufferCache, not_initialized.
      destruct (mInitialized st) eqn:Hi; simpl; [reflexivity|].
      apply H, Hi. }
  destruct H1 as [H1 He]. clearbody st1.
  set (st2 := if negb (Z.of_nat (length (mActiveBuffers st1)) =? 0)
              then invalidateActiveBuffers st1 else st1).
  assert (H2 : cache_inv st2 /\ mDataBuffers st2 = []).
  { unfold st2. destruct (negb _).
    - split; [apply invalidateActiveBuffers_cache_inv, H1|].
      unfold invalidateActiveBuffers, not_initialized. destruct (mInitialized st1); exact He.
    - auto. }
  destruct H2 as [(Hcap & _ & _ & _) He2]. clearbody st2.
  unfold cache_inv, cache_bounded; simpl. rewrite He2; simpl.
  repeat split; try lia; try discriminate.
Qed.

Lemma reset_cache_inv (st : PlaneState) :
  cache_inv st -> cache_inv (snd (reset st)).
Proof.
  intros H. unfold reset; simpl.
  assert (H1 : cache_inv (if Z.of_nat (length (mDataBuffers st)) >? 0
                          then invalidateBufferCache st else st)).
  { destruct (_ >? 0); [apply invalidateBufferCache_cache_inv|]; exact H. }
  destruct (Z.of_nat (length (mActiveBuffers _)) >? 0);
    [apply invalidateActiveBuffers_cache_inv|]; exact H1.
Qed.

Lemma mapBuffer_cache_inv (env : Collaborators) (st : PlaneState)
    (buffer : DataBuffer) :
  mInitialized st = true ->
  cache_inv st -> cache_inv (snd (mapBuffer env st buffer)).
Proof.
  intros Hi (Hcap & Hone & Hb & He). specialize (Hone Hi).
  unfold cache_bounded in Hb. unfold mapBuffer.
  destruct (wrap_int32 (Z.of_nat (length (mDataBuffers st))) >=? mCacheCapacity st)
    eqn:Efull.
  - unfold invalidateBufferCache, not_initialized. rewrite Hi. simpl.
    destruct (bm_map env buffer); [destruct (kv_add_ok env)|];
      unfold cache_inv, cache_bounded; simpl; rewrite Hi;
      (repeat split; try lia; try discriminate).
  - rewrite wrap_int32_small in Efull by lia.
    rewrite Z.geb_leb in Efull. apply Z.leb_gt in Efull.
    destruct (bm_map env buffer) as [mapper|]; [destruct (kv_add_ok env)|];
      unfold cache_inv, cache_bounded; simpl; rewrite Hi;
      (repeat split; try lia; try discriminate).
    pose proof (kv_add_length_le (DataBuffer_getKey buffer) mapper
                  (mDataBuffers st)). lia.
Qed.

Lemma bindMapper_cache_inv (env : Collaborators) (st : PlaneState) (handle : Z)
    (mapper : BufferMapper) :
  cache_inv st -> cache_inv (snd (bindMapper env st handle mapper)).
Proof.
  destruct (bindMapper_frame env st handle mapper) as (Hc & _ & Hd & _).
  unfold same_configuration in Hc.
  apply cache_inv_same; [exact Hd | |]; symmetry; tauto.
Qed.

Lemma setDataBuffer_cache_inv (env : Collaborators) (st : PlaneState) (handle : Z) :
  cache_inv st -> cache_inv (snd (setDataBuffer env st handle)).
Proof.
  intros H. unfold setDataBuffer, not_initialized.
  destruct (mInitialized st) eqn:Hi; simpl; [|exact H].
  destruct (handle =? 0); simpl; [exact H|].
  match goal with |- context [mUpdateMasks ?s =? 0] =>
    assert (H1 : cache_inv s /\ mInitialized s = true)
      by (destruct (negb (mCurrentDataBuffer st =? handle)); simpl;
          (split; [revert H; apply cache_inv_same; reflexivity | exact Hi]));
    generalize dependent s end.
  intros s [H1 Hi1]. clear H.
  destruct (mUpdateMasks s =? 0); simpl; [exact H1|].
  destruct (bm_lockDataBuffer env handle) as [buffer|]; simpl.
  2:{ revert H1. apply cache_inv_same; reflexivity. }
  destruct (kv_find (DataBuffer_getKey buffer) (mDataBuffers s)) as [mapper|].
  - apply bindMapper_cache_inv. revert H1. apply cache_inv_same; reflexivity.
  - match goal with |- context [mapBuffer env ?s1 buffer] =>
      assert (H2 : cache_inv (snd (mapBuffer env s1 buffer)))
        by (apply mapBuffer_cache_inv;
            [exact Hi1 | revert H1; apply cache_inv_same; reflexivity]);
      destruct (mapBuffer env s1 buffer) as [[mapper|] s2] end; simpl in H2.
    + apply bindMapper_cache_inv. revert H2. apply cache_inv_same; reflexivity.
    + simpl. revert H2. apply cache_inv_same; reflexivity.
Qed.

Lemma cache_inv_step (st : PlaneState) (op : Op) :
  op_in_lifecycle st op -> cache_inv st -> cache_inv (step st op).
Proof.
  intros Hop H.
  destruct op as [n| |x y w h|x y w h|t|env handle| |disp| | |z]; simpl;
    try exact H.
  - destruct Hop as [Hi Hn]. apply initialize_cache_inv; assumption.
  - apply deinitialize_cache_inv, H.
  - unfold setPosition. destruct (rect_eqb _ x y w h); exact H.
  - unfold setSourceCrop. destruct (rect_eqb _ x y w h); exact H.
  - unfold setTransform. destruct (mTransform st =? t); [exact H|].
    destruct ((t =? PLANE_TRANSFORM_90) || (t =? PLANE_TRANSFORM_180)
              || (t =? PLANE_TRANSFORM_270)); exact H.
  - apply setDataBuffer_cache_inv, H.
  - apply invalidateBufferCache_cache_inv, H.
  - unfold assignToDevice, not_initialized. destruct (mInitialized st); exact H.
  - apply reset_cache_inv, H.
Qed.

Lemma lifecycle_cache_inv (st : PlaneState) : lifecycle st -> cache_inv st.
Proof.
  induction 1 as [index type disp | st op _ IH Hop].
  - unfold cache_inv, cache_bounded; simpl.
    repeat split; try lia; try discriminate.
  - apply cache_inv_step; assumption.
Qed.

(** C6 (as amended): after any sequence of calls on a constructed plane
    the Active Set holds at most minActiveCount entries and is the most
    recent part of the admission history, oldest first; on overflow the
    entry unmapped and removed is the one at its front, that is the least
    recently admitted one still present.  The Mapping Cache holds at most
    cacheCapacity entries after every call, provided each initialize() is
    made on a plane that is not initialized, with a buffer count below
    2^31. *)
Theorem caches_stay_bounded :
  (forall st, reachable st -> active_bounded st /\ active_is_recent st)
  /\ (forall st mapper oldest rest,
        mActiveBuffers st = oldest :: rest ->
        MIN_DATA_BUFFER_COUNT <= Z.of_nat (length (mActiveBuffers st)) ->
        exists admitted,
          (admitted = [] \/ admitted = [mapper])
          /\ mActiveBuffers (updateActiveBuffers st mapper) = rest ++ admitted
          /\ mCalls (updateActiveBuffers st mapper)
             = mCalls st ++ CallUnmap oldest :: List.map CallIncRef admitted)
  /\ (forall st, lifecycle st -> cache_bounded st).
Proof.
  split; [|split].
  - apply reachable_queue, min_count.
  - intros st mapper oldest rest. apply updateActiveBuffers_evicts_front.
  - intros st Hl. apply (lifecycle_cache_inv st Hl).
Qed.

End CacheBounds.

Lemma reachable_run {consts : PlaneConstants} (ops : list Op) (st : PlaneState) :
  reachable st -> reachable (run st ops).
Proof.
  revert st. induction ops as [|op ops IH]; intros st Hr; simpl.
  - exact Hr.
  - apply IH. constructor. exact Hr.
Qed.

Lemma lifecycle_run {consts : PlaneConstants} (ops : list Op) (st : PlaneState) :
  lifecycle st -> ops_in_lifecycle st ops -> lifecycle (run st ops).
Proof.
  revert st. induction ops as [|op ops IH]; intros st Hl Hops; simpl.
  - exact Hl.
  - destruct Hops as [Hop Hrest]. apply IH; [|exact Hrest].
    constructor; assumption.
Qed.

(** At the constants of the spec, three buffers set on a plane
    initialized with two: both structures are within their bounds. *)
Lemma caches_stay_bounded_witness :
  let st := run fresh_plane
              [OpInitialize 2; OpSetDataBuffer env_ok 5;
               OpSetDataBuffer env_ok 6; OpSetDataBuffer env_ok 7] in
  active_bounded st /\ active_is_recent st /\ cache_bounded st.
Proof.
  intros st.
  destruct (caches_stay_bounded (consts := spec_constants))
    as (Hqueue & _ & Hcache); [simpl; lia|].
  assert (Hl : lifecycle st).
  { apply lifecycle_run; [constructor|].
    simpl. repeat split; try lia. }
  assert (Hr : reachable st) by (apply reachable_run; constructor).
  destruct (Hqueue st Hr) as [Hb Hrec].
  split; [exact Hb | split; [exact Hrec | exact (Hcache st Hl)]].
Defined.

(** C6 as stated fails for the cache when initialize() is called again on
    an initialized plane with a smaller buffer count: three mappings are
    cached under capacity 3, the second initialize() lowers the capacity
    to 2 and leaves the three entries in place. *)
Lemma reinitialize_cache_counterexample :
  let st := run fresh_plane
              [OpInitialize 3; OpSetDataBuffer env_ok 5;
               OpSetDataBuffer env_ok 6; OpSetDataBuffer env_ok 7;
               OpInitialize 0] in
  reachable st
  /\ length (mDataBuffers st) = 3%nat
  /\ mCacheCapacity st = 2
  /\ ~ cache_bounded st.
Proof.
  intros st. split; [apply reachable_run; constructor|].
  split; [reflexivity|]. split; [reflexivity|].
  unfold cache_bounded. vm_compute. intros H. apply H. reflexivity.
Qed.

(** ** The mapping cache: eviction of the whole cache on overflow *)

Section MappingCache.
Variable env : Collaborators.
Hypothesis add_succeeds : kv_add_ok env = true.

Lemma mapBuffer_not_full (st : PlaneState) (buffer : DataBuffer) (mapper : BufferMapper) :
  cache_full st = false -> bm_map env buffer = Some mapper ->
  mapBuffer env st buffer
  = (Some mapper,
     set_mDataBuffers (kv_add (DataBuffer_getKey buffer) mapper (mDataBuffers st))
       (log_call (CallMap buffer) st)).
Proof.
  unfold cache_full, mapBuffer. intros Hfull Hmap.
  rewrite Hfull, Hmap, add_succeeds. reflexivity.
Qed.

Lemma mapBuffer_full (st : PlaneState) (buffer : DataBuffer) (mapper : BufferMapper) :
  mInitialized st = true ->
  cache_full st = true -> bm_map env buffer = Some mapper ->
  mapBuffer env st buffer
  = (Some mapper,
     set_mDataBuffers [(DataBuffer_getKey buffer, mapper)]
       (log_call (CallMap buffer) (invalidateBufferCache st))).
Proof.
  unfold cache_full, mapBuffer. intros Hi Hfull Hmap.
  rewrite Hfull, Hmap, add_succeeds.
  unfold invalidateBufferCache, not_initialized. rewrite Hi. reflexivity.
Qed.

Lemma entries_length (buffers : list DataBuffer) :
  Forall (fun b => bm_map env b <> None) buffers ->
  length (entries env buffers) = length buffers.
Proof.
  induction 1 as [|b rest Hb _ IH]; simpl; [reflexivity|].
  destruct (bm_map env b); [simpl; rewrite IH; reflexivity | congruence].
Qed.

(** Below the capacity, mapping distinct new buffers only adds entries:
    the manager is asked for one mapping per buffer and nothing is
    unmapped. *)
Lemma mapBuffers_fill (buffers : list DataBuffer) : forall st : PlaneState,
  Forall (fun b => bm_map env b <> None) buffers ->
  NoDup (List.map DataBuffer_getKey buffers) ->
  (forall b, In b buffers -> ~ In (DataBuffer_getKey b) (kv_keys (mDataBuffers st))) ->
  Z.of_nat (length (mDataBuffers st) + length buffers) <= mCacheCapacity st < 2 ^ 31 ->
  let st' := mapBuffers env st buffers in
  Permutation (mDataBuffers st') (entries env buffers ++ mDataBuffers st)
  /\ mCalls st' = mCalls st ++ List.map CallMap buffers
  /\ mCacheCapacity st' = mCacheCapacity st
  /\ mInitialized st' = mInitialized st
  /\ mCurrentDataBuffer st' = mCurrentDataBuffer st.
Proof.
  induction buffers as [|b rest IH]; intros st Hmaps Hnd Hnew Hcap; simpl.
  - rewrite app_nil_r. auto using Permutation_refl.
  - inversion Hmaps as [|? ? Hb Hrest]; subst.
    inversion Hnd as [|? ? Hnotin Hnd']; subst.
    destruct (bm_map env b) as [m|] eqn:Hm; [|congruence].
    assert (Hfull : cache_full st = false).
    { unfold cache_full. simpl in Hcap.
      rewrite wrap_int32_small by lia. apply geb_false. lia. }
    rewrite (mapBuffer_not_full st b m Hfull Hm). simpl.
    set (st1 := set_mDataBuffers _ _).
    assert (Hp1 : Permutation (mDataBuffers st1)
                    ((DataBuffer_getKey b, m) :: mDataBuffers st)).
    { unfold st1; simpl. apply kv_add_new, Hnew. left. reflexivity. }
    destruct (IH st1) as (Hp & Hc & Hk & Hi & Hcur).
    + exact Hrest.
    + exact Hnd'.
    + intros b' Hin Hkey.
      apply (Permutation_in _ (Permutation_map fst Hp1)) in Hkey.
      simpl in Hkey. destruct Hkey as [Hkey | Hkey].
      * apply Hnotin. rewrite Hkey. apply in_map, Hin.
      * apply (Hnew b'); [right; exact Hin | exact Hkey].
    + rewrite (Permutation_length Hp1). unfold st1; simpl.
      simpl in Hcap. lia.
    + split; [|split; [|split; [|split]]].
      * eapply perm_trans; [exact Hp|].
        eapply perm_trans; [apply Permutation_app_head, Hp1|].
        apply Permutation_sym, Permutation_middle.
      * rewrite Hc. unfold st1; simpl. rewrite <- app_assoc. reflexivity.
      * rewrite Hk. reflexivity.
      * rewrite Hi. reflexivity.
      * rewrite Hcur. reflexivity.
Qed.

(** C7: into an empty cache of capacity C on an initialized plane, C
    buffers of distinct identities are mapped without any eviction and
    fill the cache; mapping one more distinct buffer first unmaps every
    cached entry, each exactly once (the unmap calls made since the cache
    was empty are the cached mappings, one call per entry, and these are
    the mappings created by the first C insertions), then asks for the new
    mapping and inserts it, so that the cache holds exactly that one entry
    afterwards. *)
Theorem overflow_evicts_whole_cache
    (st : PlaneState) (buffers : list DataBuffer) (extra : DataBuffer) :
  mInitialized st = true ->
  mDataBuffers st = [] ->
  mCacheCapacity st = Z.of_nat (length buffers) ->
  Z.of_nat (length buffers) < 2 ^ 31 ->
  NoDup (List.map DataBuffer_getKey (buffers ++ [extra])) ->
  Forall (fun b => bm_map env b <> None) (buffers ++ [extra]) ->
  let filled := mapBuffers env st buffers in
  let result := mapBuffer env filled extra in
  length (mDataBuffers filled) = length buffers
  /\ mCalls filled = mCalls st ++ List.map CallMap buffers
  /\ Permutation (kv_values (mDataBuffers filled))
       (List.map snd (entries env buffers))
  /\ exists mapper,
       bm_map env extra = Some mapper
       /\ fst result = Some mapper
       /\ mDataBuffers (snd result) = [(DataBuffer_getKey extra, mapper)]
       /\ mCalls (snd result)
          = mCalls filled
            ++ List.map CallUnmap (kv_values (mDataBuffers filled))
            ++ [CallMap extra]
       /\ unmapped (mCalls (snd result))
          = unmapped (mCalls st) ++ kv_values (mDataBuffers filled).
Proof.
  intros Hi Hempty Hcap Hsmall Hnd Hmaps filled result.
  apply Forall_app in Hmaps. destruct Hmaps as [Hmaps Hextra].
  rewrite map_app in Hnd. apply NoDup_app_remove_r in Hnd.
  destruct (mapBuffers_fill buffers st) as (Hp & Hc & Hk & Hinit & _).
  - exact Hmaps.
  - exact Hnd.
  - intros b _. rewrite Hempty. simpl. tauto.
  - rewrite Hempty, Hcap. simpl. lia.
  - fold filled in Hp, Hc, Hk, Hinit.
    rewrite Hempty, app_nil_r in Hp.
    assert (Hlen : length (mDataBuffers filled) = length buffers).
    { rewrite (Permutation_length Hp). apply entries_length, Hmaps. }
    split; [exact Hlen|]. split; [exact Hc|].
    split; [apply Permutation_map, Hp|].
    inversion Hextra as [|? ? Hsome _]; subst.
    destruct (bm_map env extra) as [mapper|] eqn:Hm; [|congruence].
    exists mapper. split; [reflexivity|].
    assert (Hfull : cache_full filled = true).
    { unfold cache_full. rewrite Hlen, Hk, Hcap.
      rewrite wrap_int32_small by lia. apply geb_true. lia. }
    unfold result.
    rewrite (mapBuffer_full filled extra mapper) by congruence.
    simpl. split; [reflexivity|]. split; [reflexivity|].
    destruct (invalidateBufferCache_initialized filled) as (_ & _ & Hcalls);
      [congruence|].
    rewrite Hcalls, <- app_assoc. split; [reflexivity|].
    rewrite Hc, !unmapped_app, unmapped_maps, unmapped_unmaps. simpl.
    rewrite !app_nil_r. reflexivity.
Qed.

End MappingCache.

(** A cache of capacity 2 on an initialized plane: buffers 5 and 6 fill
    it, buffer 7 evicts both and is the only entry left. *)
Lemma overflow_evicts_whole_cache_witness :
  let filled := mapBuffers env_ok ready_plane [buffer_of 5; buffer_of 6] in
  let result := mapBuffer env_ok filled (buffer_of 7) in
  length (mDataBuffers filled) = 2%nat
  /\ mCalls filled = [CallMap (buffer_of 5); CallMap (buffer_of 6)]
  /\ Permutation (kv_values (mDataBuffers filled))
       [mapper_of (buffer_of 5); mapper_of (buffer_of 6)]
  /\ exists mapper,
       bm_map env_ok (buffer_of 7) = Some mapper
       /\ fst result = Some mapper
       /\ mDataBuffers (snd result) = [(7, mapper)]
       /\ mCalls (snd result)
          = mCalls filled
            ++ List.map CallUnmap (kv_values (mDataBuffers filled))
            ++ [CallMap (buffer_of 7)]
       /\ unmapped (mCalls (snd result))
          = unmapped (mCalls ready_plane) ++ kv_values (mDataBuffers filled).
Proof.
  apply (overflow_evicts_whole_cache env_ok eq_refl ready_plane
           [buffer_of 5; buffer_of 6] (buffer_of 7)).
  - reflexivity.
  - reflexivity.
  - reflexivity.
  - simpl. lia.
  - simpl. repeat constructor; simpl; intuition discriminate.
  - repeat constructor; discriminate.
Defined.

(** ** The buffer-set operation *)

Section CallLog.
Context {consts : PlaneConstants}.

Lemma invalidateBufferCache_calls (st : PlaneState) :
  exists more, mCalls (invalidateBufferCache st) = mCalls st ++ more.
Proof.
  unfold invalidateBufferCache, not_initialized. destruct (mInitialized st); simpl.
  - eexists. reflexivity.
  - exists []. symmetry. apply app_nil_r.
Qed.

Lemma mapBuffer_calls (env : Collaborators) (st : PlaneState) (buffer : DataBuffer) :
  exists more,
    mCalls (snd (mapBuffer env st buffer)) = mCalls st ++ more
    /\ In (CallMap buffer) more.
Proof.
  unfold mapBuffer.
  destruct (invalidateBufferCache_calls st) as [inv Hinv].
  destruct (wrap_int32 (Z.of_nat (length (mDataBuffers st))) >=? mCacheCapacity st);
    (destruct (bm_map env buffer); [destruct (kv_add_ok env)|]); simpl;
    rewrite ?Hinv, <- ?app_assoc; eexists; (split; [reflexivity|]);
    rewrite ?in_app_iff; simpl; tauto.
Qed.

Lemma updateActiveBuffers_calls (st : PlaneState) (mapper : BufferMapper) :
  exists more, mCalls (updateActiveBuffers st mapper) = mCalls st ++ more.
Proof.
  unfold updateActiveBuffers.
  destruct (Z.of_nat (length (mActiveBuffers st)) >=? MIN_DATA_BUFFER_COUNT);
    [destruct (mActiveBuffers st)|];
    destruct (isActiveBuffer _ mapper); simpl;
    rewrite <- ?app_assoc; try (eexists; reflexivity);
    exists []; symmetry; apply app_nil_r.
Qed.

Lemma bindMapper_calls (env : Collaborators) (st : PlaneState) (handle : Z)
    (mapper : BufferMapper) :
  exists more, mCalls (snd (bindMapper env st handle mapper)) = mCalls st ++ more.
Proof.
  unfold bindMapper. destruct (plane_setDataBuffer env mapper); simpl.
  - match goal with |- context [updateActiveBuffers ?s mapper] =>
      destruct (updateActiveBuffers_calls s mapper) as [more Hmore] end.
    rewrite Hmore; simpl. rewrite <- app_assoc. eexists. reflexivity.
  - eexists. reflexivity.
Qed.

(** The path of [setDataBuffer] up to the cache lookup, once the handle
    is accepted and the mask is not zero. *)
Lemma setDataBuffer_locks (env : Collaborators) (st : PlaneState) (handle : Z) :
  mInitialized st = true -> handle <> 0 ->
  buffer_bit_updated st handle <> 0 ->
  setDataBuffer env st handle
  = let st := set_mUpdateMasks (buffer_bit_updated st handle) st in
    let st := log_call (CallLockDataBuffer handle) st in
    match bm_lockDataBuffer env handle with
    | None => (false, st)
    | Some buffer =>
        let st := log_call (CallBufferSetCrop buffer (mSrcCrop st)) st in
        let st := set_mIsProtectedBuffer (isProtectedBuffer buffer) st in
        match kv_find (DataBuffer_getKey buffer) (mDataBuffers st) with
        | None =>
            match mapBuffer env st buffer with
            | (None, st) => (false, log_call (CallUnlockDataBuffer buffer) st)
            | (Some mapper, st) =>
                bindMapper env (log_call (CallUnlockDataBuffer buffer) st)
                  handle mapper
            end
        | Some mapper =>
            let st := log_call (CallMapperSetCrop mapper (mSrcCrop st)) st in
            let st := log_call (CallUnlockDataBuffer buffer) st in
            bindMapper env st handle mapper
        end
    end.
Proof.
  intros Hi Hh Hm. unfold setDataBuffer, buffer_bit_updated, not_initialized in *.
  rewrite Hi. apply Z.eqb_neq in Hh. rewrite Hh. simpl.
  destruct (negb (mCurrentDataBuffer st =? handle)); simpl;
    apply Z.eqb_neq in Hm; rewrite Hm; reflexivity.
Qed.

End CallLog.

Section BufferSet.
Context {consts : PlaneConstants}.

Lemma resubmit_bound_handle_clean (env : Collaborators) (st : PlaneState) (handle : Z) :
  mInitialized st = true -> handle <> 0 ->
  mCurrentDataBuffer st = handle ->
  mask_clear (mUpdateMasks st) PLANE_BUFFER_CHANGED = 0 ->
  setDataBuffer env st handle = (true, set_mUpdateMasks 0 st).
Proof.
  intros Hi Hh Hcur Hclean. unfold setDataBuffer, not_initialized.
  rewrite Hi. apply Z.eqb_neq in Hh. rewrite Hh. simpl.
  rewrite Hcur, Z.eqb_refl. simpl. rewrite Hclean. reflexivity.
Qed.

(** When another dirty bit is pending, the same call goes through the
    buffer pipeline: it starts by locking the buffer. *)
Lemma resubmit_bound_handle_dirty (env : Collaborators) (st : PlaneState) (handle : Z) :
  mInitialized st = true -> handle <> 0 ->
  mCurrentDataBuffer st = handle ->
  mask_clear (mUpdateMasks st) PLANE_BUFFER_CHANGED <> 0 ->
  exists more,
    mCalls (snd (setDataBuffer env st handle))
    = mCalls st ++ CallLockDataBuffer handle :: more.
Proof.
  intros Hi Hh Hcur Hdirty.
  assert (Hm : buffer_bit_updated st handle <> 0).
  { unfold buffer_bit_updated. rewrite Hcur, Z.eqb_refl. exact Hdirty. }
  rewrite (setDataBuffer_locks env st handle Hi Hh Hm). simpl.
  destruct (bm_lockDataBuffer env handle) as [buffer|]; simpl;
    [|exists []; reflexivity].
  destruct (kv_find (DataBuffer_getKey buffer) (mDataBuffers st)) as [mapper|].
  - match goal with |- context [bindMapper env ?s handle mapper] =>
      destruct (bindMapper_calls env s handle mapper) as [more Hmore] end.
    rewrite Hmore; simpl. rewrite <- !app_assoc. eexists. reflexivity.
  - match goal with |- context [mapBuffer env ?s buffer] =>
      destruct (mapBuffer_calls env s buffer) as [more [Hmore _]];
      destruct (mapBuffer env s buffer) as [[mapper|] s2] end; simpl in Hmore.
    + match goal with |- context [bindMapper env ?s handle mapper] =>
        destruct (bindMapper_calls env s handle mapper) as [more' Hmore'] end.
      rewrite Hmore'; simpl. rewrite Hmore, <- !app_assoc. eexists. reflexivity.
    + simpl. rewrite Hmore, <- !app_assoc. eexists. reflexivity.
Qed.

(** C2 (as amended): on an initialized plane, setDataBuffer with a
    non-null handle equal to the bound buffer identity, while no dirty bit
    other than the buffer bit is set, returns true and does nothing but
    clear the buffer dirty bit: no call to any collaborator (no lock, no
    cache insertion, no mapper call, no active-set admission) and no other
    change of the stored state.  When another dirty bit is set, the call
    runs the buffer pipeline, which starts by locking the buffer. *)
Theorem resubmit_bound_handle (env : Collaborators) (st : PlaneState) (handle : Z) :
  mInitialized st = true -> handle <> 0 ->
  mCurrentDataBuffer st = handle ->
  (mask_clear (mUpdateMasks st) PLANE_BUFFER_CHANGED = 0 ->
   setDataBuffer env st handle = (true, set_mUpdateMasks 0 st))
  /\ (mask_clear (mUpdateMasks st) PLANE_BUFFER_CHANGED <> 0 ->
      exists more,
        mCalls (snd (setDataBuffer env st handle))
        = mCalls st ++ CallLockDataBuffer handle :: more).
Proof.
  intros Hi Hh Hcur. split.
  - apply resubmit_bound_handle_clean; assumption.
  - apply resubmit_bound_handle_dirty; assumption.
Qed.

(** C1 (as amended): when setDataBuffer fails with BufferLockFailed or
    MapFailed it returns a failed result; the geometry, the transform,
    the Active Set and the configuration of the plane are as before, and
    the dirty mask is as before except for the buffer bit, which the call
    has already updated (set when the handle differs from the bound one,
    cleared otherwise).  After BufferLockFailed the bound buffer identity
    and the Mapping Cache are untouched.  After MapFailed they are
    untouched when the cache was below its capacity; when the cache was
    full it has been emptied and the bound buffer identity reset to none
    before the mapping was asked for. *)
Theorem failed_buffer_set (env : Collaborators) (st : PlaneState) (handle : Z) :
  mInitialized st = true -> handle <> 0 ->
  buffer_bit_updated st handle <> 0 ->
  (bm_lockDataBuffer env handle = None ->
   setDataBuffer env st handle
   = (false,
      log_call (CallLockDataBuffer handle)
        (set_mUpdateMasks (buffer_bit_updated st handle) st)))
  /\ (forall buffer,
        bm_lockDataBuffer env handle = Some buffer ->
        kv_find (DataBuffer_getKey buffer) (mDataBuffers st) = None ->
        bm_map env buffer = None \/ kv_add_ok env = false ->
        let r := setDataBuffer env st handle in
        fst r = false
        /\ same_configuration st (snd r)
        /\ mUpdateMasks (snd r) = buffer_bit_updated st handle
        /\ mActiveBuffers (snd r) = mActiveBuffers st
        /\ (cache_full st = false ->
            mDataBuffers (snd r) = mDataBuffers st
            /\ mCurrentDataBuffer (snd r) = mCurrentDataBuffer st)
        /\ (cache_full st = true ->
            mDataBuffers (snd r) = []
            /\ mCurrentDataBuffer (snd r) = 0)).
Proof.
  intros Hi Hh Hm. split.
  - intros Hlock. rewrite (setDataBuffer_locks env st handle Hi Hh Hm).
    simpl. rewrite Hlock. reflexivity.
  - intros buffer Hlock Hmiss Hfail r. unfold r.
    rewrite (setDataBuffer_locks env st handle Hi Hh Hm).
    simpl. rewrite Hlock. simpl. rewrite Hmiss.
    unfold mapBuffer, cache_full, invalidateBufferCache, not_initialized. simpl. rewrite Hi. simpl.
    destruct (wrap_int32 (Z.of_nat (length (mDataBuffers st))) >=? mCacheCapacity st);
      (destruct (bm_map env buffer) as [mapper|];
       [destruct (kv_add_ok env);
        [destruct Hfail; discriminate|]|]);
      simpl; unfold same_configuration; simpl;
      (split; [reflexivity|]); (split; [tauto|]);
      (split; [reflexivity|]); (split; [reflexivity|]);
      split; intros; try discriminate; auto.
Qed.

End BufferSet.

(** At the constants of the spec, handle 5 bound on a clean plane and
    submitted again: the call returns true and only the mask changes. *)
Lemma resubmit_bound_handle_witness :
  setDataBuffer env_ok bound_plane 5 = (true, set_mUpdateMasks 0 bound_plane).
Proof.
  destruct (resubmit_bound_handle (consts := spec_constants)
              env_ok bound_plane 5) as [Hclean _].
  - reflexivity.
  - lia.
  - reflexivity.
  - apply Hclean. reflexivity.
Defined.

(** C2 as stated fails when another dirty bit is set: with buffer 5 bound
    and the position just changed, submitting 5 again locks the buffer,
    updates the crop of the cached mapper and calls the plane-specific
    setter. *)
Lemma resubmit_bound_handle_counterexample :
  let st := run ready_plane [OpSetDataBuffer env_ok 5; OpSetPosition 10 20 640 480] in
  let r := setDataBuffer env_ok st 5 in
  mInitialized st = true
  /\ mCurrentDataBuffer st = 5
  /\ mCalls (snd r)
     = mCalls st
       ++ [CallLockDataBuffer 5;
           CallBufferSetCrop (buffer_of 5) (mkRect 0 0 0 0);
           CallMapperSetCrop (mapper_of (buffer_of 5)) (mkRect 0 0 0 0);
           CallUnlockDataBuffer (buffer_of 5);
           CallPlaneSetDataBuffer (mapper_of (buffer_of 5))].
Proof. repeat split. Qed.

(** At the constants of the spec.  The lock fails on a clean plane: the
    failed call leaves the cache and the bound buffer alone and the buffer
    bit set.  The mapping fails on a plane whose cache is full: the cache
    has been emptied and the bound buffer reset. *)
Lemma failed_buffer_set_witness :
  setDataBuffer env_lock_fails ready_plane 5
  = (false, log_call (CallLockDataBuffer 5) (set_mUpdateMasks 2 ready_plane))
  /\ fst (setDataBuffer env_map_fails full_plane 7) = false
  /\ mUpdateMasks (snd (setDataBuffer env_map_fails full_plane 7))
     = buffer_bit_updated full_plane 7
  /\ mActiveBuffers (snd (setDataBuffer env_map_fails full_plane 7))
     = mActiveBuffers full_plane
  /\ mDataBuffers (snd (setDataBuffer env_map_fails full_plane 7)) = []
  /\ mCurrentDataBuffer (snd (setDataBuffer env_map_fails full_plane 7)) = 0.
Proof.
  split.
  - destruct (failed_buffer_set (consts := spec_constants)
                env_lock_fails ready_plane 5) as [Hlock _].
    + reflexivity.
    + lia.
    + vm_compute. discriminate.
    + apply Hlock. reflexivity.
  - destruct (failed_buffer_set (consts := spec_constants)
                env_map_fails full_plane 7) as [_ Hmap].
    + reflexivity.
    + lia.
    + vm_compute. discriminate.
    + destruct (Hmap (buffer_of 7)) as (Hr & _ & Hm & Ha & _ & Hfull).
      * reflexivity.
      * reflexivity.
      * left. reflexivity.
      * destruct Hfull as [Hd Hc]; [reflexivity|]. auto.
Defined.

(** C1 as stated fails in two ways.  A failed lock leaves the dirty mask
    changed (the buffer bit is set before the lock is tried); and a failed
    mapping on a full cache leaves the cache emptied and the bound buffer
    reset. *)
Lemma failed_buffer_set_counterexample :
  (fst (setDataBuffer env_lock_fails ready_plane 5) = false
   /\ mUpdateMasks ready_plane = 0
   /\ mUpdateMasks (snd (setDataBuffer env_lock_fails ready_plane 5)) = 2)
  /\ (fst (setDataBuffer env_map_fails full_plane 7) = false
      /\ length (mDataBuffers full_plane) = 2%nat
      /\ mDataBuffers (snd (setDataBuffer env_map_fails full_plane 7)) = []
      /\ mCurrentDataBuffer full_plane = 6
      /\ mCurrentDataBuffer (snd (setDataBuffer env_map_fails full_plane 7)) = 0).
Proof. repeat split. Qed.

(** ** Invalidation of the cache and the bound buffer *)

Section Invalidation.
Context {consts : PlaneConstants}.
Hypothesis buffer_bit : PLANE_BUFFER_CHANGED <> 0.

Lemma deinitialize_unbinds (st : PlaneState) :
  mCurrentDataBuffer (deinitialize st) = 0
  /\ mInitialized (deinitialize st) = false.
Proof. unfold deinitialize. simpl. auto. Qed.

Lemma reinitialize_unbound (st : PlaneState) (bufferCount : Z) :
  mInitialized st = true ->
  let st' := snd (initialize (deinitialize st) bufferCount) in
  mInitialized st' = true /\ mCurrentDataBuffer st' = 0 /\ mDataBuffers st' = [].
Proof.
  intros Hi. unfold initialize, deinitialize; simpl.
  split; [reflexivity|]. split; [reflexivity|].
  destruct (Z.of_nat (length (mDataBuffers st)) =? 0) eqn:E; simpl.
  - apply Z.eqb_eq in E.
    assert (He : mDataBuffers st = [])
      by (destruct (mDataBuffers st); [reflexivity | simpl in E; lia]).
    destruct (negb _);
      [unfold invalidateActiveBuffers, not_initialized; destruct (mInitialized st)|]; exact He.
  - destruct (invalidateBufferCache_initialized st Hi) as (He & _).
    destruct (negb _); [|exact He].
    unfold invalidateActiveBuffers, not_initialized.
    destruct (mInitialized (invalidateBufferCache st)); exact He.
Qed.

Lemma reset_unbinds (st : PlaneState) :
  mInitialized st = true -> mDataBuffers st <> [] ->
  mDataBuffers (snd (reset st)) = []
  /\ mCurrentDataBuffer (snd (reset st)) = 0
  /\ mInitialized (snd (reset st)) = true.
Proof.
  intros Hi Hne. unfold reset; simpl.
  assert (Hpos : (Z.of_nat (length (mDataBuffers st)) >? 0) = true).
  { destruct (mDataBuffers st); [congruence | reflexivity]. }
  rewrite Hpos.
  destruct (invalidateBufferCache_initialized st Hi) as (He & Hc & _).
  destruct (invalidateBufferCache_frame st) as (Hcfg & _).
  assert (Hi' : mInitialized (invalidateBufferCache st) = true).
  { unfold same_configuration in Hcfg.
    destruct Hcfg as (_ & _ & _ & _ & Hinit & _). congruence. }
  destruct (Z.of_nat (length (mActiveBuffers (invalidateBufferCache st))) >? 0).
  - unfold invalidateActiveBuffers, not_initialized. rewrite Hi'. simpl. tauto.
  - tauto.
Qed.

Lemma mapBuffer_overflow_unbinds (env : Collaborators) (st : PlaneState)
    (buffer : DataBuffer) :
  mInitialized st = true -> cache_full st = true ->
  mCurrentDataBuffer (snd (mapBuffer env st buffer)) = 0.
Proof.
  unfold cache_full, mapBuffer, invalidateBufferCache, not_initialized. intros Hi Hfull.
  rewrite Hfull, Hi. simpl.
  destruct (bm_map env buffer); [destruct (kv_add_ok env)|]; reflexivity.
Qed.

Lemma bindMapper_bound (env : Collaborators) (st : PlaneState) (handle : Z)
    (mapper : BufferMapper) :
  mCurrentDataBuffer (snd (bindMapper env st handle mapper))
  = if fst (bindMapper env st handle mapper) then handle
    else mCurrentDataBuffer st.
Proof.
  unfold bindMapper. destruct (plane_setDataBuffer env mapper); simpl.
  - match goal with |- context [updateActiveBuffers ?s mapper] =>
      destruct (updateActiveBuffers_frame s mapper) as (_ & _ & _ & Hc & _) end.
    simpl in Hc. exact Hc.
  - reflexivity.
Qed.

Lemma setDataBuffer_overflow_unbinds (env : Collaborators) (st : PlaneState)
    (handle : Z) (buffer : DataBuffer) :
  mInitialized st = true -> handle <> 0 ->
  buffer_bit_updated st handle <> 0 ->
  bm_lockDataBuffer env handle = Some buffer ->
  kv_find (DataBuffer_getKey buffer) (mDataBuffers st) = None ->
  cache_full st = true ->
  mCurrentDataBuffer (snd (setDataBuffer env st handle))
  = if fst (setDataBuffer env st handle) then handle else 0.
Proof.
  intros Hi Hh Hm Hlock Hmiss Hfull.
  rewrite (setDataBuffer_locks env st handle Hi Hh Hm).
  simpl. rewrite Hlock. simpl. rewrite Hmiss.
  match goal with |- context [mapBuffer env ?s buffer] =>
    pose proof (mapBuffer_overflow_unbinds env s buffer Hi Hfull) as Hc;
    destruct (mapBuffer env s buffer) as [[mapper|] s2] end; simpl in Hc.
  - rewrite bindMapper_bound. simpl. rewrite Hc. 
    destruct (fst (bindMapper _ _ _ _)); reflexivity.
  - simpl. exact Hc.
Qed.

(** A handle other than the bound one, whose buffer is not cached, is
    treated as a buffer change: the buffer dirty bit is set and the buffer
    manager is asked for a mapping. *)
Lemma setDataBuffer_unbound (env : Collaborators) (st : PlaneState)
    (handle : Z) (buffer : DataBuffer) :
  mInitialized st = true -> handle <> 0 ->
  mCurrentDataBuffer st <> handle ->
  bm_lockDataBuffer env handle = Some buffer ->
  kv_find (DataBuffer_getKey buffer) (mDataBuffers st) = None ->
  mask_test (mUpdateMasks (snd (setDataBuffer env st handle)))
    PLANE_BUFFER_CHANGED = true
  /\ exists more,
       mCalls (snd (setDataBuffer env st handle)) = mCalls st ++ more
       /\ In (CallMap buffer) more.
Proof.
  intros Hi Hh Hne Hlock Hmiss.
  assert (Hbit : buffer_bit_updated st handle
                 = mask_set (mUpdateMasks st) PLANE_BUFFER_CHANGED).
  { unfold buffer_bit_updated. apply Z.eqb_neq in Hne. rewrite Hne. reflexivity. }
  assert (Hm : buffer_bit_updated st handle <> 0).
  { rewrite Hbit. apply mask_set_nonzero, buffer_bit. }
  split.
  - destruct (setDataBuffer_frame env st handle) as [_ Hmask].
    rewrite Hmask, Hi. apply Z.eqb_neq in Hh. rewrite Hh. simpl.
    rewrite Hbit. apply mask_test_set, buffer_bit.
  - rewrite (setDataBuffer_locks env st handle Hi Hh Hm).
    simpl. rewrite Hlock. simpl. rewrite Hmiss.
    match goal with |- context [mapBuffer env ?s buffer] =>
      destruct (mapBuffer_calls env s buffer) as [more [Hmore Hin]];
      destruct (mapBuffer env s buffer) as [[mapper|] s2] end; simpl in Hmore.
    + match goal with |- context [bindMapper env ?s handle mapper] =>
        destruct (bindMapper_calls env s handle mapper) as [more' Hmore'] end.
      rewrite Hmore'; simpl. rewrite Hmore, <- !app_assoc.
      eexists. split; [reflexivity|].
      simpl. right. right. rewrite in_app_iff. left. exact Hin.
    + simpl. rewrite Hmore, <- !app_assoc.
      eexists. split; [reflexivity|].
      simpl. right. right. rewrite in_app_iff. left. exact Hin.
Qed.

(** C10: every invalidation of the whole cache resets the bound buffer
    identity to none: invalidateBufferCache itself, deinitialize (after
    which a plane initialized again starts unbound and with an empty
    cache), reset of a plane that holds mappings, and the eviction of a
    full cache inside a buffer-set, after which the bound identity is the
    submitted handle if the call succeeded and none if it failed.  On an
    initialized plane a handle other than the bound one, whose buffer is
    not cached, is then treated as a buffer change: the buffer dirty bit
    is set and a mapping is asked for. *)
Theorem invalidation_unbinds_buffer :
  (forall st,
     mInitialized st = true ->
     mDataBuffers (invalidateBufferCache st) = []
     /\ mCurrentDataBuffer (invalidateBufferCache st) = 0)
  /\ (forall st, mCurrentDataBuffer (deinitialize st) = 0)
  /\ (forall st bufferCount,
        mInitialized st = true ->
        let st' := snd (initialize (deinitialize st) bufferCount) in
        mInitialized st' = true /\ mCurrentDataBuffer st' = 0
        /\ mDataBuffers st' = [])
  /\ (forall st,
        mInitialized st = true -> mDataBuffers st <> [] ->
        mDataBuffers (snd (reset st)) = []
        /\ mCurrentDataBuffer (snd (reset st)) = 0
        /\ mInitialized (snd (reset st)) = true)
  /\ (forall env st handle buffer,
        mInitialized st = true -> handle <> 0 ->
        buffer_bit_updated st handle <> 0 ->
        bm_lockDataBuffer env handle = Some buffer ->
        kv_find (DataBuffer_getKey buffer) (mDataBuffers st) = None ->
        cache_full st = true ->
        mCurrentDataBuffer (snd (setDataBuffer env st handle))
        = if fst (setDataBuffer env st handle) then handle else 0)
  /\ (forall env st handle buffer,
        mInitialized st = true -> handle <> 0 ->
        mCurrentDataBuffer st <> handle ->
        bm_lockDataBuffer env handle = Some buffer ->
        kv_find (DataBuffer_getKey buffer) (mDataBuffers st) = None ->
        mask_test (mUpdateMasks (snd (setDataBuffer env st handle)))
          PLANE_BUFFER_CHANGED = true
        /\ exists more,
             mCalls (snd (setDataBuffer env st handle)) = mCalls st ++ more
             /\ In (CallMap buffer) more).
Proof.
  split; [|split; [|split; [|split; [|split]]]].
  - intros st Hi. destruct (invalidateBufferCache_initialized st Hi) as (H1 & H2 & _).
    auto.
  - intros st. apply deinitialize_unbinds.
  - apply reinitialize_unbound.
  - apply reset_unbinds.
  - apply setDataBuffer_overflow_unbinds.
  - apply setDataBuffer_unbound.
Qed.

End Invalidation.

(** At the constants of the spec: buffer 5 is bound and cached, the cache
    is invalidated, and 5 is submitted again; the buffer bit is set and a
    mapping of buffer 5 is asked for anew. *)
Lemma invalidation_unbinds_buffer_witness :
  mCurrentDataBuffer (invalidateBufferCache bound_plane) = 0
  /\ mask_test
       (mUpdateMasks (snd (setDataBuffer env_ok (invalidateBufferCache bound_plane) 5)))
       PLANE_BUFFER_CHANGED = true
  /\ exists more,
       mCalls (snd (setDataBuffer env_ok (invalidateBufferCache bound_plane) 5))
       = mCalls (invalidateBufferCache bound_plane) ++ more
       /\ In (CallMap (buffer_of 5)) more.
Proof.
  destruct (invalidation_unbinds_buffer (consts := spec_constants))
    as (Hinv & _ & _ & _ & _ & Hsubmit); [simpl; lia|].
  split.
  - apply (Hinv bound_plane). reflexivity.
  - apply Hsubmit.
    + reflexivity.
    + lia.
    + vm_compute. discriminate.
    + reflexivity.
    + reflexivity.
Defined.

(** * Further properties of the plane *)

(** ** The geometry check *)

Section Geometry.
Variable getModeInfo : Z -> option ModeInfo.

Lemma checkPosition_available (st : PlaneState) (r : Rect) (mode : ModeInfo) :
  getModeInfo (mDevice st) = Some mode -> small_geometry mode r ->
  checkPosition getModeInfo st r
  = mkRect (Z.max 0 (rx r)) (Z.max 0 (ry r))
      (Z.min (rw r) (hdisplay mode - Z.max 0 (rx r)))
      (Z.min (rh r) (vdisplay mode - Z.max 0 (ry r))).
Proof.
  unfold checkPosition, small_geometry. intros Hm Hs. rewrite Hm.
  assert (Hx : (if rx r <? 0 then 0 else rx r) = Z.max 0 (rx r))
    by (destruct (Z.ltb_spec (rx r) 0); lia).
  assert (Hy : (if ry r <? 0 then 0 else ry r) = Z.max 0 (ry r))
    by (destruct (Z.ltb_spec (ry r) 0); lia).
  rewrite Hx, Hy.
  rewrite !wrap_int32_small by lia.
  f_equal.
  - destruct (Z.gtb_spec (Z.max 0 (rx r) + rw r) (hdisplay mode)); lia.
  - destruct (Z.gtb_spec (Z.max 0 (ry r) + rh r) (vdisplay mode)); lia.
Qed.

(** X1: with the mode at hand, the checked rectangle starts at
    non-negative coordinates and ends within the resolution of the
    display; the origin is moved to zero where it was negative and the
    extent is only ever cut, never grown. *)
Theorem checkPosition_clamps (st : PlaneState) (r : Rect) (mode : ModeInfo) :
  getModeInfo (mDevice st) = Some mode -> small_geometry mode r ->
  let r' := checkPosition getModeInfo st r in
  on_display mode r'
  /\ rx r' = Z.max 0 (rx r) /\ ry r' = Z.max 0 (ry r)
  /\ rw r' <= rw r /\ rh r' <= rh r.
Proof.
  intros Hm Hs r'. unfold r'.
  rewrite (checkPosition_available st r mode Hm Hs).
  unfold on_display; simpl. lia.
Qed.

Lemma checkPosition_inside (st : PlaneState) (r : Rect) (mode : ModeInfo) :
  getModeInfo (mDevice st) = Some mode -> small_geometry mode r ->
  on_display mode r -> checkPosition getModeInfo st r = r.
Proof.
  intros Hm Hs (Hx & Hy & Hw & Hh).
  rewrite (checkPosition_available st r mode Hm Hs).
  destruct r as [x y w h]; simpl in *. f_equal; lia.
Qed.

(** X2: a rectangle that lies on the display comes back unchanged, and so
    does every rectangle when the mode query fails. *)
Theorem checkPosition_keeps (st : PlaneState) (r : Rect) :
  (getModeInfo (mDevice st) = None -> checkPosition getModeInfo st r = r)
  /\ (forall mode,
        getModeInfo (mDevice st) = Some mode -> small_geometry mode r ->
        on_display mode r -> checkPosition getModeInfo st r = r).
Proof.
  split.
  - intros Hm. unfold checkPosition. rewrite Hm. reflexivity.
  - intros mode. apply checkPosition_inside.
Qed.

(** X3: checking a rectangle a second time changes nothing. *)
Theorem checkPosition_idempotent (st : PlaneState) (r : Rect) :
  (forall mode, getModeInfo (mDevice st) = Some mode -> small_geometry mode r) ->
  checkPosition getModeInfo st (checkPosition getModeInfo st r)
  = checkPosition getModeInfo st r.
Proof.
  intros Hs.
  destruct (getModeInfo (mDevice st)) as [mode|] eqn:Hm.
  - specialize (Hs mode eq_refl).
    rewrite (checkPosition_available st r mode Hm Hs).
    apply (checkPosition_inside _ _ mode Hm);
      unfold on_display, small_geometry in *; simpl; lia.
  - unfold checkPosition. rewrite Hm. reflexivity.
Qed.

End Geometry.

(** A rectangle that starts left of a 1920x1080 display and ends below
    it. *)
Lemma checkPosition_clamps_witness :
  checkPosition drm_1080p fresh_plane (mkRect (-10) 600 640 800)
  = mkRect 0 600 640 480
  /\ on_display (mkModeInfo 1920 1080)
       (checkPosition drm_1080p fresh_plane (mkRect (-10) 600 640 800)).
Proof.
  split; [reflexivity|].
  apply (checkPosition_clamps drm_1080p fresh_plane
           (mkRect (-10) 600 640 800) (mkModeInfo 1920 1080)).
  - reflexivity.
  - unfold small_geometry; simpl. lia.
Defined.

Lemma checkPosition_keeps_witness :
  checkPosition drm_unavailable fresh_plane (mkRect (-10) 600 640 800)
  = mkRect (-10) 600 640 800
  /\ checkPosition drm_1080p fresh_plane (mkRect 0 0 1920 1080)
     = mkRect 0 0 1920 1080.
Proof.
  split.
  - apply (proj1 (checkPosition_keeps drm_unavailable fresh_plane _)).
    reflexivity.
  - apply (proj2 (checkPosition_keeps drm_1080p fresh_plane _)
             (mkModeInfo 1920 1080)).
    + reflexivity.
    + unfold small_geometry; simpl. lia.
    + unfold on_display; simpl. lia.
Defined.

Lemma checkPosition_idempotent_witness :
  checkPosition drm_1080p fresh_plane
    (checkPosition drm_1080p fresh_plane (mkRect (-10) 600 640 800))
  = checkPosition drm_1080p fresh_plane (mkRect (-10) 600 640 800).
Proof.
  apply checkPosition_idempotent.
  intros mode Hm. injection Hm as <-. unfold small_geometry; simpl. lia.
Defined.

(** ** The value setters *)

Lemma rect_eqb_eq (a : Rect) (x y w h : Z) :
  rect_eqb a x y w h = true <-> a = mkRect x y w h.
Proof.
  unfold rect_eqb. destruct a as [ax ay aw ah]; simpl.
  rewrite !andb_true_iff, !Z.eqb_eq. split.
  - intros [[[-> ->] ->] ->]. reflexivity.
  - intros H. injection H as -> -> -> ->. auto.
Qed.

Lemma mask_test_set_other (m a b : Z) :
  Z.land a b = 0 -> mask_test (mask_set m a) b = mask_test m b.
Proof.
  intros Hd. unfold mask_test, mask_set.
  rewrite Z.land_lor_distr_l, Hd, Z.lor_0_r. reflexivity.
Qed.

Lemma mask_test_clear_other (m a b : Z) :
  Z.land a b = 0 -> mask_test (mask_clear m a) b = mask_test m b.
Proof.
  intros Hd. unfold mask_test, mask_clear. f_equal. f_equal.
  apply Z.bits_inj'; intros n Hn.
  apply (f_equal (fun z => Z.testbit z n)) in Hd.
  rewrite Z.land_spec, Z.bits_0 in Hd.
  rewrite !Z.land_spec, Z.lnot_spec by assumption.
  destruct (Z.testbit m n), (Z.testbit a n), (Z.testbit b n);
    simpl in *; congruence.
Qed.

Section Setters.
Context {consts : PlaneConstants}.

Lemma classic_rotation (trans : Z) : is_rotation trans \/ ~ is_rotation trans.
Proof.
  unfold is_rotation.
  destruct (Z.eq_dec trans PLANE_TRANSFORM_90);
    destruct (Z.eq_dec trans PLANE_TRANSFORM_180);
    destruct (Z.eq_dec trans PLANE_TRANSFORM_270); tauto.
Qed.

(** X4: the crop setter always leaves the given rectangle stored; of two
    successive calls with the same rectangle the first sets the crop dirty
    bit exactly when the rectangle differs from the stored crop, and the
    second clears it. *)
Theorem setSourceCrop_twice (st : PlaneState) (x y w h : Z) :
  PLANE_SOURCE_CROP_CHANGED <> 0 ->
  let first := setSourceCrop st x y w h in
  let second := setSourceCrop first x y w h in
  mSrcCrop first = mkRect x y w h
  /\ mask_test (mUpdateMasks first) PLANE_SOURCE_CROP_CHANGED
     = negb (rect_eqb (mSrcCrop st) x y w h)
  /\ mSrcCrop second = mkRect x y w h
  /\ mask_test (mUpdateMasks second) PLANE_SOURCE_CROP_CHANGED = false.
Proof.
  intros Hbit first second.
  assert (Hstored : mSrcCrop first = mkRect x y w h).
  { unfold first, setSourceCrop.
    destruct (rect_eqb (mSrcCrop st) x y w h) eqn:E; simpl; [|reflexivity].
    apply rect_eqb_eq, E. }
  assert (Hdirty : mask_test (mUpdateMasks first) PLANE_SOURCE_CROP_CHANGED
                   = negb (rect_eqb (mSrcCrop st) x y w h)).
  { unfold first, setSourceCrop.
    destruct (rect_eqb (mSrcCrop st) x y w h); simpl;
      [apply mask_test_clear | apply mask_test_set, Hbit]. }
  split; [exact Hstored|]. split; [exact Hdirty|].
  unfold second, setSourceCrop.
  rewrite (proj2 (rect_eqb_eq (mSrcCrop first) x y w h) Hstored). simpl.
  split; [exact Hstored | apply mask_test_clear].
Qed.

(** X5: the position, crop and transform setters make no call to a
    collaborator and leave the buffers of the plane alone; each leaves the
    two other stored values as they are, and, the dirty bits being
    pairwise disjoint, the dirty bits of the others as well. *)
Theorem setters_independent (st : PlaneState) :
  Z.land PLANE_POSITION_CHANGED PLANE_SOURCE_CROP_CHANGED = 0 ->
  Z.land PLANE_POSITION_CHANGED PLANE_TRANSFORM_CHANGED = 0 ->
  Z.land PLANE_POSITION_CHANGED PLANE_BUFFER_CHANGED = 0 ->
  Z.land PLANE_SOURCE_CROP_CHANGED PLANE_TRANSFORM_CHANGED = 0 ->
  Z.land PLANE_SOURCE_CROP_CHANGED PLANE_BUFFER_CHANGED = 0 ->
  Z.land PLANE_TRANSFORM_CHANGED PLANE_BUFFER_CHANGED = 0 ->
  (forall x y w h,
     let st' := setPosition st x y w h in
     same_buffers st st'
     /\ mSrcCrop st' = mSrcCrop st /\ mTransform st' = mTransform st
     /\ mask_test (mUpdateMasks st') PLANE_SOURCE_CROP_CHANGED
        = mask_test (mUpdateMasks st) PLANE_SOURCE_CROP_CHANGED
     /\ mask_test (mUpdateMasks st') PLANE_TRANSFORM_CHANGED
        = mask_test (mUpdateMasks st) PLANE_TRANSFORM_CHANGED
     /\ mask_test (mUpdateMasks st') PLANE_BUFFER_CHANGED
        = mask_test (mUpdateMasks st) PLANE_BUFFER_CHANGED)
  /\ (forall x y w h,
        let st' := setSourceCrop st x y w h in
        same_buffers st st'
        /\ mPosition st' = mPosition st /\ mTransform st' = mTransform st
        /\ mask_test (mUpdateMasks st') PLANE_POSITION_CHANGED
           = mask_test (mUpdateMasks st) PLANE_POSITION_CHANGED
        /\ mask_test (mUpdateMasks st') PLANE_TRANSFORM_CHANGED
           = mask_test (mUpdateMasks st) PLANE_TRANSFORM_CHANGED
        /\ mask_test (mUpdateMasks st') PLANE_BUFFER_CHANGED
           = mask_test (mUpdateMasks st) PLANE_BUFFER_CHANGED)
  /\ (forall trans,
        let st' := setTransform st trans in
        same_buffers st st'
        /\ mPosition st' = mPosition st /\ mSrcCrop st' = mSrcCrop st
        /\ mask_test (mUpdateMasks st') PLANE_POSITION_CHANGED
           = mask_test (mUpdateMasks st) PLANE_POSITION_CHANGED
        /\ mask_test (mUpdateMasks st') PLANE_SOURCE_CROP_CHANGED
           = mask_test (mUpdateMasks st) PLANE_SOURCE_CROP_CHANGED
        /\ mask_test (mUpdateMasks st') PLANE_BUFFER_CHANGED
           = mask_test (mUpdateMasks st) PLANE_BUFFER_CHANGED).
Proof.
  intros Hpc Hpt Hpb Hct Hcb Htb.
  assert (Hcp := Hpc). rewrite Z.land_comm in Hcp.
  assert (Htp := Hpt). rewrite Z.land_comm in Htp.
  assert (Htc := Hct). rewrite Z.land_comm in Htc.
  split; [|split].
  - intros x y w h. unfold setPosition, same_buffers.
    destruct (rect_eqb (mPosition st) x y w h); simpl;
      rewrite ?mask_test_clear_other, ?mask_test_set_other by assumption;
      tauto.
  - intros x y w h. unfold setSourceCrop, same_buffers.
    destruct (rect_eqb (mSrcCrop st) x y w h); simpl;
      rewrite ?mask_test_clear_other, ?mask_test_set_other by assumption;
      tauto.
  - intros trans. unfold setTransform, same_buffers.
    destruct (mTransform st =? trans); simpl;
      [|destruct ((trans =? PLANE_TRANSFORM_90) || (trans =? PLANE_TRANSFORM_180)
                  || (trans =? PLANE_TRANSFORM_270)); simpl];
      rewrite ?mask_test_clear_other, ?mask_test_set_other by assumption;
      tauto.
Qed.

(** X6: calling the transform setter again with the same value leaves the
    stored transform as the first call left it.  For one of the four
    enumerators the second call clears the transform dirty bit; for any
    other value the bit is set again by every call, since the stored
    identity never equals the value passed in. *)
Theorem setTransform_repeated (st : PlaneState) (trans : Z) :
  PLANE_TRANSFORM_CHANGED <> 0 ->
  valid_transform st ->
  let first := setTransform st trans in
  let second := setTransform first trans in
  mTransform second = mTransform first
  /\ (is_rotation trans \/ trans = PLANE_TRANSFORM_0 ->
      mask_test (mUpdateMasks second) PLANE_TRANSFORM_CHANGED = false)
  /\ (~ is_rotation trans -> trans <> PLANE_TRANSFORM_0 ->
      mask_test (mUpdateMasks second) PLANE_TRANSFORM_CHANGED = true).
Proof.
  intros Hbit Hv first second.
  assert (Hv1 : valid_transform first) by (apply setTransform_valid, Hv).
  split; [|split].
  - destruct (classic_rotation trans) as [Hr | Hn].
    + unfold second, first.
      rewrite !setTransform_rotation by assumption. reflexivity.
    + unfold second, first.
      rewrite !setTransform_other by (try apply setTransform_valid; assumption).
      reflexivity.
  - intros Hok. unfold second. rewrite (setTransform_dirty Hbit).
    assert (Heq : mTransform first = trans).
    { destruct Hok as [Hr | H0].
      - apply setTransform_rotation, Hr.
      - destruct (classic_rotation trans) as [Hr | Hn].
        + apply setTransform_rotation, Hr.
        + unfold first. rewrite setTransform_other by assumption.
          symmetry. exact H0. }
    rewrite Heq, Z.eqb_refl. reflexivity.
  - intros Hn H0. unfold second. rewrite (setTransform_dirty Hbit).
    unfold first. rewrite setTransform_other by assumption.
    apply negb_true_iff, Z.eqb_neq. congruence.
Qed.

End Setters.

(** At the constants of the spec: the crop (0,0,640,480) on a plane whose
    crop is (0,0,0,0). *)
Lemma setSourceCrop_twice_witness :
  mSrcCrop (setSourceCrop ready_plane 0 0 640 480) = mkRect 0 0 640 480
  /\ mask_test (mUpdateMasks (setSourceCrop ready_plane 0 0 640 480)) 4 = true
  /\ mSrcCrop (setSourceCrop (setSourceCrop ready_plane 0 0 640 480) 0 0 640 480)
     = mkRect 0 0 640 480
  /\ mask_test
       (mUpdateMasks
          (setSourceCrop (setSourceCrop ready_plane 0 0 640 480) 0 0 640 480)) 4
     = false.
Proof.
  apply (setSourceCrop_twice (consts := spec_constants)). simpl. lia.
Defined.

(** At the constants of the spec, on the plane with buffer 5 bound: a new
    position leaves the buffers, the crop, the transform and the buffer
    dirty bit as they are. *)
Lemma setters_independent_witness :
  same_buffers bound_plane (setPosition bound_plane 10 20 640 480)
  /\ mSrcCrop (setPosition bound_plane 10 20 640 480) = mSrcCrop bound_plane
  /\ mask_test (mUpdateMasks (setPosition bound_plane 10 20 640 480))
       PLANE_BUFFER_CHANGED
     = mask_test (mUpdateMasks bound_plane) PLANE_BUFFER_CHANGED.
Proof.
  destruct (setters_independent (consts := spec_constants) bound_plane)
    as (Hpos & _ & _); try reflexivity.
  destruct (Hpos 10 20 640 480) as (Hb & Hc & _ & _ & _ & Hbit).
  split; [exact Hb | split; [exact Hc | exact Hbit]].
Defined.

(** At the constants of the spec: 90 settles at the second call, 45 does
    not. *)
Lemma setTransform_repeated_witness :
  mask_test (mUpdateMasks (setTransform (setTransform ready_plane 90) 90))
    PLANE_TRANSFORM_CHANGED = false
  /\ mask_test (mUpdateMasks (setTransform (setTransform ready_plane 45) 45))
       PLANE_TRANSFORM_CHANGED = true.
Proof.
  split.
  - destruct (setTransform_repeated (consts := spec_constants) ready_plane 90)
      as (_ & Hclear & _).
    + simpl. lia.
    + left. reflexivity.
    + apply Hclear. left. left. reflexivity.
  - destruct (setTransform_repeated (consts := spec_constants) ready_plane 45)
      as (_ & _ & Hset).
    + simpl. lia.
    + left. reflexivity.
    + apply Hset.
      * unfold is_rotation; simpl. lia.
      * simpl. lia.
Defined.

(** ** What every reachable plane keeps *)

Lemma map_calls_app (a b : list Call) :
  map_calls (a ++ b) = (map_calls a + map_calls b)%nat.
Proof.
  induction a as [|c a IH]; simpl; [reflexivity|].
  destruct c; simpl; rewrite IH; reflexivity.
Qed.

Lemma map_calls_unmaps (ms : list BufferMapper) :
  map_calls (List.map CallUnmap ms) = 0%nat.
Proof. induction ms; simpl; auto. Qed.

Lemma kv_add_nonempty (key : Z) (v : BufferMapper) (kv : KeyedVector) :
  kv_add key v kv <> [].
Proof.
  destruct kv as [|[k v'] rest]; simpl; [discriminate|].
  destruct (key <? k); [discriminate|].
  destruct (key =? k); discriminate.
Qed.

Lemma kv_add_sorted (key : Z) (v : BufferMapper) (kv : KeyedVector) :
  kv_sorted kv -> kv_sorted (kv_add key v kv).
Proof.
  induction kv as [|[k v'] rest IH]; simpl; [auto|].
  intros [Hhd Hrest].
  destruct (Z.ltb_spec key k) as [Hlt | Hge]; [simpl; auto|].
  destruct (Z.eqb_spec key k) as [-> | Hne]; [simpl; auto|].
  specialize (IH Hrest). simpl. split; [|exact IH].
  destruct rest as [|[k2 v2] rest2]; simpl; [lia|].
  destruct (key <? k2); [lia|].
  destruct (key =? k2); simpl; lia.
Qed.

Lemma kv_find_add_same (key : Z) (v : BufferMapper) (kv : KeyedVector) :
  kv_find key (kv_add key v kv) = Some v.
Proof.
  induction kv as [|[k v'] rest IH]; simpl.
  - rewrite Z.eqb_refl. reflexivity.
  - destruct (Z.ltb_spec key k) as [Hlt | Hge]; simpl.
    + rewrite Z.eqb_refl. reflexivity.
    + destruct (Z.eqb_spec key k) as [-> | Hne]; simpl.
      * rewrite Z.eqb_refl. reflexivity.
      * destruct (Z.eqb_spec k key); [congruence | exact IH].
Qed.

Lemma kv_find_add_other (key other : Z) (v : BufferMapper) (kv : KeyedVector) :
  other <> key -> kv_find other (kv_add key v kv) = kv_find other kv.
Proof.
  intros Hne. induction kv as [|[k v'] rest IH]; simpl.
  - destruct (Z.eqb_spec key other); [congruence | reflexivity].
  - destruct (Z.ltb_spec key k) as [Hlt | Hge]; simpl.
    + destruct (Z.eqb_spec key other); [congruence | reflexivity].
    + destruct (Z.eqb_spec key k) as [-> | Hne']; simpl.
      * destruct (Z.eqb_spec k other); [congruence | reflexivity].
      * destruct (Z.eqb_spec k other); [reflexivity | exact IH].
Qed.

(** Normal form of the reference counts of an extended call log. *)
Ltac refs_norm :=
  unfold references_balanced, references_released, references_taken,
    kv_values in *;
  simpl in *;
  repeat rewrite ?unmapped_app, ?admissions_app, ?map_calls_app,
    ?unmapped_unmaps, ?admissions_unmaps, ?map_calls_unmaps,
    ?length_app, ?length_map in *;
  simpl in *.

Section PlaneInvariant.
Context {consts : PlaneConstants}.

Lemma plane_inv_same (st st' : PlaneState) :
  mInitialized st' = mInitialized st ->
  mDataBuffers st' = mDataBuffers st ->
  mActiveBuffers st' = mActiveBuffers st ->
  mCurrentDataBuffer st' = mCurrentDataBuffer st ->
  references_released (mCalls st') = references_released (mCalls st) ->
  references_taken (mCalls st') = references_taken (mCalls st) ->
  plane_inv st -> plane_inv st'.
Proof.
  unfold plane_inv, holds_nothing, references_balanced, active_keys.
  intros Hi Hd Ha Hc Hr Ht H. rewrite Hi, Hd, Ha, Hc, Hr, Ht. exact H.
Qed.

Lemma invalidateBufferCache_inv (st : PlaneState) :
  plane_inv st -> plane_inv (invalidateBufferCache st).
Proof.
  unfold invalidateBufferCache, not_initialized. intros H.
  destruct (mInitialized st) eqn:Hi; simpl; [|exact H].
  destruct H as (_ & _ & _ & Hnd & Hbal).
  unfold plane_inv, holds_nothing, active_keys; simpl. rewrite Hi.
  split; [discriminate|]. split; [congruence|]. split; [exact I|].
  split; [exact Hnd|]. refs_norm. lia.
Qed.

Lemma invalidateActiveBuffers_inv (st : PlaneState) :
  plane_inv st -> plane_inv (invalidateActiveBuffers st).
Proof.
  unfold invalidateActiveBuffers, not_initialized. intros H.
  destruct (mInitialized st) eqn:Hi; simpl; [|exact H].
  destruct H as (_ & Hcur & Hsorted & _ & Hbal).
  unfold plane_inv, holds_nothing, active_keys; simpl. rewrite Hi.
  split; [discriminate|]. split; [exact Hcur|]. split; [exact Hsorted|].
  split; [constructor|]. refs_norm. lia.
Qed.

Lemma mapBuffer_inv (env : Collaborators) (st : PlaneState) (buffer : DataBuffer) :
  mInitialized st = true ->
  plane_inv st -> plane_inv (snd (mapBuffer env st buffer)).
Proof.
  intros Hi H. unfold mapBuffer.
  assert (H1 : plane_inv
                 (if wrap_int32 (Z.of_nat (length (mDataBuffers st)))
                     >=? mCacheCapacity st
                  then invalidateBufferCache st else st)
               /\ mInitialized
                    (if wrap_int32 (Z.of_nat (length (mDataBuffers st)))
                        >=? mCacheCapacity st
                     then invalidateBufferCache st else st) = true).
  { destruct (_ >=? _); [|auto]. split; [apply invalidateBufferCache_inv, H|].
    unfold invalidateBufferCache, not_initialized. rewrite Hi. exact Hi. }
  destruct H1 as [(_ & Hcur & Hsorted & Hnd & Hbal) Hi1].
  match goal with |- context [log_call _ ?s] => generalize dependent s end.
  intros s Hcur Hsorted Hnd Hbal Hi1.
  destruct (bm_map env buffer) as [mapper|]; [destruct (kv_add_ok env)|];
    unfold plane_inv, holds_nothing, active_keys in *; simpl; rewrite Hi1;
    (split; [discriminate|]).
  - split; [intros _; apply kv_add_nonempty|].
    split; [apply kv_add_sorted, Hsorted|]. split; [exact Hnd|].
    pose proof (kv_add_length_le (DataBuffer_getKey buffer) mapper
                  (mDataBuffers s)).
    refs_norm. lia.
  - split; [exact Hcur|]. split; [exact Hsorted|]. split; [exact Hnd|].
    refs_norm. lia.
  - split; [exact Hcur|]. split; [exact Hsorted|]. split; [exact Hnd|].
    refs_norm. lia.
Qed.

Lemma updateActiveBuffers_inv (st : PlaneState) (mapper : BufferMapper) :
  mInitialized st = true ->
  plane_inv st -> plane_inv (updateActiveBuffers st mapper).
Proof.
  intros Hi (_ & Hcur & Hsorted & Hnd & Hbal).
  destruct (updateActiveBuffers_frame st mapper) as (Hcfg & _ & Hd & Hc & _).
  unfold same_configuration in Hcfg.
  destruct Hcfg as (_ & _ & _ & _ & Hinit & _).
  unfold plane_inv. rewrite <- Hinit, Hd, Hc, Hi.
  split; [discriminate|]. split; [exact Hcur|]. split; [exact Hsorted|].
  split; [apply updateActiveBuffers_nodup, Hnd|].
  unfold updateActiveBuffers.
  destruct (Z.of_nat (length (mActiveBuffers st)) >=? MIN_DATA_BUFFER_COUNT);
    [destruct (mActiveBuffers st) as [|oldest rest] eqn:Ea|];
    destruct (isActiveBuffer _ mapper); refs_norm;
    rewrite ?Ea in *; simpl in *; lia.
Qed.

Lemma bindMapper_inv (env : Collaborators) (st : PlaneState) (handle : Z)
    (mapper : BufferMapper) :
  mInitialized st = true -> mDataBuffers st <> [] ->
  plane_inv st -> plane_inv (snd (bindMapper env st handle mapper)).
Proof.
  intros Hi Hne H. unfold bindMapper.
  destruct (plane_setDataBuffer env mapper); simpl.
  - apply updateActiveBuffers_inv; [exact Hi|].
    destruct H as (_ & _ & Hsorted & Hnd & Hbal).
    unfold plane_inv, holds_nothing, active_keys in *; simpl.
    rewrite Hi. split; [discriminate|]. split; [intros _; exact Hne|].
    split; [exact Hsorted|]. split; [exact Hnd|]. refs_norm. lia.
  - revert H. apply plane_inv_same; try reflexivity; refs_norm; lia.
Qed.

Lemma setDataBuffer_inv (env : Collaborators) (st : PlaneState) (handle : Z) :
  plane_inv st -> plane_inv (snd (setDataBuffer env st handle)).
Proof.
  intros H. unfold setDataBuffer, not_initialized.
  destruct (mInitialized st) eqn:Hi; simpl; [|exact H].
  destruct (handle =? 0); simpl; [exact H|].
  match goal with |- context [mUpdateMasks ?s =? 0] =>
    assert (H1 : plane_inv s /\ mInitialized s = true)
      by (destruct (negb (mCurrentDataBuffer st =? handle)); simpl;
          (split; [revert H; apply plane_inv_same; reflexivity | exact Hi]));
    generalize dependent s end.
  intros s [H1 Hi1]. clear H.
  destruct (mUpdateMasks s =? 0); simpl; [exact H1|].
  destruct (bm_lockDataBuffer env handle) as [buffer|]; simpl.
  2:{ revert H1. apply plane_inv_same; try reflexivity; refs_norm; lia. }
  destruct (kv_find (DataBuffer_getKey buffer) (mDataBuffers s)) as [mapper|] eqn:Ef.
  - apply bindMapper_inv; simpl.
    + exact Hi1.
    + destruct (mDataBuffers s); [discriminate Ef | discriminate].
    + revert H1. apply plane_inv_same; try reflexivity; refs_norm; lia.
  - match goal with |- context [mapBuffer env ?s1 buffer] =>
      assert (H2 : plane_inv (snd (mapBuffer env s1 buffer)))
        by (apply mapBuffer_inv;
            [exact Hi1
            | revert H1; apply plane_inv_same; try reflexivity;
              refs_norm; lia]);
      pose proof (mapBuffer_frame env s1 buffer) as Hf;
      assert (Hsome : forall m, fst (mapBuffer env s1 buffer) = Some m ->
                                mDataBuffers (snd (mapBuffer env s1 buffer)) <> []);
      [|destruct (mapBuffer env s1 buffer) as [[mapper|] s2]] end.
    + intros m. unfold mapBuffer.
      destruct (bm_map env buffer); [destruct (kv_add_ok env)|]; simpl;
        try discriminate.
      intros _. apply kv_add_nonempty.
    + simpl in *. destruct Hf as (Hcfg & _).
      unfold same_configuration in Hcfg; simpl in Hcfg.
      apply bindMapper_inv; simpl.
      * destruct Hcfg as (_ & _ & _ & _ & Hinit & _). congruence.
      * apply (Hsome mapper eq_refl).
      * revert H2. apply plane_inv_same; try reflexivity; refs_norm; lia.
    + simpl in *. revert H2.
      apply plane_inv_same; try reflexivity; refs_norm; lia.
Qed.

Lemma plane_inv_step (st : PlaneState) (op : Op) :
  plane_inv st -> plane_inv (step st op).
Proof.
  intros H.
  destruct op as [n| |x y w h|x y w h|t|env handle| |disp| | |z]; simpl;
    try exact H.
  - destruct H as (Hun & Hcur & Hsorted & Hnd & Hbal).
    unfold plane_inv, holds_nothing, active_keys in *; simpl.
    split; [discriminate | auto].
  - unfold deinitialize.
    set (st1 := if negb (Z.of_nat (length (mDataBuffers st)) =? 0)
                then invalidateBufferCache st else st).
    assert (H1 : plane_inv st1 /\ mDataBuffers st1 = []).
    { unfold st1.
      destruct (Z.of_nat (length (mDataBuffers st)) =? 0) eqn:E; simpl.
      - split; [exact H|]. apply Z.eqb_eq in E.
        destruct (mDataBuffers st); [reflexivity | simpl in E; lia].
      - split; [apply invalidateBufferCache_inv, H|].
        unfold invalidateBufferCache, not_initialized.
        destruct (mInitialized st) eqn:Hi; simpl; [reflexivity|].
        apply H, Hi. }
    destruct H1 as [H1 He1]. clearbody st1.
    set (st2 := if negb (Z.of_nat (length (mActiveBuffers st1)) =? 0)
                then invalidateActiveBuffers st1 else st1).
    assert (H2 : plane_inv st2 /\ mDataBuffers st2 = []
                 /\ mActiveBuffers st2 = []).
    { unfold st2.
      destruct (Z.of_nat (length (mActiveBuffers st1)) =? 0) eqn:E; simpl.
      - split; [exact H1|]. split; [exact He1|]. apply Z.eqb_eq in E.
        destruct (mActiveBuffers st1); [reflexivity | simpl in E; lia].
      - split; [apply invalidateActiveBuffers_inv, H1|].
        unfold invalidateActiveBuffers, not_initialized.
        destruct (mInitialized st1) eqn:Hi; simpl; [auto|].
        destruct H1 as (Hun & _). destruct (Hun Hi) as (_ & Ha & _). auto. }
    destruct H2 as ((_ & _ & _ & _ & Hbal) & He2 & Ha2). clearbody st2.
    unfold plane_inv, holds_nothing, active_keys, references_balanced in *;
      simpl. rewrite He2, Ha2 in *. simpl.
    split; [auto|]. split; [congruence|]. split; [exact I|].
    split; [constructor | exact Hbal].
  - unfold setPosition. destruct (rect_eqb _ x y w h); exact H.
  - unfold setSourceCrop. destruct (rect_eqb _ x y w h); exact H.
  - unfold setTransform. destruct (mTransform st =? t); [exact H|].
    destruct ((t =? PLANE_TRANSFORM_90) || (t =? PLANE_TRANSFORM_180)
              || (t =? PLANE_TRANSFORM_270)); exact H.
  - apply setDataBuffer_inv, H.
  - apply invalidateBufferCache_inv, H.
  - unfold assignToDevice, not_initialized. destruct (mInitialized st); exact H.
  - unfold reset; simpl.
    assert (H1 : plane_inv (if Z.of_nat (length (mDataBuffers st)) >? 0
                            then invalidateBufferCache st else st)).
    { destruct (_ >? 0); [apply invalidateBufferCache_inv|]; exact H. }
    destruct (Z.of_nat (length (mActiveBuffers _)) >? 0);
      [apply invalidateActiveBuffers_inv|]; exact H1.
Qed.

Lemma reachable_plane_inv (st : PlaneState) : reachable st -> plane_inv st.
Proof.
  induction 1 as [index type disp | st op _ IH].
  - unfold plane_inv, holds_nothing, active_keys, references_balanced,
      references_released, references_taken; simpl.
    repeat split; try congruence; try constructor.
  - apply plane_inv_step, IH.
Qed.

End PlaneInvariant.

Lemma kv_sorted_head (k : Z) (v : BufferMapper) (rest : KeyedVector) :
  kv_sorted ((k, v) :: rest) -> forall k', In k' (kv_keys rest) -> k < k'.
Proof.
  revert k v. induction rest as [|[k1 v1] rest IH]; intros k v Hs k' Hin.
  - destruct Hin.
  - destruct Hs as [Hlt Hrest]. destruct Hin as [<- | Hin]; [exact Hlt|].
    specialize (IH k1 v1 Hrest k' Hin). lia.
Qed.

Lemma kv_sorted_nodup (kv : KeyedVector) : kv_sorted kv -> NoDup (kv_keys kv).
Proof.
  induction kv as [|[k v] rest IH]; intros Hs; simpl.
  - constructor.
  - constructor.
    + intros Hin. pose proof (kv_sorted_head k v rest Hs k Hin). lia.
    + apply IH. destruct Hs as [_ Hrest]. exact Hrest.
Qed.

Lemma kv_sorted_find (kv : KeyedVector) (k : Z) (v : BufferMapper) :
  kv_sorted kv -> In (k, v) kv -> kv_find k kv = Some v.
Proof.
  induction kv as [|[k1 v1] rest IH]; intros Hs Hin; [destruct Hin|].
  simpl. destruct Hin as [Heq | Hin].
  - injection Heq as -> ->. rewrite Z.eqb_refl. reflexivity.
  - destruct (Z.eqb_spec k1 k) as [-> | Hne].
    + pose proof (kv_sorted_head k v1 rest Hs k
                    (in_map fst rest (k, v) Hin)). lia.
    + apply IH; [|exact Hin]. destruct Hs as [_ Hrest]. exact Hrest.
Qed.

Section ReachableStates.
Context {consts : PlaneConstants}.

(** X7: a plane that is not initialized holds no mapping at all: its
    cache and its active queue are empty and no buffer is bound. *)
Theorem uninitialized_holds_nothing (st : PlaneState) :
  reachable st -> mInitialized st = false -> holds_nothing st.
Proof. intros Hr. apply (reachable_plane_inv st Hr). Qed.

(** X8: whenever a buffer is bound, the plane is initialized and its
    cache is not empty. *)
Theorem bound_buffer_is_cached (st : PlaneState) :
  reachable st -> mCurrentDataBuffer st <> 0 ->
  mInitialized st = true /\ mDataBuffers st <> [].
Proof.
  intros Hr Hcur. destruct (reachable_plane_inv st Hr) as (Hun & Hne & _).
  split; [|apply Hne, Hcur].
  destruct (mInitialized st); [reflexivity|].
  destruct (Hun eq_refl) as (_ & _ & H0). contradiction.
Qed.

(** X9: the keys of the cache are strictly increasing, so no identity is
    cached twice and every cached mapping is the one its key looks up. *)
Theorem cache_keys_increasing (st : PlaneState) :
  reachable st ->
  kv_sorted (mDataBuffers st)
  /\ NoDup (kv_keys (mDataBuffers st))
  /\ (forall key mapper,
        In (key, mapper) (mDataBuffers st) ->
        kv_find key (mDataBuffers st) = Some mapper).
Proof.
  intros Hr. destruct (reachable_plane_inv st Hr) as (_ & _ & Hs & _).
  split; [exact Hs|]. split; [apply kv_sorted_nodup, Hs|].
  intros key mapper. apply kv_sorted_find, Hs.
Qed.

(** X10: the active queue never holds two entries of the same
    identity. *)
Theorem active_identities_distinct (st : PlaneState) :
  reachable st -> NoDup (active_keys st).
Proof. intros Hr. apply (reachable_plane_inv st Hr). Qed.


End ReachableStates.

Lemma reachable_full_plane : reachable full_plane.
Proof.
  unfold full_plane. apply reachable_run.
  apply (reachable_step fresh_plane (OpInitialize 2)). constructor.
Qed.

Lemma reachable_torn_down : reachable (deinitialize full_plane).
Proof. apply (reachable_step full_plane OpDeinitialize), reachable_full_plane. Qed.

Lemma uninitialized_holds_nothing_witness :
  holds_nothing (deinitialize full_plane).
Proof.
  apply (uninitialized_holds_nothing (consts := spec_constants)).
  - exact reachable_torn_down.
  - reflexivity.
Defined.

Lemma bound_buffer_is_cached_witness :
  mInitialized full_plane = true /\ mDataBuffers full_plane <> [].
Proof.
  apply (bound_buffer_is_cached (consts := spec_constants)).
  - exact reachable_full_plane.
  - vm_compute. discriminate.
Defined.

Lemma cache_keys_increasing_witness :
  kv_sorted (mDataBuffers full_plane)
  /\ NoDup (kv_keys (mDataBuffers full_plane))
  /\ (forall key mapper,
        In (key, mapper) (mDataBuffers full_plane) ->
        kv_find key (mDataBuffers full_plane) = Some mapper).
Proof.
  apply (cache_keys_increasing (consts := spec_constants)).
  exact reachable_full_plane.
Defined.

Lemma active_identities_distinct_witness : NoDup (active_keys full_plane).
Proof.
  apply (active_identities_distinct (consts := spec_constants)).
  exact reachable_full_plane.
Defined.


(** ** Tearing the plane down *)

Section Teardown.
Context {consts : PlaneConstants}.

Lemma drained_calls (st : PlaneState) :
  mInitialized st = true ->
  let st1 := if negb (Z.of_nat (length (mDataBuffers st)) =? 0)
             then invalidateBufferCache st else st in
  mDataBuffers st1 = []
  /\ mCalls st1 = mCalls st ++ List.map CallUnmap (kv_values (mDataBuffers st))
  /\ mActiveBuffers st1 = mActiveBuffers st
  /\ mInitialized st1 = true
  /\ same_settings st st1 /\ mCacheCapacity st1 = mCacheCapacity st.
Proof.
  intros Hi. unfold invalidateBufferCache, not_initialized, same_settings.
  rewrite Hi. simpl.
  destruct (mDataBuffers st) as [|e rest] eqn:E; simpl.
  - rewrite E, app_nil_r. tauto.
  - rewrite Hi. tauto.
Qed.

Lemma drained_active_calls (st : PlaneState) :
  mInitialized st = true ->
  let st1 := if negb (Z.of_nat (length (mActiveBuffers st)) =? 0)
             then invalidateActiveBuffers st else st in
  mActiveBuffers st1 = []
  /\ mCalls st1 = mCalls st ++ List.map CallUnmap (mActiveBuffers st)
  /\ mDataBuffers st1 = mDataBuffers st
  /\ mCurrentDataBuffer st1 = mCurrentDataBuffer st
  /\ mInitialized st1 = true
  /\ same_settings st st1 /\ mCacheCapacity st1 = mCacheCapacity st.
Proof.
  intros Hi. unfold invalidateActiveBuffers, not_initialized, same_settings.
  rewrite Hi. simpl.
  destruct (mActiveBuffers st) as [|e rest] eqn:E; simpl.
  - rewrite E, app_nil_r. tauto.
  - rewrite Hi. tauto.
Qed.

(** X12: deinitialize on an initialized plane unmaps every cached mapping
    and then every active mapping, once each and in that order, leaves
    both structures empty and no buffer bound, and marks the plane as not
    initialized; the geometry, the transform, the dirty mask and the
    capacity stay as they are. *)
Theorem deinitialize_drains (st : PlaneState) :
  mInitialized st = true ->
  let st' := deinitialize st in
  mInitialized st' = false
  /\ holds_nothing st'
  /\ mCalls st'
     = mCalls st ++ List.map CallUnmap (kv_values (mDataBuffers st))
       ++ List.map CallUnmap (mActiveBuffers st)
  /\ same_settings st st'
  /\ mCacheCapacity st' = mCacheCapacity st.
Proof.
  intros Hi. unfold deinitialize.
  destruct (drained_calls st Hi) as (Hd & Hc & Ha & Hi1 & Hs & Hcap).
  set (st1 := if negb (Z.of_nat (length (mDataBuffers st)) =? 0)
              then invalidateBufferCache st else st) in *.
  clearbody st1.
  destruct (drained_active_calls st1 Hi1) as (Ha2 & Hc2 & Hd2 & _ & _ & Hs2 & Hcap2).
  set (st2 := if negb (Z.of_nat (length (mActiveBuffers st1)) =? 0)
              then invalidateActiveBuffers st1 else st1) in *.
  clearbody st2.
  unfold holds_nothing, same_settings in *; simpl.
  rewrite Hc2, Hc, Ha, <- app_assoc.
  intuition congruence.
Qed.

Lemma deinitialize_fixed (st : PlaneState) :
  mInitialized st = false -> holds_nothing st -> deinitialize st = st.
Proof.
  intros Hi (Hd & Ha & Hc). unfold deinitialize.
  rewrite Hd. simpl. rewrite Ha. simpl.
  destruct st; simpl in *; subst. reflexivity.
Qed.

(** X13: deinitialize may be called again: on every reachable plane a
    second deinitialize changes nothing and makes no call. *)
Theorem deinitialize_idempotent (st : PlaneState) :
  reachable st -> deinitialize (deinitialize st) = deinitialize st.
Proof.
  intros Hr. apply deinitialize_fixed.
  - unfold deinitialize. reflexivity.
  - apply (reachable_plane_inv (deinitialize st)).
    + apply (reachable_step st OpDeinitialize), Hr.
    + unfold deinitialize. reflexivity.
Qed.

(** X14: reset on an initialized plane returns true, unmaps every cached
    and every active mapping once each, leaves both structures empty and
    no buffer bound, and keeps the plane initialized with its geometry,
    transform, dirty mask and capacity. *)
Theorem reset_drains (st : PlaneState) :
  reachable st -> mInitialized st = true ->
  let st' := snd (reset st) in
  fst (reset st) = true
  /\ mInitialized st' = true
  /\ holds_nothing st'
  /\ mCalls st'
     = mCalls st ++ List.map CallUnmap (kv_values (mDataBuffers st))
       ++ List.map CallUnmap (mActiveBuffers st)
  /\ same_settings st st'
  /\ mCacheCapacity st' = mCacheCapacity st.
Proof.
  intros Hr Hi. unfold reset; simpl.
  assert (Hcur : mDataBuffers st = [] -> mCurrentDataBuffer st = 0).
  { intros He. destruct (Z.eq_dec (mCurrentDataBuffer st) 0) as [H0 | Hne];
      [exact H0|].
    destruct (reachable_plane_inv st Hr) as (_ & Hcached & _).
    specialize (Hcached Hne). contradiction. }
  assert (H1 : exists st1,
             (if Z.of_nat (length (mDataBuffers st)) >? 0
              then invalidateBufferCache st else st) = st1
             /\ mDataBuffers st1 = [] /\ mCurrentDataBuffer st1 = 0
             /\ mCalls st1
                = mCalls st ++ List.map CallUnmap (kv_values (mDataBuffers st))
             /\ mActiveBuffers st1 = mActiveBuffers st
             /\ mInitialized st1 = true
             /\ same_settings st st1 /\ mCacheCapacity st1 = mCacheCapacity st).
  { eexists. split; [reflexivity|].
    unfold invalidateBufferCache, not_initialized, same_settings. rewrite Hi.
    destruct (mDataBuffers st) as [|e rest] eqn:E; simpl.
    - rewrite E, app_nil_r, (Hcur eq_refl). tauto.
    - rewrite Hi. tauto. }
  destruct H1 as (st1 & -> & Hd & Hc0 & Hc & Ha & Hi1 & Hs & Hcap).
  assert (H2 : exists st2,
             (if Z.of_nat (length (mActiveBuffers st1)) >? 0
              then invalidateActiveBuffers st1 else st1) = st2
             /\ mActiveBuffers st2 = []
             /\ mCalls st2 = mCalls st1 ++ List.map CallUnmap (mActiveBuffers st1)
             /\ mDataBuffers st2 = mDataBuffers st1
             /\ mCurrentDataBuffer st2 = mCurrentDataBuffer st1
             /\ mInitialized st2 = true
             /\ same_settings st1 st2 /\ mCacheCapacity st2 = mCacheCapacity st1).
  { eexists. split; [reflexivity|].
    unfold invalidateActiveBuffers, not_initialized, same_settings. rewrite Hi1.
    destruct (mActiveBuffers st1) as [|e rest] eqn:E; simpl.
    - rewrite E, app_nil_r. tauto.
    - rewrite Hi1. tauto. }
  destruct H2 as (st2 & -> & Ha2 & Hc2 & Hd2 & Hcur2 & Hi2 & Hs2 & Hcap2).
  unfold holds_nothing, same_settings in *.
  rewrite Hc2, Hc, Ha, <- app_assoc.
  intuition congruence.
Qed.

(** X15: reset is refused silently on a plane that is not initialized
    (it returns true and changes nothing), and on every plane a second
    reset changes nothing. *)
Theorem reset_settles (st : PlaneState) :
  (mInitialized st = false -> reset st = (true, st))
  /\ snd (reset (snd (reset st))) = snd (reset st).
Proof.
  assert (Hun : forall s, mInitialized s = false -> reset s = (true, s)).
  { intros s Hi.
    assert (Hb : invalidateBufferCache s = s)
      by (unfold invalidateBufferCache, not_initialized; rewrite Hi; reflexivity).
    assert (Ha : invalidateActiveBuffers s = s)
      by (unfold invalidateActiveBuffers, not_initialized; rewrite Hi; reflexivity).
    unfold reset. rewrite Hb.
    destruct (Z.of_nat (length (mDataBuffers s)) >? 0); rewrite Ha;
      destruct (Z.of_nat (length (mActiveBuffers s)) >? 0); reflexivity. }
  split; [apply Hun|].
  destruct (mInitialized st) eqn:Hi.
  - assert (Hempty : mDataBuffers (snd (reset st)) = []
                     /\ mActiveBuffers (snd (reset st)) = []).
    { unfold reset, invalidateBufferCache, invalidateActiveBuffers,
        not_initialized; simpl. rewrite Hi; simpl.
      destruct (mDataBuffers st) as [|e rest] eqn:E; simpl; rewrite ?Hi; simpl;
        destruct (mActiveBuffers st) as [|e' rest'] eqn:E'; simpl; auto. }
    destruct Hempty as [Hd Ha].
    assert (Hfix : forall s, mDataBuffers s = [] -> mActiveBuffers s = [] ->
                             reset s = (true, s)).
    { intros s Hds Has. unfold reset. rewrite Hds. simpl. rewrite Has.
      reflexivity. }
    rewrite (Hfix _ Hd Ha). reflexivity.
  - rewrite (Hun st Hi). cbn [snd]. rewrite (Hun st Hi). reflexivity.
Qed.

End Teardown.

(** The plane with buffers 5 and 6 cached and active. *)
Lemma deinitialize_drains_witness :
  mInitialized (deinitialize full_plane) = false
  /\ holds_nothing (deinitialize full_plane)
  /\ mCalls (deinitialize full_plane)
     = mCalls full_plane
       ++ List.map CallUnmap (kv_values (mDataBuffers full_plane))
       ++ List.map CallUnmap (mActiveBuffers full_plane)
  /\ same_settings full_plane (deinitialize full_plane)
  /\ mCacheCapacity (deinitialize full_plane) = mCacheCapacity full_plane.
Proof. apply deinitialize_drains. reflexivity. Defined.

Lemma deinitialize_idempotent_witness :
  deinitialize (deinitialize full_plane) = deinitialize full_plane.
Proof.
  apply (deinitialize_idempotent (consts := spec_constants)).
  exact reachable_full_plane.
Defined.

Lemma reset_drains_witness :
  fst (reset full_plane) = true
  /\ mInitialized (snd (reset full_plane)) = true
  /\ holds_nothing (snd (reset full_plane))
  /\ mCalls (snd (reset full_plane))
     = mCalls full_plane
       ++ List.map CallUnmap (kv_values (mDataBuffers full_plane))
       ++ List.map CallUnmap (mActiveBuffers full_plane)
  /\ same_settings full_plane (snd (reset full_plane))
  /\ mCacheCapacity (snd (reset full_plane)) = mCacheCapacity full_plane.
Proof.
  apply (reset_drains (consts := spec_constants)).
  - exact reachable_full_plane.
  - reflexivity.
Defined.

Lemma reset_settles_witness :
  reset fresh_plane = (true, fresh_plane)
  /\ snd (reset (snd (reset full_plane))) = snd (reset full_plane).
Proof.
  split.
  - apply (proj1 (reset_settles fresh_plane)). reflexivity.
  - apply (proj2 (reset_settles full_plane)).
Defined.

(** ** Looking buffers up after they were set *)

Section Lookup.
Context {consts : PlaneConstants}.

Lemma mapBuffer_found (env : Collaborators) (st : PlaneState) (buffer : DataBuffer) :
  (forall mapper,
     fst (mapBuffer env st buffer) = Some mapper ->
     bm_map env buffer = Some mapper
     /\ kv_find (DataBuffer_getKey buffer)
          (mDataBuffers (snd (mapBuffer env st buffer))) = Some mapper)
  /\ (fst (mapBuffer env st buffer) = None ->
      kv_find (DataBuffer_getKey buffer) (mDataBuffers st) = None ->
      kv_find (DataBuffer_getKey buffer)
        (mDataBuffers (snd (mapBuffer env st buffer))) = None)
  /\ (cache_full st = false ->
      forall key, key <> DataBuffer_getKey buffer ->
      kv_find key (mDataBuffers (snd (mapBuffer env st buffer)))
      = kv_find key (mDataBuffers st)).
Proof.
  unfold mapBuffer, cache_full, invalidateBufferCache, not_initialized.
  split; [|split].
  - intros mapper.
    destruct (_ >=? _); destruct (mInitialized st);
      (destruct (bm_map env buffer) as [m|]; [destruct (kv_add_ok env)|]);
      simpl; intros Heq; try discriminate; injection Heq as ->;
      (split; [reflexivity|]);
      first [apply kv_find_add_same | rewrite Z.eqb_refl; reflexivity].
  - destruct (_ >=? _); destruct (mInitialized st);
      (destruct (bm_map env buffer) as [m|]; [destruct (kv_add_ok env)|]);
      simpl; intros Hnone Hmiss; try discriminate; auto.
  - intros Hfull key Hne. rewrite Hfull.
    destruct (bm_map env buffer) as [m|]; [destruct (kv_add_ok env)|]; simpl;
      try reflexivity.
    apply kv_find_add_other, Hne.
Qed.

(** X16: when mapBuffer returns a mapping, it is the one the buffer
    manager created, and looking the buffer's key up in the cache finds
    it; when mapBuffer fails, a key that was not cached is still not
    cached; and while the cache is below its capacity the entries of all
    other keys stay as they are. *)
Theorem mapBuffer_lookup (env : Collaborators) (st : PlaneState) (buffer : DataBuffer) :
  (forall mapper,
     fst (mapBuffer env st buffer) = Some mapper ->
     bm_map env buffer = Some mapper
     /\ kv_find (DataBuffer_getKey buffer)
          (mDataBuffers (snd (mapBuffer env st buffer))) = Some mapper)
  /\ (fst (mapBuffer env st buffer) = None ->
      kv_find (DataBuffer_getKey buffer) (mDataBuffers st) = None ->
      kv_find (DataBuffer_getKey buffer)
        (mDataBuffers (snd (mapBuffer env st buffer))) = None)
  /\ (cache_full st = false ->
      forall key, key <> DataBuffer_getKey buffer ->
      kv_find key (mDataBuffers (snd (mapBuffer env st buffer)))
      = kv_find key (mDataBuffers st)).
Proof. apply mapBuffer_found. Qed.

Lemma updateActiveBuffers_active (st : PlaneState) (mapper : BufferMapper) :
  isActiveBuffer (updateActiveBuffers st mapper) mapper = true.
Proof.
  unfold updateActiveBuffers.
  destruct (Z.of_nat (length (mActiveBuffers st)) >=? MIN_DATA_BUFFER_COUNT);
    [destruct (mActiveBuffers st) as [|oldest rest] eqn:Ea|];
    match goal with |- context [negb (isActiveBuffer ?s mapper)] =>
      destruct (isActiveBuffer s mapper) eqn:E end;
    cbn [negb]; try exact E;
    unfold isActiveBuffer; simpl; rewrite existsb_app; simpl;
    rewrite Z.eqb_refl; apply orb_true_iff; right; reflexivity.
Qed.

(** X17: after updateActiveBuffers the mapping is in the active queue;
    and while the queue holds fewer than the minimum buffer count, no
    entry that was active is retired. *)
Theorem updateActiveBuffers_admits (st : PlaneState) (mapper : BufferMapper) :
  isActiveBuffer (updateActiveBuffers st mapper) mapper = true
  /\ (Z.of_nat (length (mActiveBuffers st)) < MIN_DATA_BUFFER_COUNT ->
      forall other,
        isActiveBuffer st other = true ->
        isActiveBuffer (updateActiveBuffers st mapper) other = true).
Proof.
  split.
  - apply updateActiveBuffers_active.
  - intros Hlt other Hin. unfold updateActiveBuffers.
    rewrite (geb_false _ _ Hlt).
    destruct (isActiveBuffer st mapper); simpl; [exact Hin|].
    unfold isActiveBuffer in *; simpl. rewrite existsb_app, Hin. reflexivity.
Qed.

Lemma updateActiveBuffers_no_map (st : PlaneState) (mapper : BufferMapper) :
  map_calls (mCalls (updateActiveBuffers st mapper)) = map_calls (mCalls st).
Proof.
  unfold updateActiveBuffers.
  destruct (Z.of_nat (length (mActiveBuffers st)) >=? MIN_DATA_BUFFER_COUNT);
    [destruct (mActiveBuffers st)|];
    destruct (isActiveBuffer _ mapper); simpl;
    rewrite ?map_calls_app; simpl; lia.
Qed.

Lemma bindMapper_result (env : Collaborators) (st : PlaneState) (handle : Z)
    (mapper : BufferMapper) :
  let r := bindMapper env st handle mapper in
  fst r = plane_setDataBuffer env mapper
  /\ mDataBuffers (snd r) = mDataBuffers st
  /\ map_calls (mCalls (snd r)) = map_calls (mCalls st)
  /\ (exists more,
        mCalls (snd r) = mCalls st ++ CallPlaneSetDataBuffer mapper :: more)
  /\ (fst r = true ->
      mCurrentDataBuffer (snd r) = handle
      /\ isActiveBuffer (snd r) mapper = true)
  /\ (fst r = false ->
      mCurrentDataBuffer (snd r) = mCurrentDataBuffer st
      /\ mActiveBuffers (snd r) = mActiveBuffers st).
Proof.
  unfold bindMapper. destruct (plane_setDataBuffer env mapper); simpl.
  - match goal with |- context [updateActiveBuffers ?s mapper] =>
      destruct (updateActiveBuffers_frame s mapper) as (_ & _ & Hd & Hc & _);
      destruct (updateActiveBuffers_calls s mapper) as [more Hmore];
      pose proof (updateActiveBuffers_no_map s mapper) as Hmaps;
      pose proof (updateActiveBuffers_active s mapper) as Hact end.
    simpl in *. rewrite map_calls_app in Hmaps; simpl in Hmaps.
    split; [reflexivity|]. split; [exact Hd|]. split; [lia|].
    split; [exists more; rewrite Hmore, <- app_assoc; reflexivity|].
    split; [auto | discriminate].
  - rewrite map_calls_app; simpl.
    split; [reflexivity|]. split; [reflexivity|]. split; [lia|].
    split; [exists []; reflexivity|]. split; [discriminate | auto].
Qed.

(** X18: when the buffer of the handle is already cached, setDataBuffer
    maps and unmaps nothing in the cache: the cache is unchanged, no map
    call is made, the crop of the plane is passed to the locked buffer and
    to the cached mapper, the buffer is unlocked, and the result is the
    answer of the plane-specific setter for the cached mapper. *)
Theorem setDataBuffer_cache_hit (env : Collaborators) (st : PlaneState)
    (handle : Z) (buffer : DataBuffer) (mapper : BufferMapper) :
  mInitialized st = true -> handle <> 0 ->
  buffer_bit_updated st handle <> 0 ->
  bm_lockDataBuffer env handle = Some buffer ->
  kv_find (DataBuffer_getKey buffer) (mDataBuffers st) = Some mapper ->
  let r := setDataBuffer env st handle in
  fst r = plane_setDataBuffer env mapper
  /\ mDataBuffers (snd r) = mDataBuffers st
  /\ map_calls (mCalls (snd r)) = map_calls (mCalls st)
  /\ (exists more,
        mCalls (snd r)
        = mCalls st
          ++ [CallLockDataBuffer handle;
              CallBufferSetCrop buffer (mSrcCrop st);
              CallMapperSetCrop mapper (mSrcCrop st);
              CallUnlockDataBuffer buffer;
              CallPlaneSetDataBuffer mapper] ++ more)
  /\ mCurrentDataBuffer (snd r)
     = if fst r then handle else mCurrentDataBuffer st.
Proof.
  intros Hi Hh Hm Hlock Hhit r. unfold r.
  rewrite (setDataBuffer_locks env st handle Hi Hh Hm).
  simpl. rewrite Hlock. simpl. rewrite Hhit.
  match goal with |- context [bindMapper env ?s handle mapper] =>
    destruct (bindMapper_result env s handle mapper)
      as (Hr & Hd & Hmaps & [more Hmore] & Hok & Hfail) end.
  simpl in *. rewrite !map_calls_app in Hmaps; simpl in Hmaps.
  split; [exact Hr|]. split; [exact Hd|]. split; [lia|].
  split.
  - exists more. rewrite Hmore, <- !app_assoc. reflexivity.
  - destruct (fst (bindMapper _ _ _ _)); [apply Hok | apply Hfail]; reflexivity.
Qed.


End Lookup.

Lemma mapBuffer_lookup_witness :
  fst (mapBuffer env_ok ready_plane (buffer_of 5)) = Some (mapper_of (buffer_of 5))
  /\ kv_find 5 (mDataBuffers (snd (mapBuffer env_ok ready_plane (buffer_of 5))))
     = Some (mapper_of (buffer_of 5))
  /\ kv_find 5 (mDataBuffers (snd (mapBuffer env_map_fails ready_plane (buffer_of 5))))
     = None.
Proof.
  split; [reflexivity|]. split.
  - destruct (mapBuffer_lookup env_ok ready_plane (buffer_of 5)) as (Hfound & _).
    apply (Hfound (mapper_of (buffer_of 5))). reflexivity.
  - destruct (mapBuffer_lookup env_map_fails ready_plane (buffer_of 5))
      as (_ & Hnone & _).
    apply Hnone; reflexivity.
Defined.

(** At the constants of the spec: with 5 active, admitting 6 leaves both
    active. *)
Lemma updateActiveBuffers_admits_witness :
  isActiveBuffer (updateActiveBuffers bound_plane (mapper_of (buffer_of 6)))
    (mapper_of (buffer_of 6)) = true
  /\ isActiveBuffer (updateActiveBuffers bound_plane (mapper_of (buffer_of 6)))
       (mapper_of (buffer_of 5)) = true.
Proof.
  destruct (updateActiveBuffers_admits (consts := spec_constants)
              bound_plane (mapper_of (buffer_of 6))) as [Hnew Hkept].
  split; [exact Hnew|].
  apply Hkept; [vm_compute; reflexivity | reflexivity].
Defined.

(** At the constants of the spec: buffer 5 is bound and cached, the
    position changes, and 5 is set again. *)
Lemma setDataBuffer_cache_hit_witness :
  fst (setDataBuffer env_ok (setPosition bound_plane 10 20 640 480) 5) = true
  /\ mDataBuffers (snd (setDataBuffer env_ok (setPosition bound_plane 10 20 640 480) 5))
     = mDataBuffers (setPosition bound_plane 10 20 640 480)
  /\ map_calls (mCalls (snd (setDataBuffer env_ok
                               (setPosition bound_plane 10 20 640 480) 5)))
     = map_calls (mCalls (setPosition bound_plane 10 20 640 480)).
Proof.
  destruct (setDataBuffer_cache_hit (consts := spec_constants) env_ok
              (setPosition bound_plane 10 20 640 480) 5
              (buffer_of 5) (mapper_of (buffer_of 5)))
    as (Hr & Hd & Hmaps & _).
  - reflexivity.
  - lia.
  - vm_compute. discriminate.
  - reflexivity.
  - reflexivity.
  - split; [exact Hr | split; [exact Hd | exact Hmaps]].
Defined.


(** ** Failures after the buffer was locked *)

Section LateFailures.
Context {consts : PlaneConstants}.

Lemma mapBuffer_bound (env : Collaborators) (st : PlaneState) (buffer : DataBuffer) :
  mInitialized st = true ->
  mCurrentDataBuffer (snd (mapBuffer env st buffer))
  = if cache_full st then 0 else mCurrentDataBuffer st.
Proof.
  intros Hi. unfold mapBuffer, cache_full, invalidateBufferCache, not_initialized.
  rewrite Hi. simpl.
  destruct (_ >=? _);
    (destruct (bm_map env buffer); [destruct (kv_add_ok env)|]); reflexivity.
Qed.

(** X20: when the plane-specific setter refuses the mapping, setDataBuffer
    returns false, admits nothing to the active queue and does not bind
    the handle.  A cached buffer leaves the cache and the bound buffer as
    they were; a buffer that had to be mapped stays in the cache although
    the call failed, and the bound buffer is the old one, or none if the
    full cache was emptied on the way. *)
Theorem setDataBuffer_setter_refuses (env : Collaborators) (st : PlaneState)
    (handle : Z) (buffer : DataBuffer) :
  (forall mapper, plane_setDataBuffer env mapper = false) ->
  mInitialized st = true -> handle <> 0 ->
  buffer_bit_updated st handle <> 0 ->
  bm_lockDataBuffer env handle = Some buffer ->
  let r := setDataBuffer env st handle in
  fst r = false
  /\ mActiveBuffers (snd r) = mActiveBuffers st
  /\ admissions (mCalls (snd r)) = admissions (mCalls st)
  /\ (forall mapper,
        kv_find (DataBuffer_getKey buffer) (mDataBuffers st) = Some mapper ->
        mDataBuffers (snd r) = mDataBuffers st
        /\ mCurrentDataBuffer (snd r) = mCurrentDataBuffer st)
  /\ (forall mapper,
        kv_find (DataBuffer_getKey buffer) (mDataBuffers st) = None ->
        bm_map env buffer = Some mapper -> kv_add_ok env = true ->
        kv_find (DataBuffer_getKey buffer) (mDataBuffers (snd r)) = Some mapper
        /\ mCurrentDataBuffer (snd r)
           = if cache_full st then 0 else mCurrentDataBuffer st).
Proof.
  intros Hrefuse Hi Hh Hm Hlock r. unfold r.
  rewrite (setDataBuffer_locks env st handle Hi Hh Hm).
  simpl. rewrite Hlock. simpl.
  destruct (kv_find (DataBuffer_getKey buffer) (mDataBuffers st))
    as [cached|] eqn:Ef.
  - unfold bindMapper. rewrite Hrefuse. simpl.
    rewrite !admissions_app; simpl. rewrite !app_nil_r.
    split; [reflexivity|]. split; [reflexivity|]. split; [reflexivity|].
    split; [auto | discriminate].
  - match goal with |- context [mapBuffer env ?s buffer] =>
      pose proof (mapBuffer_frame env s buffer) as Hf;
      pose proof (mapBuffer_bound env s buffer Hi) as Hcur;
      pose proof (mapBuffer_found env s buffer) as (Hfound & _);
      assert (Hres : forall m, bm_map env buffer = Some m ->
                               kv_add_ok env = true ->
                               fst (mapBuffer env s buffer) = Some m)
        by (intros m Hmap Hadd; unfold mapBuffer; rewrite Hmap, Hadd;
            reflexivity);
      destruct (mapBuffer env s buffer) as [[mapper|] s2] end;
      simpl in Hf, Hcur, Hfound, Hres;
      destruct Hf as (_ & _ & Ha & _ & Hadm);
      rewrite !admissions_app in Hadm; simpl in Hadm;
      rewrite !app_nil_r in Hadm.
    + unfold bindMapper. rewrite Hrefuse. simpl.
      rewrite !admissions_app; simpl. rewrite !app_nil_r.
      split; [reflexivity|]. split; [exact Ha|]. split; [exact Hadm|].
      split; [discriminate|].
      intros m _ Hmap Hadd. specialize (Hres m Hmap Hadd).
      injection Hres as ->.
      split; [apply (Hfound m eq_refl) | exact Hcur].
    + simpl. rewrite !admissions_app; simpl. rewrite !app_nil_r.
      split; [reflexivity|]. split; [exact Ha|]. split; [exact Hadm|].
      split; [discriminate|].
      intros m _ Hmap Hadd. specialize (Hres m Hmap Hadd). discriminate.
Qed.

(** X21: when the new mapping cannot be added to the cache, mapBuffer
    unmaps it at once and returns no mapping; the cache holds what it held
    before, or nothing if it was full and has been emptied first. *)
Theorem mapBuffer_add_fails (env : Collaborators) (st : PlaneState)
    (buffer : DataBuffer) (mapper : BufferMapper) :
  mInitialized st = true ->
  bm_map env buffer = Some mapper -> kv_add_ok env = false ->
  let r := mapBuffer env st buffer in
  fst r = None
  /\ mDataBuffers (snd r) = (if cache_full st then [] else mDataBuffers st)
  /\ mCalls (snd r)
     = mCalls st
       ++ (if cache_full st
           then List.map CallUnmap (kv_values (mDataBuffers st)) else [])
       ++ [CallMap buffer; CallUnmap mapper].
Proof.
  intros Hi Hmap Hadd r. unfold r, mapBuffer, cache_full, invalidateBufferCache,
    not_initialized.
  rewrite Hi, Hmap, Hadd. simpl.
  destruct (_ >=? _); simpl; rewrite <- !app_assoc; auto.
Qed.

End LateFailures.

Lemma setDataBuffer_setter_refuses_witness :
  fst (setDataBuffer env_plane_fails ready_plane 5) = false
  /\ mActiveBuffers (snd (setDataBuffer env_plane_fails ready_plane 5)) = []
  /\ kv_find 5 (mDataBuffers (snd (setDataBuffer env_plane_fails ready_plane 5)))
     = Some (mapper_of (buffer_of 5))
  /\ mCurrentDataBuffer (snd (setDataBuffer env_plane_fails ready_plane 5)) = 0.
Proof.
  destruct (setDataBuffer_setter_refuses (consts := spec_constants)
              env_plane_fails ready_plane 5 (buffer_of 5))
    as (Hr & Ha & _ & _ & Hmiss).
  - reflexivity.
  - reflexivity.
  - lia.
  - vm_compute. discriminate.
  - reflexivity.
  - destruct (Hmiss (mapper_of (buffer_of 5))) as [Hfind Hcur]; try reflexivity.
    split; [exact Hr | split; [exact Ha | split; [exact Hfind | exact Hcur]]].
Defined.

Lemma mapBuffer_add_fails_witness :
  fst (mapBuffer env_add_fails ready_plane (buffer_of 5)) = None
  /\ mDataBuffers (snd (mapBuffer env_add_fails ready_plane (buffer_of 5))) = []
  /\ mCalls (snd (mapBuffer env_add_fails ready_plane (buffer_of 5)))
     = [CallMap (buffer_of 5); CallUnmap (mapper_of (buffer_of 5))].
Proof.
  apply (mapBuffer_add_fails env_add_fails ready_plane (buffer_of 5)
           (mapper_of (buffer_of 5))); reflexivity.
Defined.

(** ** Initialization, z-order and device *)

Section Configuration.
Context {consts : PlaneConstants}.

(** X22: initialize always succeeds; for a buffer count below 2^31 the
    capacity it sets is the larger of the count and the minimum buffer
    count, so never below the minimum, and nothing but the capacity and
    the initialized flag is written. *)
Theorem initialize_capacity (st : PlaneState) (bufferCount : Z) :
  1 <= MIN_DATA_BUFFER_COUNT < 2 ^ 31 -> bufferCount < 2 ^ 31 ->
  let r := initialize st bufferCount in
  fst r = true
  /\ mInitialized (snd r) = true
  /\ mCacheCapacity (snd r) = Z.max bufferCount MIN_DATA_BUFFER_COUNT
  /\ MIN_DATA_BUFFER_COUNT <= mCacheCapacity (snd r)
  /\ same_settings st (snd r)
  /\ mDataBuffers (snd r) = mDataBuffers st
  /\ mActiveBuffers (snd r) = mActiveBuffers st
  /\ mCurrentDataBuffer (snd r) = mCurrentDataBuffer st
  /\ mCalls (snd r) = mCalls st.
Proof.
  intros Hmin Hn r. unfold r, initialize, same_settings. simpl.
  assert (Hcap : wrap_int32 (if bufferCount <? MIN_DATA_BUFFER_COUNT
                             then MIN_DATA_BUFFER_COUNT else bufferCount)
                 = Z.max bufferCount MIN_DATA_BUFFER_COUNT).
  { destruct (Z.ltb_spec bufferCount MIN_DATA_BUFFER_COUNT);
      rewrite wrap_int32_small by lia; lia. }
  rewrite Hcap. intuition lia.
Qed.

Lemma drains_keep_placement (st : PlaneState) :
  mZOrder (invalidateBufferCache st) = mZOrder st
  /\ mDevice (invalidateBufferCache st) = mDevice st
  /\ mZOrder (invalidateActiveBuffers st) = mZOrder st
  /\ mDevice (invalidateActiveBuffers st) = mDevice st.
Proof.
  unfold invalidateBufferCache, invalidateActiveBuffers, not_initialized.
  destruct (mInitialized st); simpl; auto.
Qed.

(** X23: the z-order is what the last setZOrder stored and the device
    what the last accepted assignToDevice stored: every other call,
    deinitialize and reset included, leaves both as they are, and
    assignToDevice on a plane that is not initialized is refused without
    changing the device. *)
Theorem placement_survives (st : PlaneState) (op : Op) :
  getZOrder (step st op)
  = match op with
    | OpSetZOrder zorder => zorder
    | _ => getZOrder st
    end
  /\ mDevice (step st op)
     = match op with
       | OpAssignToDevice disp => if mInitialized st then disp else mDevice st
       | _ => mDevice st
       end.
Proof.
  unfold getZOrder.
  destruct op as [n| |x y w h|x y w h|t|env handle| |disp| | |z]; simpl;
    try (split; reflexivity).
  - unfold deinitialize; simpl.
    destruct (negb (Z.of_nat (length (mDataBuffers st)) =? 0));
      match goal with |- context [negb (Z.of_nat (length (mActiveBuffers ?s)) =? 0)] =>
        destruct (negb (Z.of_nat (length (mActiveBuffers s)) =? 0));
        try (destruct (drains_keep_placement s) as (_ & _ & -> & ->))
      end;
      try (destruct (drains_keep_placement st) as (-> & -> & _ & _));
      split; reflexivity.
  - unfold setPosition. destruct (rect_eqb _ x y w h); split; reflexivity.
  - unfold setSourceCrop. destruct (rect_eqb _ x y w h); split; reflexivity.
  - unfold setTransform. destruct (mTransform st =? t); [split; reflexivity|].
    destruct ((t =? PLANE_TRANSFORM_90) || (t =? PLANE_TRANSFORM_180)
              || (t =? PLANE_TRANSFORM_270)); split; reflexivity.
  - destruct (setDataBuffer_frame env st handle) as [Hc _].
    unfold same_configuration in Hc. split; symmetry; tauto.
  - destruct (drains_keep_placement st) as (-> & -> & _ & _).
    split; reflexivity.
  - unfold assignToDevice, not_initialized.
    destruct (mInitialized st); split; reflexivity.
  - unfold reset; simpl.
    destruct (Z.of_nat (length (mDataBuffers st)) >? 0);
      match goal with |- context [Z.of_nat (length (mActiveBuffers ?s)) >? 0] =>
        destruct (Z.of_nat (length (mActiveBuffers s)) >? 0);
        try (destruct (drains_keep_placement s) as (_ & _ & -> & ->))
      end;
      try (destruct (drains_keep_placement st) as (-> & -> & _ & _));
      split; reflexivity.
Qed.

End Configuration.

(** At the constants of the spec: a buffer count of 1 is raised to the
    minimum of 2, a count of 5 is kept. *)
Lemma initialize_capacity_witness :
  mCacheCapacity (snd (initialize fresh_plane 1)) = 2
  /\ mCacheCapacity (snd (initialize fresh_plane 5)) = 5.
Proof.
  split.
  - destruct (initialize_capacity (consts := spec_constants) fresh_plane 1)
      as (_ & _ & Hcap & _); [simpl; lia | lia | exact Hcap].
  - destruct (initialize_capacity (consts := spec_constants) fresh_plane 5)
      as (_ & _ & Hcap & _); [simpl; lia | lia | exact Hcap].
Defined.
